(** * ufc-fight-prediction: the fighter service and the prediction page

    A shallow embedding of [src/service/fighter_service.py] (class
    [FighterService]) and of the callbacks of [src/pages/predict.py]
    ([setFightersByWeightClass], [getFighterStats], [makePrediction]).

    - pandas/numpy [float64] cells and Python floats are Rocq's primitive
      binary64 floats ([PrimFloat]), so [NaN], the infinities and rounding
      behave as in the program;
    - a [DataFrame] is a list of rows (records), a [dict] a [gmap], the
      [defaultdict] a [gmap] whose subscript inserts the default;
    - a column of text that holds no text in any row is read by pandas as
      [float64]: its cells are floats here too, and what the code does
      with them (a NaN nickname, a [TypeError] on the stance) follows;
    - methods run in a small state-and-exception monad over the service
      object, so a raise and a write to an attribute are both visible;
    - the unpickled scikit-learn pipeline and the SHAP explainer are opaque
      functions held by the service object. *)

From Stdlib Require Import Floats ZArith Ascii String List Bool.
From stdpp Require Import gmap strings list pretty.

Local Open Scope Z_scope.
Local Open Scope string_scope.
Local Open Scope list_scope.

(** ** Python exceptions and results *)

Inductive exn : Set :=
| KeyError
| ValueError
| OverflowError
| IndexError
| TypeError.

Inductive result (A : Type) : Type :=
| Ok (a : A)
| Raise (e : exn).
Arguments Ok {A} a.
Arguments Raise {A} e.

Definition result_bind {A B} (r : result A) (k : A → result B) : result B :=
  match r with
  | Ok a => k a
  | Raise e => Raise e
  end.

Fixpoint result_mapM {A B} (f : A → result B) (l : list A) : result (list B) :=
  match l with
  | [] => Ok []
  | x :: l' =>
      result_bind (f x) (λ y,
      result_bind (result_mapM f l') (λ ys, Ok (y :: ys)))
  end.

(** ** Python and numpy primitives *)

Module Py.

(** [x != y] on floats: IEEE inequality, true as soon as one side is NaN. *)
Definition float_ne (x y : float) : bool := negb (PrimFloat.eqb x y).

(** [x > y] on floats. *)
Definition float_gt (x y : float) : bool := PrimFloat.ltb y x.

(** [np.NaN]. *)
Definition NaN : float := PrimFloat.nan.

(** [int(x)] for a float: truncation toward zero; [ValueError] on NaN and
    [OverflowError] on an infinity. *)
Definition int (x : float) : result Z :=
  match Prim2SF x with
  | S754_nan => Raise ValueError
  | S754_infinity _ => Raise OverflowError
  | S754_zero _ => Ok 0
  | S754_finite s m e => Ok (cond_Zopp s (Z.shiftl (Z.pos m) e))
  end.

(** [str(n)] for an integer: its decimal digits. *)
Definition str_int (n : Z) : string := pretty n.

Section StrFloat.
(** [repr_finite] is Python's shortest round-trip rendering of a finite
    float (["187.96"], ["180.0"]); it is the interpreter's own algorithm
    and stays a parameter. *)
Variable repr_finite : float → string.

(** [str(x)] for a float. *)
Definition str_float (x : float) : string :=
  if PrimFloat.is_nan x then "nan"
  else if PrimFloat.is_infinity x then
    (if PrimFloat.ltb x 0 then "-inf" else "inf")
  else repr_finite x.
End StrFloat.

(** The characters [str.strip()] removes among the ASCII ones: space,
    tab, line feed, vertical tab, form feed, carriage return and the
    separators 0x1c to 0x1f. (Strings are byte strings here; the
    whitespace outside ASCII that Python also strips is not modelled.) *)
Definition is_space (c : ascii) : bool :=
  let n := nat_of_ascii c in
  (Nat.eqb n 32 || (Nat.leb 9 n && Nat.leb n 13) || (Nat.leb 28 n && Nat.leb n 31))%bool.

Fixpoint lstrip_chars (l : list ascii) : list ascii :=
  match l with
  | c :: l' => if is_space c then lstrip_chars l' else l
  | [] => []
  end.

(** [s.strip()]. *)
Definition strip (s : string) : string :=
  string_of_list_ascii
    (rev (lstrip_chars (rev (lstrip_chars (list_ascii_of_string s))))).

(** Truthiness of a dropdown value, which is [None] or a string:
    [None] and the empty string are falsy. *)
Definition truthy (v : option string) : bool :=
  match v with
  | Some s => negb (String.eqb s "")
  | None => false
  end.

(** [a[:n]] and [a[-n:]] on a list. *)
Definition first_n {A} (n : nat) (l : list A) : list A := take n l.
Definition last_n {A} (n : nat) (l : list A) : list A :=
  drop (length l - n)%nat l.

End Py.

(** ** Sorting, as [sort_values] does it

    An insertion sort, which keeps the order of equal keys. pandas sorts
    with numpy's quicksort by default: the outcome is the same whenever no
    two keys are equal, and on at most 16 entries, where numpy sorts by
    insertion itself; beyond that it may order equal keys otherwise. A
    statement below that depends on the order of equal keys assumes there
    are none. *)

Section Sort.
Context {A : Type} (le : A → A → bool).

Fixpoint sort_insert (x : A) (l : list A) : list A :=
  match l with
  | [] => [x]
  | y :: l' => if le x y then x :: l else y :: sort_insert x l'
  end.

Fixpoint sort_by (l : list A) : list A :=
  match l with
  | [] => []
  | x :: l' => sort_insert x (sort_by l')
  end.

End Sort.

(** Ascending order on floats with NaN after every number
    ([na_position="last"]). *)
Definition float_le_nan_last (x y : float) : bool :=
  if PrimFloat.is_nan y then true
  else if PrimFloat.is_nan x then false
  else PrimFloat.leb x y.


(** ** Tables

    A cell of a column pandas reads as [object] is a string or missing
    (the [np.nan] object); a cell of a [float64] column is a float. *)

Inductive value : Type :=
| VStr (s : option string)
| VNum (x : float).

(** The dtype of a column shows in its cells: [VStr None] is a missing cell
    of an [object] column, [VNum nan] one of a [float64] column, which is
    how pandas reads a column of text with no text in any row. *)

(** A row of a frame whose columns are only known at run time: the columns
    in order, each with its cell. *)
Definition row : Type := list (string * value).

(** A row of [csv/fighters.csv] as [pd.read_csv] returns it. The columns
    the service reads by name are fields; [stats] holds every other column
    of the file in file order (the per-fight statistics, [is_winner], and
    the stored [..._opponent] and [..._ratio] columns). [Stance] is text in
    a file where some row has a stance, and [float64] in one where none
    has. The four measures are taken to be [float64] columns, as they are
    once a cell is missing or written with a decimal point; a column of
    whole numbers only is read as [int64], with the same values. *)
Record fight_row : Type := FightRow {
  fighter : string;
  weight_class : string;
  date : string;
  Reach_cms : float;
  Height_cms : float;
  wins : float;
  losses : float;
  Stance : value;
  stats : row
}.

(** Probabilities of one scored row, by class label: the columns ["False"]
    and ["True"] of [probas]. *)
Record probs : Type := Probs {
  p_False : float;
  p_True : float
}.

(** The scoring artefacts, opaque. [predict_proba bout] stands for
    [bout[features]] pushed through the encoder, the imputer and the
    classifier's [predict_proba]; [shap_values bout] for the explainer's
    attributions for class [True] on the same encoded and imputed rows, one
    series (encoded column name, value) per row. Either may raise. *)
Record Pipeline : Type := {
  predict_proba : list row → result (list probs)
}.

Record Explainer : Type := {
  shap_values : list row → result (list (list (string * float)))
}.

(** The attributes of a [FighterService] object. *)
Record FighterService : Type := {
  fighters_df : list fight_row;
  fighters : list string;
  weight_to_fighters : gmap string (list string);
  fighters_to_nicks : gmap string value;
  feature_to_name : gmap string string;
  pipeline : Pipeline;
  explainer : Explainer;
  features : list string;
  latest_fights : list fight_row;
  fighters_to_reach : gmap string string;
  fighters_to_height : gmap string string;
  fighters_to_wins : gmap string string;
  fighters_to_losses : gmap string string
}.

(** What [__init__] reads from disk: the two CSV tables and the pickles
    of [pickles.tar.gz], with the explainer [shap.TreeExplainer] builds for
    the pickled classifier. The nickname column is text with [VStr None]
    for a missing nickname when some row has one, and [float64] with
    [VNum nan] in every row when none has. *)
Record artifacts : Type := {
  fighters_csv : list fight_row;
  sherdog_csv : list (string * value);
  feature_to_name_pickle : gmap string string;
  pipeline_pickle : Pipeline;
  tree_explainer : Explainer;
  features_pickle : list string
}.

(** ** The method monad: the service object as state, Python exceptions *)

Definition M (A : Type) : Type := FighterService → result A * FighterService.

Definition ret {A} (a : A) : M A := λ s, (Ok a, s).

Definition bind {A B} (m : M A) (k : A → M B) : M B :=
  λ s, match m s with
       | (Ok a, s') => k a s'
       | (Raise e, s') => (Raise e, s')
       end.

Definition raise {A} (e : exn) : M A := λ s, (Raise e, s).

(** Reading an attribute [self.__x]. *)
Definition attr {A} (x : FighterService → A) : M A := λ s, (Ok (x s), s).

(** The outcome of a call into a library. *)
Definition lift {A} (r : result A) : M A := λ s, (r, s).

Notation "'let*' x ':=' m 'in' k" := (bind m (λ x, k))
  (at level 10, x name, m at level 100, k at level 200).
Notation "'let*' ' p ':=' m 'in' k" := (bind m (λ x, match x with p => k end))
  (at level 10, p pattern, m at level 100, k at level 200).
Notation "'let?' x ':=' r 'in' k" := (result_bind r (λ x, k))
  (at level 10, x name, r at level 100, k at level 200).

(** [d[k]] on a plain [dict]: [KeyError] when the key is absent. *)
Definition dict_getitem {V} (d : gmap string V) (k : string) : result V :=
  match d !! k with
  | Some v => Ok v
  | None => Raise KeyError
  end.

(** [self.__weight_to_fighters[k]]: the attribute is a [defaultdict(list)],
    whose subscript stores a fresh empty list under a missing key before
    returning it. *)
Definition set_weight_to_fighters (m : gmap string (list string))
    (s : FighterService) : FighterService :=
  {| fighters_df := fighters_df s;
     fighters := fighters s;
     weight_to_fighters := m;
     fighters_to_nicks := fighters_to_nicks s;
     feature_to_name := feature_to_name s;
     pipeline := pipeline s;
     explainer := explainer s;
     features := features s;
     latest_fights := latest_fights s;
     fighters_to_reach := fighters_to_reach s;
     fighters_to_height := fighters_to_height s;
     fighters_to_wins := fighters_to_wins s;
     fighters_to_losses := fighters_to_losses s |}.

Definition weight_to_fighters_getitem (k : string) : M (list string) :=
  λ s, match weight_to_fighters s !! k with
       | Some l => (Ok l, s)
       | None => (Ok [], set_weight_to_fighters (<[k := []]> (weight_to_fighters s)) s)
       end.

(** [x in d] for a dict. *)
Definition dict_contains {V} (d : gmap string V) (k : string) : bool :=
  bool_decide (is_Some (d !! k)).

(** A dict comprehension [{k: v for ...}]: later pairs overwrite. *)
Definition dict_of {V} (l : list (string * V)) : gmap string V :=
  foldl (λ d kv, <[kv.1 := kv.2]> d) ∅ l.

Fixpoint result_foldl {A B} (f : A → B → result A) (a : A) (l : list B) : result A :=
  match l with
  | [] => Ok a
  | x :: l' => let? a' := f a x in result_foldl f a' l'
  end.

(** ** Frames *)

Fixpoint assoc {V} (c : string) (r : list (string * V)) : option V :=
  match r with
  | [] => None
  | (c', v) :: r' => if String.eqb c' c then Some v else assoc c r'
  end.

(** [df[c] = v] on one row: overwrite the column, or add it at the end. *)
Fixpoint row_set (c : string) (v : value) (r : row) : row :=
  match r with
  | [] => [(c, v)]
  | (c', v') :: r' =>
      if String.eqb c' c then (c, v) :: r' else (c', v') :: row_set c v r'
  end.

(** A column read as numbers, and as strings; arithmetic on a column of the
    other kind raises. *)
Definition num_col (c : string) (r : row) : result float :=
  match assoc c r with
  | None => Raise KeyError
  | Some (VNum x) => Ok x
  | Some (VStr _) => Raise TypeError
  end.

Definition str_col (c : string) (r : row) : result (option string) :=
  match assoc c r with
  | None => Raise KeyError
  | Some (VStr x) => Ok x
  | Some (VNum _) => Raise TypeError
  end.

(** [s.endswith(suffix)] and [s[:-k]]. *)
Definition ends_with (suffix s : string) : bool :=
  let n := String.length s in
  let k := String.length suffix in
  (Nat.leb k n && String.eqb (substring (n - k) k s) suffix)%bool.

Definition drop_last (k : nat) (s : string) : string :=
  substring 0 (String.length s - k) s.

(** [prefix_re.match(col)] for [prefix_re = r".*(_opponent)|(_ratio)$"]:
    the alternation binds loosest and [match] anchors at the start only, so
    a column matches when it contains ["_opponent"] or is exactly
    ["_ratio"]. (Column names hold no line break.) *)
Definition prefix_re_match (col : string) : bool :=
  (bool_decide (is_Some (String.index 0 "_opponent" col)) || String.eqb col "_ratio")%bool.

(** [df.columns.drop(["is_winner"])] raises [KeyError] when the frame has
    no such column. A frame is its rows here, so it has the column when
    every row has it; the columns of a file without rows are not
    modelled. *)
Definition has_is_winner (df : list fight_row) : bool :=
  forallb (λ r, bool_decide ("is_winner" ∈ (stats r).*1)) df.

(** The columns of [fighters_individual_df]: every column but [is_winner]
    and those [prefix_re] matches. None of the columns read by name is
    among the dropped ones. *)
Definition individual (r : fight_row) : fight_row :=
  {| fighter := fighter r;
     weight_class := weight_class r;
     date := date r;
     Reach_cms := Reach_cms r;
     Height_cms := Height_cms r;
     wins := wins r;
     losses := losses r;
     Stance := Stance r;
     stats := List.filter
                (λ cv, negb (String.eqb cv.1 "is_winner") && negb (prefix_re_match cv.1))%bool
                (stats r) |}.

(** [sort_values(by="date")]: dates are compared as the strings they are. *)
Definition date_le (a b : fight_row) : bool := String.leb (date a) (date b).

(** [groupby("fighter").tail(1)]: of each fighter the last row, the rows
    staying in the order of the frame. *)
Fixpoint groupby_tail1 (df : list fight_row) : list fight_row :=
  match df with
  | [] => []
  | r :: df' =>
      if existsb (λ r', String.eqb (fighter r') (fighter r)) df'
      then groupby_tail1 df'
      else r :: groupby_tail1 df'
  end.

(** [Series.median(skipna=True)]: NaN for a column with no number. *)
Definition median_skipna (l : list float) : float :=
  let v := sort_by PrimFloat.leb (List.filter (λ x, negb (PrimFloat.is_nan x)) l) in
  let n := length v in
  if Nat.eqb n 0 then Py.NaN
  else if Nat.odd n then nth (n / 2) v Py.NaN
  else ((nth (n / 2 - 1) v Py.NaN + nth (n / 2) v Py.NaN) / 2)%float.

(** [Series.replace({np.NaN: m})] on one cell. *)
Definition replace_nan (m x : float) : float :=
  if PrimFloat.is_nan x then m else x.

Definition set_Reach_Height (reach height : float) (r : fight_row) : fight_row :=
  {| fighter := fighter r;
     weight_class := weight_class r;
     date := date r;
     Reach_cms := reach;
     Height_cms := height;
     wins := wins r;
     losses := losses r;
     Stance := Stance r;
     stats := stats r |}.

(** The cells of a row of [__latest_fights] as a frame row, the columns
    read by name standing before the others. Scoring re-indexes the bout by
    [features], so the order shows in one place only: the loop of
    [__makeBoutDf] walks the columns in file order, and for a stored column
    [n_ratio] the value it leaves under [n_ratio_ratio] depends on whether
    [n] stands before [n_ratio] in the file. *)
Definition columns_of (r : fight_row) : row :=
  [ ("fighter", VStr (Some (fighter r)));
    ("weight_class", VStr (Some (weight_class r)));
    ("date", VStr (Some (date r)));
    ("Reach_cms", VNum (Reach_cms r));
    ("Height_cms", VNum (Height_cms r));
    ("wins", VNum (wins r));
    ("losses", VNum (losses r));
    ("Stance", Stance r) ] ++ stats r.

(** [pd.merge(left, right, on="temp_id_", suffixes=("", suffix))]. The key
    column is carried beside each row. A column of [right] whose name is
    also a column of [left] takes the suffix. *)
Definition merge_row (suffix : string) (a b : row) : row :=
  a ++ ((λ cv, (if bool_decide (cv.1 ∈ a.*1) then cv.1 +:+ suffix else cv.1, cv.2)) <$> b).

Definition merge_on_temp_id (suffix : string) (left right : list (Z * row))
    : list (Z * row) :=
  flat_map (λ a,
    flat_map (λ b, if Z.eqb a.1 b.1 then [(a.1, merge_row suffix a.2 b.2)] else [])
      right) left.

(** The numeric columns of a frame whose name ends with ["_opponent"], read
    off the frame's first row (all rows of a frame have the same columns). *)
Definition numeric_opponent_columns (df : list row) : list string :=
  match df with
  | [] => []
  | r :: _ =>
      (List.filter
         (λ cv, match cv.2 with VNum _ => ends_with "_opponent" cv.1 | VStr _ => false end)
         r).*1
  end.

(** One turn of the loop of [__makeBoutDf], on one row:
    [df[col1 + "_ratio"] = (df[col1] + 1) / (df[col2] + 1)]. *)
Definition add_ratio (col : string) (r : row) : result row :=
  let col2 := col in
  let col1 := drop_last 9 col in
  let? x := num_col col1 r in
  let? y := num_col col2 r in
  Ok (row_set (col1 +:+ "_ratio") (VNum ((x + 1) / (y + 1))%float) r).

Definition add_ratio_columns (df : list row) : result (list row) :=
  result_foldl (λ df col, result_mapM (add_ratio col) df) df
    (numeric_opponent_columns df).

(** [df["stance_config"] = df["Stance"] + "-" + df["Stance_opponent"]]. On
    text columns a missing stance on either side leaves the cell missing;
    on a [float64] column, that of a file without any stance, adding the
    string raises [TypeError]. *)
Definition str_add (a b : option string) : option string :=
  match a, b with
  | Some x, Some y => Some (x +:+ y)
  | _, _ => None
  end.

Definition add_stance_config (r : row) : result row :=
  let? a := str_col "Stance" r in
  let? b := str_col "Stance_opponent" r in
  Ok (row_set "stance_config" (VStr (str_add (str_add a (Some "-")) b)) r).

(** ** [FighterService.__init__] *)

(** The body of the loop that fills the [defaultdict]:
    [self.__weight_to_fighters[w].append(f)]. *)
Definition weight_append (d : gmap string (list string)) (r : fight_row)
    : gmap string (list string) :=
  <[weight_class r := default [] (d !! weight_class r) ++ [fighter r]]> d.

Section Init.
Variable repr_finite : float → string.

(** [(str(r) + " cms") if r != np.NaN else "-"], the entry of the reach and
    height maps, [r] being a float: of an [int64] column [str] would give
    the digits alone (["165 cms"], not ["165.0 cms"]). *)
Definition cms_entry (x : float) : string :=
  if Py.float_ne x Py.NaN then Py.str_float repr_finite x +:+ " cms" else "-".

(** [str(int(w)) if w != np.NaN else "-"], the entry of the wins and losses
    maps. *)
Definition count_entry (x : float) : result string :=
  if Py.float_ne x Py.NaN then
    let? n := Py.int x in Ok (Py.str_int n)
  else Ok "-".

Definition init (a : artifacts) : result FighterService :=
  let df := fighters_csv a in
  let fighters_ := elements (list_to_set (fighter <$> df) : gset string) in
  let weight_to_fighters_ := foldl weight_append ∅ df in
  let fighters_to_nicks_ := dict_of (sherdog_csv a) in
  let? fighters_individual_df :=
    if has_is_winner df then Ok (individual <$> df) else Raise KeyError in
  let latest_fights_ := groupby_tail1 (sort_by date_le fighters_individual_df) in
  let fighters_to_reach_ :=
    dict_of ((λ r, (fighter r, cms_entry (Reach_cms r))) <$> latest_fights_) in
  let fighters_to_height_ :=
    dict_of ((λ r, (fighter r, cms_entry (Height_cms r))) <$> latest_fights_) in
  let? wins_ :=
    result_mapM (λ r, let? w := count_entry (wins r) in Ok (fighter r, w))
      latest_fights_ in
  let? losses_ :=
    result_mapM (λ r, let? l := count_entry (losses r) in Ok (fighter r, l))
      latest_fights_ in
  let reach_median := median_skipna (Reach_cms <$> df) in
  let df1 := (λ r, set_Reach_Height (replace_nan reach_median (Reach_cms r)) (Height_cms r) r) <$> df in
  let height_median := median_skipna (Height_cms <$> df1) in
  let df2 := (λ r, set_Reach_Height (Reach_cms r) (replace_nan height_median (Height_cms r)) r) <$> df1 in
  Ok {| fighters_df := df2;
        fighters := fighters_;
        weight_to_fighters := weight_to_fighters_;
        fighters_to_nicks := fighters_to_nicks_;
        feature_to_name := feature_to_name_pickle a;
        pipeline := pipeline_pickle a;
        explainer := tree_explainer a;
        features := features_pickle a;
        latest_fights := latest_fights_;
        fighters_to_reach := fighters_to_reach_;
        fighters_to_height := fighters_to_height_;
        fighters_to_wins := dict_of wins_;
        fighters_to_losses := dict_of losses_ |}.

End Init.

(** ** The lookups *)

(** [nick in (np.NaN, "nan")]: a missing nickname of an [object] column is
    the [np.nan] object itself, which [in] finds by identity; a string is
    found when it is ["nan"]; a float of a [float64] column is a fresh
    object that equals neither, NaN included, and is returned as it is. So
    what [getNickname] returns is a string or a float. *)
Definition getNickname (fighter : string) : M value :=
  let* nicks := attr fighters_to_nicks in
  if negb (dict_contains nicks fighter) then ret (VStr (Some ""))
  else
    let* nick := lift (dict_getitem nicks fighter) in
    match nick with
    | VStr None => ret (VStr (Some ""))
    | VStr (Some n) => if String.eqb n "nan" then ret (VStr (Some "")) else ret nick
    | VNum _ => ret nick
    end.

(** [res in (None, np.NaN, "nan", "nan cms")] for a string [res]. *)
Definition is_nan_text (res : string) : bool :=
  (String.eqb res "nan" || String.eqb res "nan cms")%bool.

Definition getReach (fighter : string) : M string :=
  let* d := attr fighters_to_reach in
  if negb (dict_contains d fighter) then ret "-"
  else
    let* v := lift (dict_getitem d fighter) in
    let res := Py.strip v in
    if is_nan_text res then ret "-" else ret res.

Definition getHeight (fighter : string) : M string :=
  let* d := attr fighters_to_height in
  if negb (dict_contains d fighter) then ret "-"
  else
    let* v := lift (dict_getitem d fighter) in
    let res := Py.strip v in
    if is_nan_text res then ret "-" else ret res.

Definition getWins (fighter : string) : M string :=
  let* d := attr fighters_to_wins in
  if negb (dict_contains d fighter) then ret "-"
  else lift (dict_getitem d fighter).

Definition getLosses (fighter : string) : M string :=
  let* d := attr fighters_to_losses in
  if negb (dict_contains d fighter) then ret "-"
  else lift (dict_getitem d fighter).

(** The string a dropdown value is; used where the value is known to be
    truthy, hence a string. *)
Definition the_str (v : option string) : string := default "" v.

(** [weight_class] is [None] (the default, and a cleared dropdown) or a
    string. The tuple handed back is a copy of the stored list. *)
Definition getAllFighters (weight_class : option string) : M (list string) :=
  if negb (Py.truthy weight_class) then attr fighters
  else
    let* l := weight_to_fighters_getitem (the_str weight_class) in
    ret l.

Definition getWeightClasses : list (string * string) :=
  [ ("Heavyweight", "Heavyweight");
    ("Light Heavyweight (205 lbs.)", "Light Heavyweight");
    ("Middleweight (185 lbs.)", "Middleweight");
    ("Welterweight (170 lbs.)", "Welterweight");
    ("Lightweight (155 lbs.)", "Lightweight");
    ("Featherweight (145 lbs.)", "Featherweight");
    ("Bantamweight (135 lbs.)", "Bantamweight");
    ("Flyweight (125 lbs.)", "Flyweight");
    ("Women's Featherweight (145 lbs.)", "Women's Featherweight");
    ("Women's Bantamweight (135 lbs.)", "Women's Bantamweight");
    ("Women's Flyweight (125 lbs.)", "Women's Flyweight");
    ("Women's Strawweight (115 lbs.)", "Women's Strawweight");
    ("Open Weight", "") ].

(** ** The prediction *)

Record prediction : Type := Prediction {
  confidence : float;
  winner : string;
  pos_shaps : list string;
  neg_shaps : list string
}.

(** [__getByFighter]: the matching rows of [__latest_fights], copied. *)
Definition rows_of_fighter (fighter_name : string) (df : list fight_row)
    : list fight_row :=
  List.filter (λ r, String.eqb (fighter r) fighter_name) df.

Definition getByFighter (fighter_name : string) : M (list fight_row) :=
  let* lf := attr latest_fights in
  ret (rows_of_fighter fighter_name lf).

(** [__makeBoutDf]. [temp_id] is the draw of [np.random.randint(2**31)]
    both frames get as their [temp_id_]. The key is dropped once the two
    merged frames are concatenated rather than at the end: it is not one of
    the [..._opponent] columns the loop walks, and no column of
    [__latest_fights] is named [temp_id__opponent], so the loop does not
    read it either. *)
Definition makeBoutDf (temp_id : Z) (fighter1 fighter2 : string)
    : M (option (list row)) :=
  let* fighter1_df := getByFighter fighter1 in
  let* fighter2_df := getByFighter fighter2 in
  if (negb (Nat.eqb (length fighter1_df) 1) || negb (Nat.eqb (length fighter2_df) 1))%bool
  then ret None
  else
    let keyed1 := (λ r, (temp_id, columns_of r)) <$> fighter1_df in
    let keyed2 := (λ r, (temp_id, columns_of r)) <$> fighter2_df in
    let merged1 := merge_on_temp_id "_opponent" keyed1 keyed2 in
    let merged2 := merge_on_temp_id "_opponent" keyed2 keyed1 in
    let fight_df := (merged1 ++ merged2).*2 in
    let* fight_df := lift (add_ratio_columns fight_df) in
    let* fight_df := lift (result_mapM add_stance_config fight_df) in
    ret (Some fight_df).

(** [__scoreBout]: the class probabilities of every row, and the
    attributions for class [True] of every row ([shaps[True]]). *)
Definition scoreBout (bout : list row)
    : M (list probs * list (list (string * float))) :=
  let* pl := attr pipeline in
  let* probas := lift (predict_proba pl bout) in
  let* ex := attr explainer in
  let* shaps := lift (shap_values ex bout) in
  ret (probas, shaps).

(** [df.iloc[i]]. *)
Definition iloc {A} (i : nat) (df : list A) : M A :=
  match df !! i with
  | Some r => ret r
  | None => raise IndexError
  end.

(** The two averaged probabilities. *)
Definition red_fighter_prob (p0 p1 : probs) : float :=
  ((p_True p0 + p_False p1) / 2)%float.

Definition blue_fighter_prob (p0 p1 : probs) : float :=
  ((p_False p0 + p_True p1) / 2)%float.

(** [shap_values.sort_values()]: ascending by value, and its index. *)
Definition sort_values (sv : list (string * float)) : list (string * float) :=
  sort_by (λ a b, float_le_nan_last a.2 b.2) sv.

(** [self.__feature_to_name[s].strip() if s in self.__feature_to_name else ""]. *)
Definition feature_label (names : gmap string string) (s : string) : M string :=
  if dict_contains names s then
    let* n := lift (dict_getitem names s) in ret (Py.strip n)
  else ret "".

Fixpoint mapM {A B} (f : A → M B) (l : list A) : M (list B) :=
  match l with
  | [] => ret []
  | x :: l' =>
      let* y := f x in
      let* ys := mapM f l' in
      ret (y :: ys)
  end.

Definition doPrediction (temp_id : Z) (red_fighter blue_fighter : option string)
    : M prediction :=
  if (Py.truthy red_fighter && negb (Py.truthy blue_fighter))%bool then
    ret (Prediction 100 (the_str red_fighter) [] [])
  else if (negb (Py.truthy red_fighter) && Py.truthy blue_fighter)%bool then
    ret (Prediction 100 (the_str blue_fighter) [] [])
  else if (negb (Py.truthy red_fighter) && negb (Py.truthy blue_fighter))%bool then
    ret (Prediction 100 "-" [] [])
  else if bool_decide (red_fighter = blue_fighter) then
    ret (Prediction 100 (the_str red_fighter) [] [])
  else
    let* bout := makeBoutDf temp_id (the_str red_fighter) (the_str blue_fighter) in
    match bout with
    | None => ret (Prediction 100 "-" [] [])
    | Some bout =>
        let* '(probas, shaps) := scoreBout bout in
        let* p0 := iloc 0 probas in
        let* p1 := iloc 1 probas in
        let red_prob := red_fighter_prob p0 p1 in
        let blue_prob := blue_fighter_prob p0 p1 in
        let* '(shap_values, winner_prob, winner) :=
          if Py.float_gt red_prob blue_prob then
            let* sv := iloc 0 shaps in ret (sv, red_prob, the_str red_fighter)
          else
            let* sv := iloc 1 shaps in ret (sv, blue_prob, the_str blue_fighter) in
        let shap_values := sort_values shap_values in
        let* names := attr feature_to_name in
        let* neg := mapM (feature_label names) (Py.first_n 3 shap_values.*1) in
        let* pos := mapM (feature_label names) (Py.last_n 3 shap_values.*1) in
        ret (Prediction (winner_prob * 100) winner pos neg)
    end.

(** ** The page: [makePrediction] of [pages/predict.py]

    The markdown is kept as its parts: the winner, the confidence (which
    the page prints with two decimals) and, when both factor lists are
    non-empty, the bullets under "Arguments in Favor" and under "Counter
    Arguments". *)

Inductive page : Type :=
| EmptyMarkdown
| ResultMarkdown (winner : string) (prob : float)
    (arguments : option (list string * list string)).

(** [a, b, c = l]. *)
Definition unpack3 {A} (l : list A) : M (A * A * A) :=
  match l with
  | [a; b; c] => ret (a, b, c)
  | _ => raise ValueError
  end.

(** The bullets of one section: the first label always, the second when it
    is non-empty and differs from the first, the third when it is non-empty
    and is neither of the other two. *)
Definition bullets (l1 l2 l3 : string) : list string :=
  [l1]
  ++ (if (negb (String.eqb l2 "") && negb (String.eqb l2 l1))%bool then [l2] else [])
  ++ (if (negb (String.eqb l3 "") && negb (bool_decide (l3 ∈ [l1; l2])))%bool then [l3] else []).

Definition is_empty {A} (l : list A) : bool :=
  match l with
  | [] => true
  | _ => false
  end.

Definition makePrediction (temp_id : Z) (r_fighter b_fighter : option string)
    : M page :=
  let* p := doPrediction temp_id r_fighter b_fighter in
  if String.eqb (winner p) "-" then ret EmptyMarkdown
  else if (negb (is_empty (pos_shaps p)) && negb (is_empty (neg_shaps p)))%bool then
    let* '(pos1, pos2, pos3) := unpack3 (pos_shaps p) in
    let* '(neg3, neg2, neg1) := unpack3 (neg_shaps p) in
    ret (ResultMarkdown (winner p) (confidence p)
           (Some (bullets pos1 pos2 pos3, bullets neg1 neg2 neg3)))
  else ret (ResultMarkdown (winner p) (confidence p) None).

(** ** The other callbacks of [pages/predict.py] *)

(** An entry of a dropdown's options, [{"value": f, "label": f}]. *)
Record dropdown_option : Type := DropdownOption {
  opt_value : string;
  opt_label : string
}.

(** [v in fighters] for a dropdown value [v], which is [None] or a string,
    and a list of names. *)
Definition in_names (v : option string) (fighters : list string) : bool :=
  match v with
  | Some f => bool_decide (f ∈ fighters)
  | None => false
  end.

(** [setFightersByWeightClass]: the options of both corner dropdowns and
    their two values, a value being cleared when it is not among the
    fighters listed. *)
Definition setFightersByWeightClass (weight red_fighter blue_fighter : option string)
    : M (list dropdown_option * list dropdown_option * option string * option string) :=
  let* fighters := getAllFighters weight in
  let res := (λ f, DropdownOption f f) <$> fighters in
  let red_fighter := if negb (in_names red_fighter fighters) then None else red_fighter in
  let blue_fighter := if negb (in_names blue_fighter fighters) then None else blue_fighter in
  ret (res, res, red_fighter, blue_fighter).

(** The line feed and the double quote of the f-strings. *)
Definition LF : string := String "010"%char "".
Definition DQ : string := String "034"%char "".

(** [if nick] and [f"{nick}"] for what [getNickname] returns: a string is
    truthy when not empty and formats as itself; a float is truthy unless
    zero, NaN included, and formats as [str] renders it. *)
Definition nick_truthy (nick : value) : bool :=
  match nick with
  | VStr (Some n) => negb (String.eqb n "")
  | VStr None => true
  | VNum x => negb (PrimFloat.eqb x 0)
  end.

Section Format.
Variable repr_finite : float → string.

Definition nick_format (nick : value) : string :=
  match nick with
  | VStr (Some n) => n
  | VStr None => "nan"
  | VNum x => Py.str_float repr_finite x
  end.

(** [getFighterStats]: the markdown source shown under a corner. *)
Definition getFighterStats (fighter : option string) : M string :=
  if negb (Py.truthy fighter) then ret ""
  else
    let* nick := getNickname (the_str fighter) in
    let s := if nick_truthy nick then "##### " +:+ DQ +:+ nick_format nick +:+ DQ else "" in
    let* reach := getReach (the_str fighter) in
    let* height := getHeight (the_str fighter) in
    let* wins := getWins (the_str fighter) in
    let* losses := getLosses (the_str fighter) in
    ret (s +:+ LF +:+ LF +:+ "reach: " +:+ reach +:+ LF +:+ LF +:+ "height: " +:+ height).

Definition setRedNick (fighter : option string) : M string := getFighterStats fighter.

Definition setBlueNick (fighter : option string) : M string := getFighterStats fighter.

End Format.

(** [getFightersDF]: the frame as [__init__] left it. *)
Definition getFightersDF : M (list fight_row) := attr fighters_df.

(** ** Calls on the service object *)

Inductive call : Type :=
| call_getAllFighters (weight_class : option string)
| call_getNickname (fighter : string)
| call_getReach (fighter : string)
| call_getHeight (fighter : string)
| call_getWins (fighter : string)
| call_getLosses (fighter : string)
| call_doPrediction (temp_id : Z) (red_fighter blue_fighter : option string).

Inductive answer : Type :=
| names (l : list string)
| nickname (v : value)
| text (s : string)
| predicted (p : prediction).

Definition run (c : call) : M answer :=
  match c with
  | call_getAllFighters w => let* l := getAllFighters w in ret (names l)
  | call_getNickname f => let* t := getNickname f in ret (nickname t)
  | call_getReach f => let* t := getReach f in ret (text t)
  | call_getHeight f => let* t := getHeight f in ret (text t)
  | call_getWins f => let* t := getWins f in ret (text t)
  | call_getLosses f => let* t := getLosses f in ret (text t)
  | call_doPrediction i r b => let* p := doPrediction i r b in ret (predicted p)
  end.

(** ** Sample data

    Python's rendering of a finite float without fractional part (below
    1e16): the digits and [".0"]. The sample tables hold no other. *)
Definition repr_whole (x : float) : string :=
  match Py.int x with
  | Ok n => Py.str_int n +:+ ".0"
  | Raise _ => ""
  end.

(** A table with two fights of one fighter in different weight classes and
    a missing reach; its other columns include the stored [is_winner],
    [..._opponent] and [..._ratio] ones. *)
Definition sample_stats (landed : float) : row :=
  [ ("avg_SIG_STR_landed", VNum landed);
    ("is_winner", VNum 1);
    ("wins_opponent", VNum 2);
    ("Reach_cms_ratio", VNum 1) ].

Definition sample_fighters_csv : list fight_row :=
  [ FightRow "Ann" "Lightweight" "2015-01-10" 170 165 3 1 (VStr (Some "Orthodox")) (sample_stats 20);
    FightRow "Bea" "Welterweight" "2017-03-04" nan 170 7 2 (VStr (Some "Southpaw")) (sample_stats 31);
    FightRow "Ann" "Welterweight" "2018-05-05" 170 165 5 1 (VStr (Some "Orthodox")) (sample_stats 24) ].

(** A classifier that looks at the row it scores: it favours the side with
    more wins. *)
Definition sample_classify (r : row) : probs :=
  match num_col "wins" r, num_col "wins_opponent" r with
  | Ok w, Ok w' => if Py.float_gt w w' then Probs 0.25 0.75 else Probs 0.625 0.375
  | _, _ => Probs 0.5 0.5
  end.

Definition sample_pipeline : Pipeline :=
  {| predict_proba := λ bout, Ok (sample_classify <$> bout) |}.


Definition sample_attribute (r : row) : list (string * float) :=
  [ ("wins", 0.75%float);
    ("stance_config_1", (-0.5)%float);
    ("Height_cms_ratio", (-0.125)%float);
    ("wins_ratio", 0.5%float);
    ("losses_ratio", 0.0625%float);
    ("stance_config_2", 0.25%float);
    ("Reach_cms_ratio", (-0.25)%float) ].

Definition sample_explainer : Explainer :=
  {| shap_values := λ bout, Ok (sample_attribute <$> bout) |}.

Definition sample_feature_to_name : gmap string string :=
  dict_of
    [ ("wins", "Win record");
      ("wins_ratio", "Win record");
      ("losses_ratio", "Loss record");
      ("stance_config_1", "Stance matchup");
      ("stance_config_2", "Stance matchup");
      ("Height_cms_ratio", "Height advantage");
      ("Reach_cms_ratio", "Reach advantage ") ].

Definition sample_artifacts (pl : Pipeline) (csv : list fight_row) : artifacts :=
  {| fighters_csv := csv;
     sherdog_csv := [("Ann", VStr (Some "The Hammer")); ("Bea", VStr None)];
     feature_to_name_pickle := sample_feature_to_name;
     pipeline_pickle := pl;
     tree_explainer := sample_explainer;
     features_pickle := ["wins"; "wins_ratio"; "stance_config"] |}.

(** The service object [__init__] builds from the sample files. *)
Definition sample_latest_fights : list fight_row :=
  [ FightRow "Bea" "Welterweight" "2017-03-04" nan 170 7 2 (VStr (Some "Southpaw"))
      [("avg_SIG_STR_landed", VNum 31); ("Reach_cms_ratio", VNum 1)];
    FightRow "Ann" "Welterweight" "2018-05-05" 170 165 5 1 (VStr (Some "Orthodox"))
      [("avg_SIG_STR_landed", VNum 24); ("Reach_cms_ratio", VNum 1)] ].

Definition sample_service (pl : Pipeline) : FighterService :=
  {| fighters_df :=
       [ FightRow "Ann" "Lightweight" "2015-01-10" 170 165 3 1 (VStr (Some "Orthodox")) (sample_stats 20);
         FightRow "Bea" "Welterweight" "2017-03-04" 170 170 7 2 (VStr (Some "Southpaw")) (sample_stats 31);
         FightRow "Ann" "Welterweight" "2018-05-05" 170 165 5 1 (VStr (Some "Orthodox")) (sample_stats 24) ];
     fighters := ["Ann"; "Bea"];
     weight_to_fighters :=
       dict_of [("Lightweight", ["Ann"]); ("Welterweight", ["Bea"; "Ann"])];
     fighters_to_nicks := dict_of [("Ann", VStr (Some "The Hammer")); ("Bea", VStr None)];
     feature_to_name := sample_feature_to_name;
     pipeline := pl;
     explainer := sample_explainer;
     features := ["wins"; "wins_ratio"; "stance_config"];
     latest_fights := sample_latest_fights;
     fighters_to_reach := dict_of [("Bea", "nan cms"); ("Ann", "170.0 cms")];
     fighters_to_height := dict_of [("Bea", "170.0 cms"); ("Ann", "165.0 cms")];
     fighters_to_wins := dict_of [("Bea", "7"); ("Ann", "5")];
     fighters_to_losses := dict_of [("Bea", "2"); ("Ann", "1")] |}.

(** The same table, with the number of wins missing from the latest fight
    of one fighter. *)
Definition missing_wins_csv : list fight_row :=
  [ FightRow "Ann" "Lightweight" "2015-01-10" 170 165 3 1 (VStr (Some "Orthodox")) (sample_stats 20);
    FightRow "Bea" "Welterweight" "2017-03-04" 168 170 nan 2 (VStr (Some "Southpaw")) (sample_stats 31);
    FightRow "Ann" "Welterweight" "2018-05-05" 170 165 5 1 (VStr (Some "Orthodox")) (sample_stats 24) ].

(** The sample table as pandas reads it when no row has a stance, and
    the nickname table when no row has a nickname: both columns are
    [float64]. *)
Definition no_stance_csv : list fight_row :=
  [ FightRow "Ann" "Lightweight" "2015-01-10" 170 165 3 1 (VNum nan) (sample_stats 20);
    FightRow "Bea" "Welterweight" "2017-03-04" nan 170 7 2 (VNum nan) (sample_stats 31);
    FightRow "Ann" "Welterweight" "2018-05-05" 170 165 5 1 (VNum nan) (sample_stats 24) ].

Definition no_nick_artifacts : artifacts :=
  {| fighters_csv := sample_fighters_csv;
     sherdog_csv := [("Ann", VNum nan); ("Bea", VNum nan)];
     feature_to_name_pickle := sample_feature_to_name;
     pipeline_pickle := sample_pipeline;
     tree_explainer := sample_explainer;
     features_pickle := ["wins"; "wins_ratio"; "stance_config"] |}.

(** ** Properties used in the statements *)

(** The rows of one frame have the same columns, each of one dtype. *)
Definition kinds (r : row) : list (string * bool) :=
  (λ cv, (cv.1, match cv.2 with VNum _ => true | VStr _ => false end)) <$> r.

Definition uniform_columns (df : list fight_row) : Prop :=
  ∀ a b, a ∈ df → b ∈ df → kinds (columns_of a) = kinds (columns_of b).

(** Some row of the file has a stance: the [Stance] column is read as
    text. *)
Definition has_stance (df : list fight_row) : Prop :=
  ∃ r t, r ∈ df ∧ Stance r = VStr (Some t).

(** No row of the file has a stance: the column is read as [float64]. *)
Definition no_stances (df : list fight_row) : Prop :=
  ∀ r, r ∈ df → ∃ x, Stance r = VNum x.

(** A column of floats with a missing cell, which pandas reads as
    [float64] whatever its other cells. *)
Definition has_missing (col : list float) : Prop :=
  ∃ x, x ∈ col ∧ PrimFloat.is_nan x = true.




(** A column of a row that holds a number. *)
Definition numeric_at (c : string) (r : row) : Prop :=
  ∃ x, assoc c r = Some (VNum x).

(** The column names of a row of the latest fights as the constructor
    leaves them: all distinct, none ending in ["_opponent"]. *)
Definition plain_columns (r : fight_row) : Prop :=
  NoDup (columns_of r).*1
  ∧ ∀ c, c ∈ (stats r).*1 → ends_with "_opponent" c = false.

(** The column names of every row of a table are distinct, as
    [pd.read_csv] makes them. *)
Definition distinct_columns (df : list fight_row) : Prop :=
  ∀ r, r ∈ df → NoDup (columns_of r).*1.

(** A merged row of a bout: a fighter's columns, then the opponent's. *)
Definition merged (a b : fight_row) : row :=
  merge_row "_opponent" (columns_of a) (columns_of b).

(** The claim's reading of the weight-class filter: the fighters whose
    latest record is in the class. *)
Definition fighters_with_latest_class (w : string) (s : FighterService)
    : list string :=
  fighter <$> List.filter (λ r, String.eqb (weight_class r) w) (latest_fights s).

(** A method that writes no attribute and does not read the weight map:
    it hands the object back as it got it, and answers the same whatever
    the weight map holds. *)
Definition reader {A} (m : M A) : Prop :=
  ∀ s, (m s).2 = s ∧ ∀ w, (m (set_weight_to_fighters w s)).1 = (m s).1.

(** ** Orders, labels and sample models used by the later properties *)



(** A pipeline that cannot score: a feature it was trained on is not a
    column of the bout. *)
Definition failing_pipeline : Pipeline :=
  {| predict_proba := λ _, Raise KeyError |}.

(** The label shown for an encoded feature: its entry of the label table,
    stripped, or the empty string when the table has none. *)
Definition label_of (names : gmap string string) (c : string) : string :=
  match names !! c with
  | Some n => Py.strip n
  | None => ""
  end.

(** An explainer that attributes two features only. *)
Definition two_feature_explainer : Explainer :=
  {| shap_values :=
       λ bout, Ok ((λ _, [("wins_ratio", 0.5%float); ("Reach_cms_ratio", (-0.25)%float)])
                     <$> bout) |}.

Definition set_explainer (ex : Explainer) (s : FighterService) : FighterService :=
  {| fighters_df := fighters_df s;
     fighters := fighters s;
     weight_to_fighters := weight_to_fighters s;
     fighters_to_nicks := fighters_to_nicks s;
     feature_to_name := feature_to_name s;
     pipeline := pipeline s;
     explainer := ex;
     features := features s;
     latest_fights := latest_fights s;
     fighters_to_reach := fighters_to_reach s;
     fighters_to_height := fighters_to_height s;
     fighters_to_wins := fighters_to_wins s;
     fighters_to_losses := fighters_to_losses s |}.

(** The ratio loop on one row. *)
Definition ratio_row (cols : list string) (r : row) : result row :=
  result_foldl (λ r c, add_ratio c r) r cols.

(** * Proofs *)

Lemma sample_init :
  init repr_whole (sample_artifacts sample_pipeline sample_fighters_csv)
  = Ok (sample_service sample_pipeline).
Proof. vm_compute. reflexivity. Qed.

(** A file without any stance builds a service object on which no bout can
    be built, and a nickname file without any nickname one that returns
    NaN for a nickname and shows it as a heading. *)
Example no_stance_bout_raises :
  ∃ s, init repr_whole (sample_artifacts sample_pipeline no_stance_csv) = Ok s
       ∧ makeBoutDf 7 "Ann" "Bea" s = (Raise TypeError, s)
       ∧ doPrediction 7 (Some "Ann") (Some "Bea") s = (Raise TypeError, s).
Proof. eexists. split; [vm_compute; reflexivity|]. split; vm_compute; reflexivity. Qed.

Example no_nickname_is_nan :
  ∃ s, init repr_whole no_nick_artifacts = Ok s
       ∧ getNickname "Ann" s = (Ok (VNum nan), s)
       ∧ getFighterStats repr_whole (Some "Ann") s
         = (Ok ("##### " +:+ DQ +:+ "nan" +:+ DQ +:+ LF +:+ LF +:+ "reach: 170.0 cms"
                +:+ LF +:+ LF +:+ "height: 165.0 cms"), s).
Proof. eexists. split; [vm_compute; reflexivity|]. split; vm_compute; reflexivity. Qed.

(** The primitives on concrete values. *)
Example int_truncates :
  (Py.int 2.75, Py.int (-2.75), Py.int nan, Py.int infinity)
  = (Ok 2, Ok (-2), Raise ValueError, Raise OverflowError).
Proof. vm_compute. reflexivity. Qed.

Example strip_both_ends : Py.strip "  Reach advantage " = "Reach advantage".
Proof. reflexivity. Qed.

Example prefix_re_keeps_ratio_columns :
  (prefix_re_match "wins_opponent", prefix_re_match "wins_ratio",
   prefix_re_match "_ratio")
  = (true, false, true).
Proof. vm_compute. reflexivity. Qed.

Example sort_values_nan_last :
  (sort_values [("a", 0.5%float); ("b", nan); ("c", (-1)%float); ("d", 0.25%float)]).*1
  = ["c"; "d"; "a"; "b"].
Proof. vm_compute. reflexivity. Qed.

Example sample_bout_columns :
  match (makeBoutDf 7 "Ann" "Bea" (sample_service sample_pipeline)).1 with
  | Ok (Some df) => (assoc "wins_ratio" <$> df, assoc "stance_config" <$> df)
  | _ => ([], [])
  end
  = ([Some (VNum ((5 + 1) / (7 + 1))); Some (VNum ((7 + 1) / (5 + 1)))],
     [Some (VStr (Some "Orthodox-Southpaw")); Some (VStr (Some "Southpaw-Orthodox"))]).
Proof. vm_compute. reflexivity. Qed.

(** ** Floats *)

Section FloatFacts.





(** [x != np.NaN] holds of every float, NaN included. *)
Lemma float_ne_NaN x : Py.float_ne x Py.NaN = true.
Proof.
  unfold Py.float_ne, Py.NaN. rewrite FloatAxioms.eqb_spec. unfold SFeqb.
  replace (Prim2SF nan) with S754_nan by reflexivity.
  by destruct (Prim2SF x).
Qed.

Lemma SFcompare_irrefl_nan x : SFcompare x x ≠ Some Eq → x = S754_nan.
Proof.
  destruct x as [s|s| |s m e]; simpl; try done.
  - by destruct s.
  - rewrite Z.compare_refl, Pos.compare_cont_refl. by destruct s.
Qed.

Lemma int_of_nan x : PrimFloat.is_nan x = true → Py.int x = Raise ValueError.
Proof.
  unfold PrimFloat.is_nan, Py.int. rewrite FloatAxioms.eqb_spec. unfold SFeqb.
  intros H. rewrite (SFcompare_irrefl_nan (Prim2SF x)); [done|].
  intros E. by rewrite E in H.
Qed.

Lemma nan_Prim2SF x : PrimFloat.is_nan x = true → Prim2SF x = S754_nan.
Proof.
  unfold PrimFloat.is_nan. rewrite FloatAxioms.eqb_spec. unfold SFeqb.
  intros H. apply SFcompare_irrefl_nan. intros E. by rewrite E in H.
Qed.

(** NaN is truthy: it is not equal to zero. *)
Lemma nan_ne_zero x : PrimFloat.is_nan x = true → PrimFloat.eqb x 0 = false.
Proof.
  intros H. rewrite FloatAxioms.eqb_spec. unfold SFeqb.
  by rewrite (nan_Prim2SF x H).
Qed.

End FloatFacts.

(** The entries [__init__] computes for a missing number. *)
Lemma cms_entry_nan repr x :
  PrimFloat.is_nan x = true → cms_entry repr x = "nan cms".
Proof.
  intros H. unfold cms_entry, Py.str_float. by rewrite float_ne_NaN, H.
Qed.

Lemma count_entry_nan x :
  PrimFloat.is_nan x = true → count_entry x = Raise ValueError.
Proof.
  intros H. unfold count_entry. by rewrite float_ne_NaN, (int_of_nan x H).
Qed.

(** ** The monad *)

Lemma bind_Ok_inv {A B} (m : M A) (k : A → M B) s b s' :
  bind m k s = (Ok b, s') → ∃ a s1, m s = (Ok a, s1) ∧ k a s1 = (Ok b, s').
Proof.
  unfold bind. destruct (m s) as [[a|e] s1]; [eauto | discriminate].
Qed.

Lemma bind_step {A B} (m : M A) (k : A → M B) s a s1 :
  m s = (Ok a, s1) → bind m k s = k a s1.
Proof. unfold bind. by intros ->. Qed.

Lemma truthy_Some f : f ≠ "" → Py.truthy (Some f) = true.
Proof. intros H. simpl. by apply negb_true_iff, String.eqb_neq. Qed.

Lemma dict_contains_None {V} (d : gmap string V) k :
  d !! k = None → dict_contains d k = false.
Proof.
  intros H. unfold dict_contains. apply bool_decide_eq_false.
  rewrite H. by intros [? ?].
Qed.


(** ** Lookups of unknown fighters (C5) *)

(** C5. For every string [f] that is not a key of the map an accessor
    reads, the accessor returns its placeholder and does not raise:
    [getNickname] the empty string, [getReach], [getHeight], [getWins] and
    [getLosses] the string "-"; the service object is left as it was. *)
Theorem accessors_placeholder_for_unknown (s : FighterService) (f : string) :
  (fighters_to_nicks s !! f = None → getNickname f s = (Ok (VStr (Some "")), s)) ∧
  (fighters_to_reach s !! f = None → getReach f s = (Ok "-", s)) ∧
  (fighters_to_height s !! f = None → getHeight f s = (Ok "-", s)) ∧
  (fighters_to_wins s !! f = None → getWins f s = (Ok "-", s)) ∧
  (fighters_to_losses s !! f = None → getLosses f s = (Ok "-", s)).
Proof.
  repeat split; intros H;
    [unfold getNickname | unfold getReach | unfold getHeight
    | unfold getWins | unfold getLosses];
    unfold bind, attr; by rewrite (dict_contains_None _ _ H).
Qed.

Lemma accessors_placeholder_for_unknown_witness :
  let s := sample_service sample_pipeline in
  (fighters_to_nicks s !! "Zed" = None ∧ getNickname "Zed" s = (Ok (VStr (Some "")), s))
  ∧ (fighters_to_reach s !! "Zed" = None ∧ getReach "Zed" s = (Ok "-", s))
  ∧ (fighters_to_height s !! "Zed" = None ∧ getHeight "Zed" s = (Ok "-", s))
  ∧ (fighters_to_wins s !! "Zed" = None ∧ getWins "Zed" s = (Ok "-", s))
  ∧ (fighters_to_losses s !! "Zed" = None ∧ getLosses "Zed" s = (Ok "-", s)).
Proof.
  intros s.
  destruct (accessors_placeholder_for_unknown s "Zed") as (H1 & H2 & H3 & H4 & H5).
  assert (N1 : fighters_to_nicks s !! "Zed" = None) by (vm_compute; reflexivity).
  assert (N2 : fighters_to_reach s !! "Zed" = None) by (vm_compute; reflexivity).
  assert (N3 : fighters_to_height s !! "Zed" = None) by (vm_compute; reflexivity).
  assert (N4 : fighters_to_wins s !! "Zed" = None) by (vm_compute; reflexivity).
  assert (N5 : fighters_to_losses s !! "Zed" = None) by (vm_compute; reflexivity).
  exact (conj (conj N1 (H1 N1)) (conj (conj N2 (H2 N2)) (conj (conj N3 (H3 N3))
           (conj (conj N4 (H4 N4)) (conj N5 (H5 N5)))))).
Defined.

(** ** The early returns of [doPrediction] (C6, C7, C8) *)

(** C6. For every non-empty string [f], known fighter or not,
    [doPrediction(f, "")] and [doPrediction("", f)] return confidence
    100.0, winner [f] and two empty factor lists; so they do when the empty
    side is [None], the value of a cleared dropdown. *)
Theorem doPrediction_one_side_empty (s : FighterService) (i : Z) (f : string) :
  f ≠ "" →
  doPrediction i (Some f) (Some "") s = (Ok (Prediction 100 f [] []), s) ∧
  doPrediction i (Some "") (Some f) s = (Ok (Prediction 100 f [] []), s) ∧
  doPrediction i (Some f) None s = (Ok (Prediction 100 f [] []), s) ∧
  doPrediction i None (Some f) s = (Ok (Prediction 100 f [] []), s).
Proof.
  intros Hf. unfold doPrediction.
  rewrite (truthy_Some f Hf). by cbn.
Qed.

Lemma doPrediction_one_side_empty_witness :
  let s := sample_service sample_pipeline in
  doPrediction 7 (Some "Nobody") (Some "") s = (Ok (Prediction 100 "Nobody" [] []), s) ∧
  doPrediction 7 (Some "") (Some "Nobody") s = (Ok (Prediction 100 "Nobody" [] []), s) ∧
  doPrediction 7 (Some "Nobody") None s = (Ok (Prediction 100 "Nobody" [] []), s) ∧
  doPrediction 7 None (Some "Nobody") s = (Ok (Prediction 100 "Nobody" [] []), s).
Proof.
  intros s. apply (doPrediction_one_side_empty s 7 "Nobody"). discriminate.
Defined.

(** C7. [doPrediction("", "")] returns confidence 100.0, the winner "-"
    and two empty factor lists; for every non-empty [f],
    [doPrediction(f, f)] returns confidence 100.0, winner [f] and two empty
    factor lists. *)
Theorem doPrediction_both_empty_or_same (s : FighterService) (i : Z) :
  doPrediction i (Some "") (Some "") s = (Ok (Prediction 100 "-" [] []), s) ∧
  ∀ f, f ≠ "" →
    doPrediction i (Some f) (Some f) s = (Ok (Prediction 100 f [] []), s).
Proof.
  split; [done|]. intros f Hf. unfold doPrediction.
  rewrite (truthy_Some f Hf). cbn. by rewrite bool_decide_eq_true_2.
Qed.

Lemma doPrediction_both_empty_or_same_witness :
  let s := sample_service sample_pipeline in
  doPrediction 7 (Some "") (Some "") s = (Ok (Prediction 100 "-" [] []), s) ∧
  doPrediction 7 (Some "Ann") (Some "Ann") s = (Ok (Prediction 100 "Ann" [] []), s).
Proof.
  intros s. destruct (doPrediction_both_empty_or_same s 7) as [H1 H2].
  split; [exact H1 | apply H2; discriminate].
Defined.

Lemma doPrediction_past_guards i red blue :
  red ≠ "" → blue ≠ "" → red ≠ blue →
  doPrediction i (Some red) (Some blue) =
  bind (makeBoutDf i red blue) (λ bout,
    match bout with
    | None => ret (Prediction 100 "-" [] [])
    | Some bout =>
        let* '(probas, shaps) := scoreBout bout in
        let* p0 := iloc 0 probas in
        let* p1 := iloc 1 probas in
        let red_prob := red_fighter_prob p0 p1 in
        let blue_prob := blue_fighter_prob p0 p1 in
        let* '(shap_values, winner_prob, winner) :=
          if Py.float_gt red_prob blue_prob then
            let* sv := iloc 0 shaps in ret (sv, red_prob, red)
          else
            let* sv := iloc 1 shaps in ret (sv, blue_prob, blue) in
        let shap_values := sort_values shap_values in
        let* names := attr feature_to_name in
        let* neg := mapM (feature_label names) (Py.first_n 3 shap_values.*1) in
        let* pos := mapM (feature_label names) (Py.last_n 3 shap_values.*1) in
        ret (Prediction (winner_prob * 100) winner pos neg)
    end).
Proof.
  intros Hr Hb Hne. unfold doPrediction.
  rewrite (truthy_Some red Hr), (truthy_Some blue Hb). cbn.
  rewrite bool_decide_eq_false_2 by congruence. reflexivity.
Qed.

(** C8. For every pair of distinct non-empty names of which at least one
    matches no row or several rows of [__latest_fights], [__makeBoutDf]
    returns [None] and [doPrediction] returns the sentinel: confidence
    100.0, winner "-", two empty factor lists. This holds of every service
    object, whatever its pipeline and explainer do, raising included: the
    bout is not scored. *)
Theorem doPrediction_unresolved_is_sentinel
    (s : FighterService) (i : Z) (red blue : string) :
  red ≠ "" → blue ≠ "" → red ≠ blue →
  length (rows_of_fighter red (latest_fights s)) ≠ 1%nat
  ∨ length (rows_of_fighter blue (latest_fights s)) ≠ 1%nat →
  makeBoutDf i red blue s = (Ok None, s) ∧
  doPrediction i (Some red) (Some blue) s = (Ok (Prediction 100 "-" [] []), s).
Proof.
  intros Hr Hb Hne Hlen.
  assert (Hmk : makeBoutDf i red blue s = (Ok None, s)).
  { unfold makeBoutDf, getByFighter, bind, attr, ret. simpl.
    destruct Hlen as [H|H]; apply Nat.eqb_neq in H; rewrite H; simpl;
      [done | by rewrite orb_true_r]. }
  split; [done|].
  rewrite (doPrediction_past_guards i red blue Hr Hb Hne).
  by rewrite (bind_step _ _ _ _ _ Hmk).
Qed.

Lemma doPrediction_unresolved_is_sentinel_witness :
  let s := sample_service sample_pipeline in
  length (rows_of_fighter "Zed" (latest_fights s)) = 0%nat
  ∧ makeBoutDf 7 "Ann" "Zed" s = (Ok None, s)
  ∧ doPrediction 7 (Some "Ann") (Some "Zed") s = (Ok (Prediction 100 "-" [] []), s).
Proof.
  intros s. split; [reflexivity|].
  apply (doPrediction_unresolved_is_sentinel s 7 "Ann" "Zed");
    try discriminate.
  right. vm_compute. discriminate.
Defined.

(** ** Which calls write (C9) *)

Section Readers.

Lemma reader_ret {A} (a : A) : reader (ret a).
Proof. by intros s. Qed.

Lemma reader_raise {A} e : reader (@raise A e).
Proof. by intros s. Qed.

Lemma reader_lift {A} (r : result A) : reader (lift r).
Proof. by intros s. Qed.

Lemma reader_attr {A} (x : FighterService → A) :
  (∀ s w, x (set_weight_to_fighters w s) = x s) → reader (attr x).
Proof. intros H s. split; [done|]. intros w. unfold attr. simpl. by rewrite H. Qed.

Lemma reader_bind {A B} (m : M A) (k : A → M B) :
  reader m → (∀ a, reader (k a)) → reader (bind m k).
Proof.
  intros Hm Hk s. destruct (Hm s) as [H2 H1]. split.
  - unfold bind. destruct (m s) as [[a|e] s1]; simpl in *; subst; [|done].
    apply Hk.
  - intros w. unfold bind.
    destruct (Hm (set_weight_to_fighters w s)) as [H2' _].
    specialize (H1 w).
    destruct (m (set_weight_to_fighters w s)) as [r' s'].
    destruct (m s) as [r s1]. simpl in *. subst.
    destruct r; [apply Hk | done].
Qed.

Lemma reader_iloc {A} i (df : list A) : reader (iloc i df).
Proof. unfold iloc. destruct (df !! i); [apply reader_ret | apply reader_raise]. Qed.

Lemma reader_unpack3 {A} (l : list A) : reader (unpack3 l).
Proof.
  destruct l as [|a [|b [|c [|d l]]]]; simpl;
    first [apply reader_ret | apply reader_raise].
Qed.

Lemma reader_mapM {A B} (f : A → M B) l : (∀ x, reader (f x)) → reader (mapM f l).
Proof.
  intros Hf. induction l as [|x l IH]; simpl; [apply reader_ret|].
  apply reader_bind; [apply Hf|]. intros y.
  apply reader_bind; [apply IH|]. intros ys. apply reader_ret.
Qed.

End Readers.

Ltac reader_step :=
  first
    [ apply reader_ret | apply reader_raise | apply reader_lift
    | apply reader_iloc | apply reader_unpack3
    | apply reader_attr; reflexivity
    | apply reader_mapM; intros
    | apply reader_bind; [|intros]
    | match goal with
      | |- reader (match ?x with _ => _ end) => destruct x
      end ].

Ltac reader_tac := repeat reader_step.

Lemma reader_feature_label names c : reader (feature_label names c).
Proof. unfold feature_label. reader_tac. Qed.

Lemma reader_getByFighter f : reader (getByFighter f).
Proof. unfold getByFighter. reader_tac. Qed.

Lemma reader_makeBoutDf i f1 f2 : reader (makeBoutDf i f1 f2).
Proof.
  unfold makeBoutDf.
  apply reader_bind; [apply reader_getByFighter | intros].
  apply reader_bind; [apply reader_getByFighter | intros].
  reader_tac.
Qed.

Lemma reader_scoreBout bout : reader (scoreBout bout).
Proof. unfold scoreBout. reader_tac. Qed.

Lemma reader_doPrediction i r b : reader (doPrediction i r b).
Proof.
  unfold doPrediction.
  repeat match goal with
         | |- reader (if ?c then _ else _) => destruct c; [apply reader_ret|]
         end.
  apply reader_bind; [apply reader_makeBoutDf | intros [bout|]]; [|apply reader_ret].
  apply reader_bind; [apply reader_scoreBout | intros [probas shaps]].
  apply reader_bind; [apply reader_iloc | intros p0].
  apply reader_bind; [apply reader_iloc | intros p1].
  cbv zeta.
  apply reader_bind.
  { destruct (Py.float_gt _ _); reader_tac. }
  intros [[sv wp] w].
  apply reader_bind; [reader_tac | intros names].
  apply reader_bind; [apply reader_mapM, reader_feature_label | intros neg].
  apply reader_bind; [apply reader_mapM, reader_feature_label | intros pos].
  apply reader_ret.
Qed.

Lemma reader_makePrediction i r b : reader (makePrediction i r b).
Proof.
  unfold makePrediction.
  apply reader_bind; [apply reader_doPrediction | intros p].
  reader_tac.
Qed.

Lemma reader_run c : (∀ w, c ≠ call_getAllFighters w) → reader (run c).
Proof.
  destruct c; intros Hc; simpl; try (by destruct (Hc weight_class0));
    (apply reader_bind; [|intros; apply reader_ret]).
  - unfold getNickname. reader_tac.
  - unfold getReach. reader_tac.
  - unfold getHeight. reader_tac.
  - unfold getWins. reader_tac.
  - unfold getLosses. reader_tac.
  - apply reader_doPrediction.
Qed.

(** What [getAllFighters] does to the object and what it returns. *)
Lemma getAllFighters_falsy w s :
  Py.truthy w = false → getAllFighters w s = (Ok (fighters s), s).
Proof. intros H. unfold getAllFighters. by rewrite H. Qed.

Lemma getAllFighters_class w s :
  w ≠ "" →
  getAllFighters (Some w) s =
    (Ok (default [] (weight_to_fighters s !! w)),
     match weight_to_fighters s !! w with
     | Some _ => s
     | None => set_weight_to_fighters (<[w := []]> (weight_to_fighters s)) s
     end).
Proof.
  intros H. unfold getAllFighters. rewrite (truthy_Some w H). simpl.
  unfold bind, weight_to_fighters_getitem.
  by destruct (weight_to_fighters s !! w).
Qed.

Lemma run_after_missing_key s w c :
  weight_to_fighters s !! w = None →
  (run c (set_weight_to_fighters (<[w := []]> (weight_to_fighters s)) s)).1
  = (run c s).1.
Proof.
  intros Hw.
  destruct c as [wc| | | | | |];
    try (apply reader_run; intros ?; discriminate).
  unfold run, bind.
  destruct (Py.truthy wc) eqn:Ht.
  - destruct wc as [w'|]; [|discriminate].
    assert (w' ≠ "") as Hne.
    { intros ->. discriminate. }
    rewrite !(getAllFighters_class w' _ Hne). simpl.
    destruct (decide (w = w')) as [->|Hd].
    + by rewrite lookup_insert_eq, Hw.
    + rewrite lookup_insert_ne by done.
      by destruct (weight_to_fighters s !! w').
  - by rewrite !getAllFighters_falsy.
Qed.

Lemma run_getAllFighters_state wc s :
  (run (call_getAllFighters wc) s).2 = (getAllFighters wc s).2.
Proof.
  unfold run, bind. by destruct (getAllFighters wc s) as [[l|e] s1].
Qed.

(** C9, as the code has it. [getAllFighters] with a non-empty weight
    class that is not a key of the weight map stores that key, bound to an
    empty list, and changes nothing else: the service object is no longer
    what it was. Every other call, of [getAllFighters] with no weight
    class, an empty one or one that is a key, and of [getNickname],
    [getReach], [getHeight], [getWins], [getLosses] or [doPrediction],
    leaves the service object as it was. Whichever of the two happens,
    every later call returns what it would have returned without the
    call. *)
Theorem calls_write_only_a_missing_weight_key (c : call) (s : FighterService) :
  (∀ w, c = call_getAllFighters (Some w) → w ≠ "" →
        weight_to_fighters s !! w = None →
        (run c s).2 = set_weight_to_fighters (<[w := []]> (weight_to_fighters s)) s
        ∧ (run c s).2 ≠ s)
  ∧ ((∀ w, c = call_getAllFighters (Some w) → w ≠ "" →
           is_Some (weight_to_fighters s !! w)) →
     (run c s).2 = s)
  ∧ ∀ c', (run c' (run c s).2).1 = (run c' s).1.
Proof.
  assert (Hread : (∀ w, c ≠ call_getAllFighters w) →
                  (run c s).2 = s).
  { intros Hc. apply (reader_run c Hc s). }
  destruct c as [wc| | | | | |];
    try (rewrite Hread by (intros ?; discriminate);
         split; [discriminate | split; done]).
  clear Hread. rewrite run_getAllFighters_state.
  destruct (Py.truthy wc) eqn:Ht.
  - destruct wc as [w|]; [|discriminate].
    assert (w ≠ "") as Hne.
    { intros ->. discriminate. }
    rewrite (getAllFighters_class w s Hne).
    destruct (weight_to_fighters s !! w) as [l|] eqn:Hw; simpl.
    + split; [|split; done].
      intros w' [= <-] _ Hnone. congruence.
    + split; [|split].
      * intros w' [= <-] _ _. split; [done|].
        intros E. apply (f_equal weight_to_fighters) in E. simpl in E.
        apply (f_equal (λ m : gmap string (list string), m !! w)) in E.
        rewrite lookup_insert_eq, Hw in E. discriminate.
      * intros H. destruct (H w eq_refl Hne) as [l Hl]. congruence.
      * intros c'. by apply run_after_missing_key.
  - rewrite (getAllFighters_falsy wc s Ht). simpl.
    split; [|split; done].
    intros w [= ->] Hne _. simpl in Ht. apply negb_false_iff, String.eqb_eq in Ht.
    done.
Qed.

(** C9 as stated fails: listing the fighters of a weight class the table
    does not mention changes the weight map of the service object. *)
Lemma getAllFighters_unknown_class_writes :
  let s := sample_service sample_pipeline in
  (run (call_getAllFighters (Some "Catchweight")) s).2 ≠ s
  ∧ weight_to_fighters s !! "Catchweight" = None
  ∧ weight_to_fighters (run (call_getAllFighters (Some "Catchweight")) s).2
      !! "Catchweight" = Some [].
Proof.
  intros s.
  assert (H1 : weight_to_fighters s !! "Catchweight" = None)
    by (vm_compute; reflexivity).
  assert (H2 : weight_to_fighters
                 (run (call_getAllFighters (Some "Catchweight")) s).2
                 !! "Catchweight" = Some [])
    by (vm_compute; reflexivity).
  split; [|done]. intros E. rewrite E, H1 in H2. discriminate.
Qed.

(** ** What [__init__] stores *)

Lemma init_Ok repr a s :
  init repr a = Ok s →
  fighters s = elements (list_to_set (fighter <$> fighters_csv a) : gset string)
  ∧ weight_to_fighters s = foldl weight_append ∅ (fighters_csv a)
  ∧ latest_fights s
    = groupby_tail1 (sort_by date_le (individual <$> fighters_csv a))
  ∧ fighters_to_reach s
    = dict_of ((λ r, (fighter r, cms_entry repr (Reach_cms r))) <$> latest_fights s)
  ∧ fighters_to_height s
    = dict_of ((λ r, (fighter r, cms_entry repr (Height_cms r))) <$> latest_fights s)
  ∧ (∃ l, result_mapM (λ r, let? w := count_entry (wins r) in Ok (fighter r, w))
            (latest_fights s) = Ok l)
  ∧ (∃ l, result_mapM (λ r, let? w := count_entry (losses r) in Ok (fighter r, w))
            (latest_fights s) = Ok l).
Proof.
  unfold init.
  destruct (has_is_winner (fighters_csv a)); simpl; [|discriminate].
  destruct (result_mapM (λ r, let? w := count_entry (wins r) in Ok (fighter r, w)) _)
    as [lw|] eqn:Ew; simpl; [|discriminate].
  destruct (result_mapM (λ r, let? w := count_entry (losses r) in Ok (fighter r, w)) _)
    as [ll|] eqn:El; simpl; [|discriminate].
  intros [= <-]. simpl. eauto 10.
Qed.

(** The weight map after the loop of [__init__]: under each class, the
    fighter of every row of that class, in the order of the table. *)
Lemma foldl_weight_append df d w :
  default [] (foldl weight_append d df !! w)
  = default [] (d !! w)
    ++ (fighter <$> List.filter (λ r, String.eqb (weight_class r) w) df).
Proof.
  revert d. induction df as [|r df IH]; intros d; simpl.
  - by rewrite app_nil_r.
  - rewrite IH. unfold weight_append.
    destruct (String.eqb_spec (weight_class r) w) as [->|Hne].
    + rewrite lookup_insert_eq. simpl. by rewrite <- app_assoc.
    + by rewrite lookup_insert_ne.
Qed.

Lemma filter_class_none (df : list fight_row) w :
  (∀ r, r ∈ df → weight_class r ≠ w) →
  List.filter (λ r, String.eqb (weight_class r) w) df = [].
Proof.
  induction df as [|r df IH]; intros Hnone; simpl; [done|].
  destruct (String.eqb_spec (weight_class r) w) as [E|_].
  - destruct (Hnone r); [left | done].
  - apply IH. intros r' Hr'. apply Hnone. by right.
Qed.

(** ** The weight-class filter (C3, C10) *)

(** C3, as the code has it. For a non-empty weight class [w],
    [getAllFighters(w)] lists a fighter exactly when some row of the
    statistics table has that fighter in class [w], whether or not that row
    is the fighter's latest; for a class no row has, the result is
    empty. *)
Theorem getAllFighters_lists_who_fought_in_class
    (repr : float → string) (a : artifacts) (s : FighterService) (w : string) :
  init repr a = Ok s → w ≠ "" →
  ∃ l, (getAllFighters (Some w) s).1 = Ok l
       ∧ (∀ f, f ∈ l ↔ ∃ r, r ∈ fighters_csv a ∧ fighter r = f ∧ weight_class r = w)
       ∧ ((∀ r, r ∈ fighters_csv a → weight_class r ≠ w) → l = []).
Proof.
  intros Hinit Hw.
  destruct (init_Ok _ _ _ Hinit) as (_ & Hmap & _).
  exists (fighter <$> List.filter (λ r, String.eqb (weight_class r) w) (fighters_csv a)).
  split; [|split].
  - rewrite (getAllFighters_class w s Hw). simpl.
    by rewrite Hmap, foldl_weight_append, lookup_empty.
  - intros f. rewrite list_elem_of_fmap. split.
    + intros (r & -> & [Hr Hc]%list_elem_of_In%filter_In).
      exists r. split; [by apply list_elem_of_In|]. split; [done|].
      by apply String.eqb_eq.
    + intros (r & Hr & <- & <-). exists r. split; [done|].
      apply list_elem_of_In, filter_In. split; [by apply list_elem_of_In|].
      apply String.eqb_refl.
  - intros Hnone. by rewrite (filter_class_none _ _ Hnone).
Qed.

Lemma getAllFighters_lists_who_fought_in_class_witness :
  let s := sample_service sample_pipeline in
  ∃ l, (getAllFighters (Some "Lightweight") s).1 = Ok l
       ∧ (∀ f, f ∈ l ↔ ∃ r, r ∈ sample_fighters_csv ∧ fighter r = f
                           ∧ weight_class r = "Lightweight")
       ∧ ((∀ r, r ∈ sample_fighters_csv → weight_class r ≠ "Lightweight") → l = []).
Proof.
  intros s.
  apply (getAllFighters_lists_who_fought_in_class repr_whole
           (sample_artifacts sample_pipeline sample_fighters_csv) s "Lightweight").
  - exact sample_init.
  - discriminate.
Defined.

(** C3 as stated fails: the fighter listed under "Lightweight" fought her
    latest fight as a welterweight; no latest record is in the class. *)
Lemma getAllFighters_lists_former_class :
  let s := sample_service sample_pipeline in
  init repr_whole (sample_artifacts sample_pipeline sample_fighters_csv) = Ok s
  ∧ (getAllFighters (Some "Lightweight") s).1 = Ok ["Ann"]
  ∧ fighters_with_latest_class "Lightweight" s = []
  ∧ (weight_class <$> rows_of_fighter "Ann" (latest_fights s)) = ["Welterweight"].
Proof. intros s. split; [exact sample_init|]. by vm_compute. Qed.

(** C10. With an empty string or no weight class, [getAllFighters]
    returns the full fighter tuple, the same for both; [getWeightClasses]
    has an "Open Weight" option, and the value of that option is the empty
    string, so choosing it lists every fighter of the table rather than
    none. *)
Theorem getAllFighters_open_weight_lists_everyone
    (repr : float → string) (a : artifacts) (s : FighterService) :
  init repr a = Ok s →
  getAllFighters (Some "") s = getAllFighters None s
  ∧ ("Open Weight", "") ∈ getWeightClasses
  ∧ (∀ v, ("Open Weight", v) ∈ getWeightClasses →
          v = "" ∧ getAllFighters (Some v) s = getAllFighters None s)
  ∧ ∃ l, getAllFighters None s = (Ok l, s)
         ∧ ∀ f, f ∈ l ↔ ∃ r, r ∈ fighters_csv a ∧ fighter r = f.
Proof.
  intros Hinit. destruct (init_Ok _ _ _ Hinit) as (Hf & _).
  split; [done|]. split; [|split].
  - unfold getWeightClasses.
    do 12 apply list_elem_of_further. apply list_elem_of_here.
  - intros v Hv. unfold getWeightClasses in Hv.
    repeat (apply elem_of_cons in Hv as [Hv|Hv]; [by simplify_eq|]).
    by apply elem_of_nil in Hv.
  - exists (fighters s). split; [done|]. intros f.
    rewrite Hf, elem_of_elements, elem_of_list_to_set, list_elem_of_fmap.
    split; [intros (r & -> & Hr) | intros (r & Hr & <-)]; eauto.
Qed.

Lemma getAllFighters_open_weight_lists_everyone_witness :
  let s := sample_service sample_pipeline in
  getAllFighters (Some "") s = getAllFighters None s
  ∧ ("Open Weight", "") ∈ getWeightClasses
  ∧ (∀ v, ("Open Weight", v) ∈ getWeightClasses →
          v = "" ∧ getAllFighters (Some v) s = getAllFighters None s)
  ∧ ∃ l, getAllFighters None s = (Ok l, s)
         ∧ ∀ f, f ∈ l ↔ ∃ r, r ∈ sample_fighters_csv ∧ fighter r = f.
Proof.
  intros s.
  exact (getAllFighters_open_weight_lists_everyone repr_whole
           (sample_artifacts sample_pipeline sample_fighters_csv) s sample_init).
Defined.

(** ** Missing numbers (C4) *)

(** C4 fails on the code for wins and losses. With the number of wins
    missing from a fighter's latest fight, [w != np.NaN] is true and
    [int(w)] raises: the constructor fails with [ValueError], no service
    object exists and no accessor can be called. *)
Theorem init_raises_on_missing_wins :
  init repr_whole (sample_artifacts sample_pipeline missing_wins_csv)
  = Raise ValueError.
Proof. vm_compute. reflexivity. Qed.

(** ** The factor lists (C2) *)

Lemma mapM_length {A B} (f : A → M B) l s l' s' :
  mapM f l s = (Ok l', s') → length l' = length l.
Proof.
  revert s l' s'. induction l as [|x l IH]; intros s l' s' H; simpl in H.
  - by injection H as <- _.
  - apply bind_Ok_inv in H as (y & s1 & _ & H).
    apply bind_Ok_inv in H as (ys & s2 & Hys & H).
    injection H as <- _. simpl. f_equal. by apply (IH s1 ys s2).
Qed.

Lemma first_n_length {A} n (l : list A) : (length (Py.first_n n l) ≤ n)%nat.
Proof. unfold Py.first_n. rewrite length_take. lia. Qed.

Lemma last_n_length {A} n (l : list A) : (length (Py.last_n n l) ≤ n)%nat.
Proof. unfold Py.last_n. rewrite length_drop. lia. Qed.

Lemma doPrediction_lengths i r b s p s' :
  doPrediction i r b s = (Ok p, s') →
  (length (pos_shaps p) ≤ 3)%nat ∧ (length (neg_shaps p) ≤ 3)%nat.
Proof.
  unfold doPrediction.
  repeat match goal with
         | |- (if ?c then _ else _) s = _ → _ =>
             destruct c; [intros [= <- _]; simpl; lia|]
         end.
  intros H.
  apply bind_Ok_inv in H as ([bout|] & s1 & _ & H);
    [|injection H as <- _; simpl; lia].
  apply bind_Ok_inv in H as ([probas shaps] & s2 & _ & H).
  apply bind_Ok_inv in H as (p0 & s3 & _ & H).
  apply bind_Ok_inv in H as (p1 & s4 & _ & H).
  apply bind_Ok_inv in H as ([[sv wp] w] & s5 & _ & H).
  apply bind_Ok_inv in H as (names & s6 & _ & H).
  apply bind_Ok_inv in H as (neg & s7 & Hneg & H).
  apply bind_Ok_inv in H as (pos & s8 & Hpos & H).
  injection H as <- _. simpl.
  rewrite (mapM_length _ _ _ _ _ Hneg), (mapM_length _ _ _ _ _ Hpos).
  split; [apply last_n_length | apply first_n_length].
Qed.

Lemma NoDup_bullets l1 l2 l3 : NoDup (bullets l1 l2 l3).
Proof.
  unfold bullets.
  destruct (String.eqb_spec l2 "") as [?|?], (String.eqb_spec l2 l1) as [?|?];
    destruct (String.eqb_spec l3 "") as [?|?]; simpl;
    try case_bool_decide; simpl;
    rewrite ?NoDup_cons, ?not_elem_of_cons, ?elem_of_nil, ?NoDup_nil in *;
    intuition congruence.
Qed.

Lemma makePrediction_sections i r b s w c favor counter s' :
  makePrediction i r b s = (Ok (ResultMarkdown w c (Some (favor, counter))), s') →
  NoDup favor ∧ NoDup counter.
Proof.
  unfold makePrediction. intros H.
  apply bind_Ok_inv in H as (p & s1 & _ & H).
  destruct (String.eqb (winner p) "-"); [discriminate|].
  destruct (negb (is_empty (pos_shaps p)) && negb (is_empty (neg_shaps p)))%bool;
    [|discriminate].
  apply bind_Ok_inv in H as ([[pos1 pos2] pos3] & s2 & _ & H).
  apply bind_Ok_inv in H as ([[neg3 neg2] neg1] & s3 & _ & H).
  injection H as _ _ <- <- _. split; apply NoDup_bullets.
Qed.

(** C2, as the code has it. Each of the two factor lists [doPrediction]
    returns has at most 3 entries. Repeated labels are dropped only when
    [makePrediction] renders the lists, and only within a section: no label
    is shown twice under "Arguments in Favor", and none twice under
    "Counter Arguments". *)
Theorem factor_lists_short_and_sections_without_repeats
    (s : FighterService) (i : Z) (r b : option string) :
  (∀ p s', doPrediction i r b s = (Ok p, s') →
     (length (pos_shaps p) ≤ 3)%nat ∧ (length (neg_shaps p) ≤ 3)%nat)
  ∧ (∀ w c favor counter s',
       makePrediction i r b s
       = (Ok (ResultMarkdown w c (Some (favor, counter))), s') →
       NoDup favor ∧ NoDup counter).
Proof.
  split.
  - intros p s'. apply doPrediction_lengths.
  - intros w c favor counter s'. apply makePrediction_sections.
Qed.

Lemma factor_lists_short_and_sections_without_repeats_witness :
  let s := sample_service sample_pipeline in
  let pos := ["Stance matchup"; "Win record"; "Win record"] in
  let neg := ["Stance matchup"; "Reach advantage"; "Height advantage"] in
  let favor := ["Stance matchup"; "Win record"] in
  let counter := ["Height advantage"; "Reach advantage"; "Stance matchup"] in
  (doPrediction 7 (Some "Ann") (Some "Bea") s
   = (Ok (Prediction 68.75 "Bea" pos neg), s)
   ∧ (length pos ≤ 3)%nat ∧ (length neg ≤ 3)%nat)
  ∧ (makePrediction 7 (Some "Ann") (Some "Bea") s
     = (Ok (ResultMarkdown "Bea" 68.75 (Some (favor, counter))), s)
     ∧ NoDup favor ∧ NoDup counter).
Proof.
  intros s pos neg favor counter.
  destruct (factor_lists_short_and_sections_without_repeats
              s 7 (Some "Ann") (Some "Bea")) as [H1 H2].
  assert (E1 : doPrediction 7 (Some "Ann") (Some "Bea") s
               = (Ok (Prediction 68.75 "Bea" pos neg), s))
    by (vm_compute; reflexivity).
  assert (E2 : makePrediction 7 (Some "Ann") (Some "Bea") s
               = (Ok (ResultMarkdown "Bea" 68.75 (Some (favor, counter))), s))
    by (vm_compute; reflexivity).
  exact (conj (conj E1 (H1 _ _ E1)) (conj E2 (H2 _ _ _ _ _ E2))).
Defined.

(** C2 as stated fails: in a scored prediction the supporting list holds
    "Win record" twice (two features share the label), and "Stance
    matchup" stands in both lists; the page then shows "Stance matchup" in
    both sections. *)
Lemma doPrediction_repeats_labels :
  let s := sample_service sample_pipeline in
  let pos := ["Stance matchup"; "Win record"; "Win record"] in
  let neg := ["Stance matchup"; "Reach advantage"; "Height advantage"] in
  doPrediction 7 (Some "Ann") (Some "Bea") s
  = (Ok (Prediction 68.75 "Bea" pos neg), s)
  ∧ ¬ NoDup pos
  ∧ ("Stance matchup" ∈ pos ∧ "Stance matchup" ∈ neg)
  ∧ makePrediction 7 (Some "Ann") (Some "Bea") s
    = (Ok (ResultMarkdown "Bea" 68.75
             (Some (["Stance matchup"; "Win record"],
                    ["Height advantage"; "Reach advantage"; "Stance matchup"]))), s).
Proof.
  intros s pos neg. split; [vm_compute; reflexivity|]. split.
  - intros H. apply NoDup_cons in H as [_ H]. apply NoDup_cons in H as [H _].
    apply H. by left.
  - split; [split; by left|]. vm_compute. reflexivity.
Qed.

(** The same slip, seen in general: a latest record without wins or
    without losses makes the constructor raise; one without reach or height
    is stored as "nan cms", which the accessor turns into "-". *)

Lemma result_mapM_Raise {A B} (f : A → result B) l x e :
  x ∈ l → f x = Raise e → ∃ e', result_mapM f l = Raise e'.
Proof.
  intros Hx Hf. induction l as [|y l IH]; [by apply elem_of_nil in Hx|].
  simpl. destruct (f y) as [b|e1] eqn:Ey; simpl; [|by eexists].
  apply elem_of_cons in Hx as [->|Hx]; [congruence|].
  destruct (IH Hx) as [e' ->]. by eexists.
Qed.

Lemma init_raises_when_latest_count_missing repr a r :
  r ∈ groupby_tail1 (sort_by date_le (individual <$> fighters_csv a)) →
  PrimFloat.is_nan (wins r) = true ∨ PrimFloat.is_nan (losses r) = true →
  ∃ e, init repr a = Raise e.
Proof.
  intros Hr Hnan. unfold init.
  destruct (has_is_winner (fighters_csv a)); simpl; [|by eexists].
  destruct (result_mapM (λ r, let? w := count_entry (wins r) in Ok (fighter r, w)) _)
    as [lw|e] eqn:Ew; simpl; [|by eexists].
  destruct Hnan as [Hw|Hl].
  - destruct (result_mapM_Raise
                (λ r, let? w := count_entry (wins r) in Ok (fighter r, w))
                _ r ValueError Hr) as [e He].
    + by rewrite (count_entry_nan _ Hw).
    + congruence.
  - destruct (result_mapM_Raise
                (λ r, let? w := count_entry (losses r) in Ok (fighter r, w))
                _ r ValueError Hr) as [e ->].
    + by rewrite (count_entry_nan _ Hl).
    + by eexists.
Qed.

Lemma groupby_tail1_subset df r : r ∈ groupby_tail1 df → r ∈ df.
Proof.
  induction df as [|a df IH]; simpl; [done|].
  destruct (existsb _ df); [by right; apply IH|].
  intros [->|H]%elem_of_cons; [by left | by right; apply IH].
Qed.

(** One row per fighter in [__latest_fights]. *)
Lemma groupby_tail1_NoDup df : NoDup (fighter <$> groupby_tail1 df).
Proof.
  induction df as [|a df IH]; simpl; [apply NoDup_nil_2|].
  destruct (existsb _ df) eqn:E; [done|].
  rewrite fmap_cons. apply NoDup_cons. split; [|done].
  intros (r & Hf & Hr%groupby_tail1_subset)%list_elem_of_fmap.
  apply not_true_iff_false in E. apply E, existsb_exists.
  exists r. split; [by apply list_elem_of_In | by apply String.eqb_eq].
Qed.

Lemma foldl_insert_notin {V} (l : list (string * V)) (d : gmap string V) k :
  k ∉ l.*1 →
  foldl (λ (d : gmap string V) kv, <[kv.1 := kv.2]> d) d l !! k = d !! k.
Proof.
  revert d. induction l as [|[k' v'] l IH]; intros d Hk; simpl; [done|].
  simpl in Hk. apply not_elem_of_cons in Hk as [Hne Hk].
  rewrite IH by done. by rewrite lookup_insert_ne.
Qed.

Lemma dict_of_lookup {V} (l : list (string * V)) k v :
  NoDup l.*1 → (k, v) ∈ l → dict_of l !! k = Some v.
Proof.
  unfold dict_of. generalize (∅ : gmap string V).
  induction l as [|[k' v'] l IH]; intros d Hnd Hin; [by apply elem_of_nil in Hin|].
  simpl in *. apply NoDup_cons in Hnd as [Hk' Hnd].
  apply elem_of_cons in Hin as [[= -> ->]|Hin].
  - rewrite foldl_insert_notin by done. apply lookup_insert_eq.
  - by apply IH.
Qed.

Lemma latest_entry_lookup {V} (e : fight_row → V) df r :
  r ∈ groupby_tail1 df →
  dict_of ((λ r, (fighter r, e r)) <$> groupby_tail1 df) !! fighter r = Some (e r).
Proof.
  intros Hr. apply dict_of_lookup.
  - rewrite <- list_fmap_compose. apply groupby_tail1_NoDup.
  - apply list_elem_of_fmap. by exists r.
Qed.

Lemma cms_accessor_nan f (get : FighterService → gmap string string) s :
  get s !! f = Some "nan cms" →
  (let* d := attr get in
   if negb (dict_contains d f) then ret "-"
   else
     let* v := lift (dict_getitem d f) in
     let res := Py.strip v in
     if is_nan_text res then ret "-" else ret res) s = (Ok "-", s).
Proof.
  intros H. unfold bind, attr, lift, dict_contains, dict_getitem. rewrite H.
  rewrite bool_decide_eq_true_2 by eauto. reflexivity.
Qed.

Lemma missing_reach_height_give_placeholder repr a s r :
  init repr a = Ok s → r ∈ latest_fights s →
  (PrimFloat.is_nan (Reach_cms r) = true → getReach (fighter r) s = (Ok "-", s))
  ∧ (PrimFloat.is_nan (Height_cms r) = true → getHeight (fighter r) s = (Ok "-", s)).
Proof.
  intros Hinit Hr.
  destruct (init_Ok _ _ _ Hinit) as (_ & _ & Hl & Hreach & Hheight & _).
  rewrite Hl in Hr, Hreach, Hheight.
  split; intros Hnan.
  - apply (cms_accessor_nan (fighter r) fighters_to_reach).
    by rewrite Hreach, (latest_entry_lookup _ _ r Hr), (cms_entry_nan _ _ Hnan).
  - apply (cms_accessor_nan (fighter r) fighters_to_height).
    by rewrite Hheight, (latest_entry_lookup _ _ r Hr), (cms_entry_nan _ _ Hnan).
Qed.

(** On the sample table: the fighter without a reach is shown "-". *)
Example missing_reach_is_dash :
  getReach "Bea" (sample_service sample_pipeline)
  = (Ok "-", sample_service sample_pipeline).
Proof.
  apply (missing_reach_height_give_placeholder repr_whole
           (sample_artifacts sample_pipeline sample_fighters_csv)
           (sample_service sample_pipeline)
           (FightRow "Bea" "Welterweight" "2017-03-04" nan 170 7 2 (VStr (Some "Southpaw"))
              [("avg_SIG_STR_landed", VNum 31); ("Reach_cms_ratio", VNum 1)])).
  - exact sample_init.
  - by left.
  - reflexivity.
Qed.

(** ** Argument order (C1) *)

Section BoutSymmetry.


Lemma kinds_names (r r' : row) : kinds r = kinds r' → r.*1 = r'.*1.
Proof.
  revert r'. induction r as [|[c v] r IH]; intros [|[c' v'] r'] H; simpl in *;
    try discriminate; [done|].
  injection H as -> _ H. f_equal. by apply IH.
Qed.


Lemma kinds_columns_of (a b : fight_row) :
  kinds [("Stance", Stance a)] = kinds [("Stance", Stance b)] →
  kinds (stats a) = kinds (stats b) → kinds (columns_of a) = kinds (columns_of b).
Proof.
  intros Hs H. unfold columns_of, kinds in *. rewrite !fmap_app.
  simpl in *. injection Hs as Hs. by rewrite Hs, H.
Qed.

Lemma kinds_columns_of_inv (a b : fight_row) :
  kinds (columns_of a) = kinds (columns_of b) →
  kinds [("Stance", Stance a)] = kinds [("Stance", Stance b)]
  ∧ kinds (stats a) = kinds (stats b).
Proof.
  unfold columns_of, kinds. simpl. intros H. injection H as Hs H.
  by rewrite Hs.
Qed.

(** An operation applied row by row to a frame of two rows succeeds on the
    frame with the rows exchanged, with the results exchanged. *)
Lemma result_mapM_two {A B} (f : A → result B) x y l :
  result_mapM f [x; y] = Ok l ↔ ∃ x' y', l = [x'; y'] ∧ f x = Ok x' ∧ f y = Ok y'.
Proof.
  simpl. destruct (f x) as [x'|]; simpl.
  - destruct (f y) as [y'|]; simpl.
    + split; [intros [= <-]; eauto | intros (? & ? & -> & [= <-] & [= <-]); done].
    + split; [discriminate | intros (? & ? & _ & _ & ?); discriminate].
  - split; [discriminate | intros (? & ? & _ & ? & _); discriminate].
Qed.

Lemma result_mapM_swap {A B} (f : A → result B) x y l :
  result_mapM f [x; y] = Ok l →
  ∃ x' y', l = [x'; y'] ∧ result_mapM f [y; x] = Ok [y'; x'].
Proof.
  intros (x' & y' & -> & Hx & Hy)%result_mapM_two.
  exists x', y'. split; [done|]. apply result_mapM_two. eauto.
Qed.

Lemma ratio_loop_swap cols x y l :
  result_foldl (λ df col, result_mapM (add_ratio col) df) [x; y] cols = Ok l →
  ∃ x' y', l = [x'; y']
    ∧ result_foldl (λ df col, result_mapM (add_ratio col) df) [y; x] cols
      = Ok [y'; x'].
Proof.
  revert x y. induction cols as [|c cols IH]; intros x y H.
  - simpl in H. injection H as <-. eauto.
  - cbn [result_foldl] in H |- *.
    destruct (result_mapM (add_ratio c) [x; y]) as [df|] eqn:E; [|discriminate].
    apply result_mapM_swap in E as (x1 & y1 & -> & E).
    rewrite E. cbn [result_bind] in H |- *. by apply IH.
Qed.

Lemma makeBoutDf_resolved s i f1 f2 a b :
  rows_of_fighter f1 (latest_fights s) = [a] →
  rows_of_fighter f2 (latest_fights s) = [b] →
  makeBoutDf i f1 f2 s
  = (match result_bind (add_ratio_columns [merged a b; merged b a])
             (result_mapM add_stance_config) with
     | Ok df => Ok (Some df)
     | Raise e => Raise e
     end, s).
Proof.
  intros Ha Hb. unfold makeBoutDf, getByFighter, bind, attr, ret, lift.
  rewrite Ha, Hb. cbn -[add_ratio_columns add_stance_config merge_row columns_of].
  rewrite Z.eqb_refl. cbn -[add_ratio_columns add_stance_config merge_row columns_of].
  fold (merged a b) (merged b a).
  destruct (add_ratio_columns [merged a b; merged b a]) as [df|]; [|done].
  cbn -[add_stance_config]. by destruct (result_mapM add_stance_config df).
Qed.


Lemma rows_of_fighter_elem f df a l : rows_of_fighter f df = a :: l → a ∈ df.
Proof.
  intros H. apply list_elem_of_In.
  apply (proj1 (filter_In (λ r, String.eqb (fighter r) f) a df)).
  unfold rows_of_fighter in H. rewrite H. by left.
Qed.





End BoutSymmetry.

(** The latest-fight rows share their columns when the rows of the file
    do. *)
Lemma sort_insert_elem {A} (le : A → A → bool) x l y :
  y ∈ sort_insert le x l → y = x ∨ y ∈ l.
Proof.
  induction l as [|z l IH]; simpl.
  - intros [->|[]%elem_of_nil]%elem_of_cons. by left.
  - destruct (le x z).
    + intros [->|H]%elem_of_cons; [by left | by right].
    + intros [->|H]%elem_of_cons; [right; by left|].
      destruct (IH H) as [->|H']; [by left | right; by right].
Qed.

Lemma sort_by_elem {A} (le : A → A → bool) l y : y ∈ sort_by le l → y ∈ l.
Proof.
  induction l as [|x l IH]; simpl; [done|].
  intros [->|H]%sort_insert_elem; [by left | right; by apply IH].
Qed.

Lemma kinds_filter_by_name (P : string → bool) (a b : row) :
  kinds a = kinds b →
  kinds (List.filter (λ cv, P cv.1) a) = kinds (List.filter (λ cv, P cv.1) b).
Proof.
  revert b. induction a as [|[c v] a IH]; intros [|[c' v'] b] H;
    simpl in H; try discriminate; [done|].
  injection H as -> Hv H. simpl.
  destruct (P c'); simpl; [f_equal; [by rewrite Hv|]|]; by apply IH.
Qed.

Lemma init_uniform_columns repr a s :
  init repr a = Ok s →
  uniform_columns (fighters_csv a) → uniform_columns (latest_fights s).
Proof.
  intros Hinit Hu. destruct (init_Ok _ _ _ Hinit) as (_ & _ & -> & _).
  assert (Hin : ∀ r, r ∈ groupby_tail1 (sort_by date_le (individual <$> fighters_csv a)) →
                     ∃ r0, r0 ∈ fighters_csv a ∧ r = individual r0).
  { intros r Hr%groupby_tail1_subset%sort_by_elem%list_elem_of_fmap.
    destruct Hr as (r0 & -> & Hr0). eauto. }
  intros r1 r2 (a1 & Ha1 & ->)%Hin (a2 & Ha2 & ->)%Hin.
  destruct (kinds_columns_of_inv _ _ (Hu a1 a2 Ha1 Ha2)) as [Hs Hk].
  apply kinds_columns_of; [done|]. simpl.
  by apply (kinds_filter_by_name
           (λ c, negb (String.eqb c "is_winner") && negb (prefix_re_match c))%bool).
Qed.

(** ** Building the bout *)

Section Strings.

Lemma length_append s t : String.length (s +:+ t) = (String.length s + String.length t)%nat.
Proof. induction s as [|c s IH]; simpl; [done | by rewrite IH]. Qed.

Lemma substring_0_append s t : substring 0 (String.length s) (s +:+ t) = s.
Proof.
  induction s as [|c s IH]; simpl; [by destruct t | by rewrite IH].
Qed.

Lemma substring_0_length t : substring 0 (String.length t) t = t.
Proof. induction t as [|c t IH]; simpl; [done | by rewrite IH]. Qed.

Lemma substring_skip_append s t m :
  substring (String.length s) m (s +:+ t) = substring 0 m t.
Proof. induction s as [|c s IH]; simpl; done. Qed.

Lemma drop_last_append s t : drop_last (String.length t) (s +:+ t) = s.
Proof.
  unfold drop_last. rewrite length_append, Nat.add_sub. apply substring_0_append.
Qed.

Lemma ends_with_append s t : ends_with t (s +:+ t) = true.
Proof.
  unfold ends_with. rewrite length_append, Nat.add_sub.
  rewrite substring_skip_append, substring_0_length, String.eqb_refl.
  rewrite andb_true_r. apply Nat.leb_le. lia.
Qed.

Lemma append_inj_l s s' t : s +:+ t = s' +:+ t → s = s'.
Proof.
  intros H. rewrite <- (drop_last_append s t), <- (drop_last_append s' t).
  by rewrite H.
Qed.

Lemma index_None_ends_with suffix c :
  suffix ≠ "" → String.index 0 suffix c = None → ends_with suffix c = false.
Proof.
  intros Hne Hi. unfold ends_with.
  destruct (Nat.leb _ _); [|done]. simpl.
  apply String.eqb_neq.
  apply (index_correct3 0 _ suffix c Hi Hne). lia.
Qed.

End Strings.

Section BoutBuilds.


Lemma assoc_app {V} c (l1 l2 : list (string * V)) :
  assoc c (l1 ++ l2)
  = match assoc c l1 with Some v => Some v | None => assoc c l2 end.
Proof.
  induction l1 as [|[c' v'] l1 IH]; simpl; [done|].
  by destruct (String.eqb c' c).
Qed.

Lemma assoc_notin {V} c (l : list (string * V)) : c ∉ l.*1 → assoc c l = None.
Proof.
  induction l as [|[c' v'] l IH]; simpl; [done|].
  intros [Hne Hl]%not_elem_of_cons.
  destruct (String.eqb_spec c' c); [congruence | by apply IH].
Qed.

Lemma assoc_in {V} c (l : list (string * V)) : c ∈ l.*1 → is_Some (assoc c l).
Proof.
  induction l as [|[c' v'] l IH]; simpl; [by intros ?%elem_of_nil|].
  intros [->|H]%elem_of_cons.
  - rewrite String.eqb_refl. eauto.
  - destruct (String.eqb c' c); [eauto | by apply IH].
Qed.

Lemma assoc_elem {V} c v (l : list (string * V)) :
  NoDup l.*1 → (c, v) ∈ l → assoc c l = Some v.
Proof.
  induction l as [|[c' v'] l IH]; simpl; [by intros _ ?%elem_of_nil|].
  intros [Hc' Hnd]%NoDup_cons [[= -> ->]|Hin]%elem_of_cons.
  - by rewrite String.eqb_refl.
  - destruct (String.eqb_spec c' c) as [->|_]; [|by apply IH].
    destruct Hc'. apply list_elem_of_fmap. by exists (c, v).
Qed.

Lemma assoc_row_set_eq c v r : assoc c (row_set c v r) = Some v.
Proof.
  induction r as [|[c' v'] r IH]; simpl.
  - by rewrite String.eqb_refl.
  - destruct (String.eqb_spec c' c) as [->|Hne]; simpl.
    + by rewrite String.eqb_refl.
    + by destruct (String.eqb_spec c' c).
Qed.

Lemma assoc_row_set_ne c c0 v r : c0 ≠ c → assoc c0 (row_set c v r) = assoc c0 r.
Proof.
  intros Hne. induction r as [|[c' v'] r IH]; simpl.
  - by destruct (String.eqb_spec c c0) as [->|_].
  - destruct (String.eqb_spec c' c) as [->|Hc]; simpl.
    + by destruct (String.eqb_spec c c0) as [->|_].
    + by rewrite IH.
Qed.


Lemma numeric_at_row_set c c0 v r :
  numeric_at c0 r → numeric_at c0 (row_set c (VNum v) r).
Proof.
  intros [x Hx]. destruct (decide (c0 = c)) as [->|Hne].
  - exists v. apply assoc_row_set_eq.
  - exists x. by rewrite assoc_row_set_ne.
Qed.

Lemma add_ratio_ok c r :
  numeric_at (drop_last 9 c) r → numeric_at c r →
  ∃ r', add_ratio c r = Ok r'
        ∧ (∀ c0, numeric_at c0 r → numeric_at c0 r')
        ∧ (∀ c0, ends_with "_ratio" c0 = false → assoc c0 r' = assoc c0 r).
Proof.
  intros [x Hx] [y Hy]. unfold add_ratio, num_col. rewrite Hx, Hy. simpl.
  eexists. split; [done|]. split.
  - intros c0. apply numeric_at_row_set.
  - intros c0 Hc0. apply assoc_row_set_ne. intros ->.
    by rewrite (ends_with_append (drop_last 9 c) "_ratio") in Hc0.
Qed.

Lemma ratio_loop_ok cols x y :
  (∀ c, c ∈ cols →
     (numeric_at (drop_last 9 c) x ∧ numeric_at c x)
     ∧ (numeric_at (drop_last 9 c) y ∧ numeric_at c y)) →
  ∃ x' y',
    result_foldl (λ df col, result_mapM (add_ratio col) df) [x; y] cols
    = Ok [x'; y']
    ∧ ∀ c0, ends_with "_ratio" c0 = false →
            assoc c0 x' = assoc c0 x ∧ assoc c0 y' = assoc c0 y.
Proof.
  revert x y. induction cols as [|c cols IH]; intros x y Hgood.
  - exists x, y. by split.
  - destruct (Hgood c) as [[Hx1 Hx2] [Hy1 Hy2]]; [by left|].
    destruct (add_ratio_ok c x Hx1 Hx2) as (x1 & Ex & Nx & Ax).
    destruct (add_ratio_ok c y Hy1 Hy2) as (y1 & Ey & Ny & Ay).
    destruct (IH x1 y1) as (x' & y' & E & A).
    { intros c' Hc'. destruct (Hgood c') as [[? ?] [? ?]]; [by right|].
      repeat split; auto. }
    exists x', y'. split.
    + cbn [result_foldl].
      rewrite (proj2 (result_mapM_two (add_ratio c) x y [x1; y1])) by eauto.
      exact E.
    + intros c0 Hc0. destruct (A c0 Hc0) as [-> ->]. by rewrite Ax, Ay.
Qed.


Lemma columns_of_no_opponent r c :
  plain_columns r → c ∈ (columns_of r).*1 → ends_with "_opponent" c = false.
Proof.
  intros [_ Hs]. unfold columns_of. rewrite fmap_app, elem_of_app.
  intros [H|H]; [|by apply Hs].
  cbn [fmap list_fmap fst] in H.
  repeat (apply elem_of_cons in H as [->|H]; [by vm_compute|]).
  by apply elem_of_nil in H.
Qed.

Lemma merge_row_all_suffixed suffix (a b : row) :
  b.*1 = a.*1 →
  merge_row suffix a b = a ++ ((λ cv, (cv.1 +:+ suffix, cv.2)) <$> b).
Proof.
  intros Hn. unfold merge_row. f_equal.
  apply list_fmap_ext. intros i [c v] Hi. simpl.
  rewrite bool_decide_eq_true_2; [done|].
  rewrite <- Hn. apply list_elem_of_fmap. exists (c, v). split; [done|].
  by eapply list_elem_of_lookup_2.
Qed.

Lemma assoc_suffixed {V} suffix c (b : list (string * V)) :
  assoc (c +:+ suffix) ((λ cv, (cv.1 +:+ suffix, cv.2)) <$> b) = assoc c b.
Proof.
  induction b as [|[c' v'] b IH]; simpl; [done|].
  destruct (String.eqb_spec c' c) as [->|Hne].
  - by rewrite String.eqb_refl.
  - destruct (String.eqb_spec (c' +:+ suffix) (c +:+ suffix)) as [E|_]; [|done].
    by apply append_inj_l in E.
Qed.

Lemma kinds_elem c k (r r' : row) :
  kinds r = kinds r' → (c, k) ∈ kinds r → (c, k) ∈ kinds r'.
Proof. by intros ->. Qed.

Lemma kinds_numeric c x (r : row) :
  (c, VNum x) ∈ r → (c, true) ∈ kinds r.
Proof. intros H. apply list_elem_of_fmap. by exists (c, VNum x). Qed.

Lemma numeric_of_kinds c (r : row) :
  NoDup r.*1 → (c, true) ∈ kinds r → numeric_at c r.
Proof.
  intros Hnd ([c' v] & [= -> Hk] & Hin)%list_elem_of_fmap.
  destruct v as [|x]; [done|]. exists x. by apply assoc_elem.
Qed.

Lemma kinds_value c v (r : row) :
  (c, v) ∈ r → (c, match v with VNum _ => true | VStr _ => false end) ∈ kinds r.
Proof. intros H. apply list_elem_of_fmap. by exists (c, v). Qed.

(** In a merged row every column of the fighter is found under its name
    and every column of the opponent under its suffixed name. *)
Lemma merged_assoc_self a b c :
  kinds (columns_of a) = kinds (columns_of b) →
  c ∈ (columns_of a).*1 →
  assoc c (merged a b) = assoc c (columns_of a).
Proof.
  intros Hk Hc. unfold merged.
  rewrite merge_row_all_suffixed by (symmetry; by apply kinds_names).
  rewrite assoc_app.
  by destruct (assoc_in c (columns_of a) Hc) as [v ->].
Qed.

Lemma merged_assoc_opponent a b c :
  kinds (columns_of a) = kinds (columns_of b) →
  plain_columns a →
  assoc (c +:+ "_opponent") (merged a b) = assoc c (columns_of b).
Proof.
  intros Hk Ha. unfold merged.
  rewrite merge_row_all_suffixed by (symmetry; by apply kinds_names).
  rewrite assoc_app, assoc_notin.
  - apply assoc_suffixed.
  - intros Hin. apply (columns_of_no_opponent a _ Ha) in Hin.
    by rewrite ends_with_append in Hin.
Qed.



Lemma numeric_opponent_columns_elem c r df :
  c ∈ numeric_opponent_columns (r :: df) →
  ∃ x, (c, VNum x) ∈ r ∧ ends_with "_opponent" c = true.
Proof.
  unfold numeric_opponent_columns.
  intros ([c' v] & -> & Hin)%list_elem_of_fmap.
  apply list_elem_of_In, filter_In in Hin as [Hin HP]. simpl in *.
  destruct v as [|x]; [done|]. exists x. split; [by apply list_elem_of_In | done].
Qed.

Lemma add_stance_config_ok r sa sb :
  assoc "Stance" r = Some (VStr sa) →
  assoc "Stance_opponent" r = Some (VStr sb) →
  ∃ r', add_stance_config r = Ok r'.
Proof.
  intros Ha Hb. unfold add_stance_config, str_col. rewrite Ha, Hb. by eexists.
Qed.

Lemma stance_of_merged a b :
  kinds (columns_of a) = kinds (columns_of b) → plain_columns a →
  assoc "Stance" (merged a b) = Some (Stance a)
  ∧ assoc "Stance_opponent" (merged a b) = Some (Stance b).
Proof.
  intros Hk Ha. split.
  - rewrite merged_assoc_self; [reflexivity | done |].
    unfold columns_of. rewrite fmap_app. apply elem_of_app. left.
    cbn [fmap list_fmap fst]. do 7 right. by left.
  - change "Stance_opponent" with ("Stance" +:+ "_opponent").
    by rewrite merged_assoc_opponent.
Qed.

(** The columns the ratio loop walks are the opponent's numeric columns,
    and both rows hold a number under each of them and under the
    fighter's own column of the same name. *)
Lemma merged_ratio_columns a b c df :
  kinds (columns_of a) = kinds (columns_of b) →
  plain_columns a → plain_columns b →
  c ∈ numeric_opponent_columns (merged a b :: df) →
  (numeric_at (drop_last 9 c) (merged a b) ∧ numeric_at c (merged a b))
  ∧ (numeric_at (drop_last 9 c) (merged b a) ∧ numeric_at c (merged b a)).
Proof.
  intros Hk Ha Hb (x & Hin & He)%numeric_opponent_columns_elem.
  pose proof (kinds_names _ _ Hk) as Hn.
  unfold merged in Hin.
  rewrite merge_row_all_suffixed in Hin by done.
  apply elem_of_app in Hin as [Hin|Hin].
  { rewrite (columns_of_no_opponent a c Ha) in He; [done|].
    apply list_elem_of_fmap. by exists (c, VNum x). }
  apply list_elem_of_fmap in Hin as ([n v] & Heq & Hin).
  simpl in Heq. injection Heq as -> <-.
  change 9%nat with (String.length "_opponent").
  rewrite drop_last_append.
  assert (Hnb : n ∈ (columns_of b).*1).
  { apply list_elem_of_fmap. by exists (n, VNum x). }
  assert (Hna : n ∈ (columns_of a).*1) by by rewrite Hn.
  assert (Ha' : numeric_at n (columns_of a)).
  { apply numeric_of_kinds; [apply Ha|]. rewrite Hk. by eapply kinds_numeric. }
  assert (Hb' : numeric_at n (columns_of b)).
  { exists x. apply assoc_elem; [apply Hb | done]. }
  unfold numeric_at.
  rewrite (merged_assoc_self a b n Hk Hna), (merged_assoc_opponent a b n Hk Ha).
  rewrite (merged_assoc_self b a n (eq_sym Hk) Hnb).
  rewrite (merged_assoc_opponent b a n (eq_sym Hk) Hb).
  done.
Qed.

Lemma makeBoutDf_builds s i f1 f2 a b :
  rows_of_fighter f1 (latest_fights s) = [a] →
  rows_of_fighter f2 (latest_fights s) = [b] →
  kinds (columns_of a) = kinds (columns_of b) →
  plain_columns a → plain_columns b →
  (∃ sa, Stance a = VStr sa) → (∃ sb, Stance b = VStr sb) →
  ∃ x y, makeBoutDf i f1 f2 s = (Ok (Some [x; y]), s).
Proof.
  intros Hf1 Hf2 Hk Ha Hb [sa Hsa] [sb Hsb].
  rewrite (makeBoutDf_resolved s i f1 f2 a b Hf1 Hf2).
  unfold add_ratio_columns.
  destruct (ratio_loop_ok (numeric_opponent_columns [merged a b; merged b a])
              (merged a b) (merged b a)) as (x1 & y1 & -> & Hkeep).
  { intros c Hc. by apply (merged_ratio_columns a b c [merged b a]). }
  cbn [result_bind].
  destruct (Hkeep "Stance" eq_refl) as [Hx Hy].
  destruct (Hkeep "Stance_opponent" eq_refl) as [Hx' Hy'].
  destruct (stance_of_merged a b Hk Ha) as [Sa Sa'].
  destruct (stance_of_merged b a (eq_sym Hk) Hb) as [Sb Sb'].
  rewrite Sa in Hx. rewrite Sa' in Hx'. rewrite Sb in Hy. rewrite Sb' in Hy'.
  rewrite Hsa in Hx, Hy'. rewrite Hsb in Hx', Hy.
  destruct (add_stance_config_ok x1 _ _ Hx Hx') as [x Ex].
  destruct (add_stance_config_ok y1 _ _ Hy Hy') as [y Ey].
  exists x, y.
  by rewrite (proj2 (result_mapM_two add_stance_config x1 y1 [x; y]))
    by eauto.
Qed.

(** On a [float64] stance column the bout is not built: the ratio loop
    runs, and adding "-" to the column raises. *)
Lemma makeBoutDf_raises_on_float_stance s i f1 f2 a b x0 :
  rows_of_fighter f1 (latest_fights s) = [a] →
  rows_of_fighter f2 (latest_fights s) = [b] →
  kinds (columns_of a) = kinds (columns_of b) →
  plain_columns a → plain_columns b →
  Stance a = VNum x0 →
  makeBoutDf i f1 f2 s = (Raise TypeError, s).
Proof.
  intros Hf1 Hf2 Hk Ha Hb Hsa.
  rewrite (makeBoutDf_resolved s i f1 f2 a b Hf1 Hf2).
  unfold add_ratio_columns.
  destruct (ratio_loop_ok (numeric_opponent_columns [merged a b; merged b a])
              (merged a b) (merged b a)) as (x1 & y1 & -> & Hkeep).
  { intros c Hc. by apply (merged_ratio_columns a b c [merged b a]). }
  cbn [result_bind].
  destruct (Hkeep "Stance" eq_refl) as [Hx _].
  destruct (stance_of_merged a b Hk Ha) as [Sa _].
  rewrite Sa, Hsa in Hx.
  cbn [result_mapM]. unfold add_stance_config at 1, str_col. by rewrite Hx.
Qed.

Lemma filter_names_sublist (P : string * value → bool) (l : row) :
  (List.filter P l).*1 `sublist_of` l.*1.
Proof.
  induction l as [|cv l IH]; simpl; [constructor|].
  destruct (P cv); simpl; by constructor.
Qed.

Lemma individual_plain_columns r :
  NoDup (columns_of r).*1 → plain_columns (individual r).
Proof.
  intros Hnd. split.
  - eapply sublist_NoDup; [exact Hnd|].
    unfold columns_of. rewrite !fmap_app. apply sublist_app; [done|].
    apply filter_names_sublist.
  - intros c ([c' v] & -> & Hin)%list_elem_of_fmap. simpl in *.
    apply list_elem_of_In, filter_In in Hin as [_ HP]. simpl in HP.
    apply andb_true_iff in HP as [_ HP]. apply negb_true_iff in HP.
    unfold prefix_re_match in HP. apply orb_false_iff in HP as [HP _].
    apply bool_decide_eq_false in HP.
    apply index_None_ends_with; [done|].
    destruct (String.index 0 "_opponent" c'); [|done]. destruct HP. eauto.
Qed.


End BoutBuilds.

Lemma init_plain_columns repr a s r :
  init repr a = Ok s → distinct_columns (fighters_csv a) →
  r ∈ latest_fights s → plain_columns r.
Proof.
  intros Hinit Hd. destruct (init_Ok _ _ _ Hinit) as (_ & _ & -> & _).
  intros Hr%groupby_tail1_subset%sort_by_elem%list_elem_of_fmap.
  destruct Hr as (r0 & -> & Hr0). by apply individual_plain_columns, Hd.
Qed.

(** In a file where some row has a stance the column is text, and so it is
    in the latest fights. *)
Lemma text_stance_of_kinds (a b : fight_row) t :
  kinds (columns_of a) = kinds (columns_of b) →
  Stance b = VStr (Some t) → ∃ o, Stance a = VStr o.
Proof.
  intros [Hk _]%kinds_columns_of_inv Hb. rewrite Hb in Hk.
  destruct (Stance a) as [o|x]; [eauto | discriminate].
Qed.

Lemma init_text_stances repr a s r :
  init repr a = Ok s →
  uniform_columns (fighters_csv a) → has_stance (fighters_csv a) →
  r ∈ latest_fights s → ∃ o, Stance r = VStr o.
Proof.
  intros Hinit Hu (r1 & t & Hr1 & Ht).
  destruct (init_Ok _ _ _ Hinit) as (_ & _ & -> & _).
  intros Hr%groupby_tail1_subset%sort_by_elem%list_elem_of_fmap.
  destruct Hr as (r0 & -> & Hr0). simpl.
  exact (text_stance_of_kinds r0 r1 t (Hu _ _ Hr0 Hr1) Ht).
Qed.

Lemma init_float_stances repr a s r :
  init repr a = Ok s → no_stances (fighters_csv a) →
  r ∈ latest_fights s → ∃ x, Stance r = VNum x.
Proof.
  intros Hinit Hno. destruct (init_Ok _ _ _ Hinit) as (_ & _ & -> & _).
  intros Hr%groupby_tail1_subset%sort_by_elem%list_elem_of_fmap.
  destruct Hr as (r0 & -> & Hr0). simpl. by apply Hno.
Qed.



Lemma sample_csv_uniform_columns : uniform_columns sample_fighters_csv.
Proof.
  intros a b Ha Hb. unfold sample_fighters_csv in *.
  repeat (apply elem_of_cons in Ha as [->|Ha]);
    try (by apply elem_of_nil in Ha);
    repeat (apply elem_of_cons in Hb as [->|Hb]);
    try (by apply elem_of_nil in Hb); reflexivity.
Qed.

Lemma sample_csv_has_stance : has_stance sample_fighters_csv.
Proof.
  exists (FightRow "Ann" "Lightweight" "2015-01-10" 170 165 3 1
            (VStr (Some "Orthodox")) (sample_stats 20)), "Orthodox".
  split; [apply list_elem_of_here | reflexivity].
Qed.

Lemma sample_csv_distinct_columns : distinct_columns sample_fighters_csv.
Proof.
  intros r Hr. unfold sample_fighters_csv in Hr.
  repeat (apply elem_of_cons in Hr as [->|Hr]);
    try (by apply elem_of_nil in Hr);
    apply (bool_decide_unpack (NoDup _)); vm_compute; exact I.
Qed.




(** * Further properties of the service and the page *)

(** ** Everything [__init__] stores *)

Lemma init_Ok_rest repr a s :
  init repr a = Ok s →
  fighters_to_nicks s = dict_of (sherdog_csv a)
  ∧ feature_to_name s = feature_to_name_pickle a
  ∧ pipeline s = pipeline_pickle a
  ∧ explainer s = tree_explainer a
  ∧ (∃ l, result_mapM (λ r, let? w := count_entry (wins r) in Ok (fighter r, w))
            (latest_fights s) = Ok l
          ∧ fighters_to_wins s = dict_of l)
  ∧ (∃ l, result_mapM (λ r, let? w := count_entry (losses r) in Ok (fighter r, w))
            (latest_fights s) = Ok l
          ∧ fighters_to_losses s = dict_of l).
Proof.
  unfold init.
  destruct (has_is_winner (fighters_csv a)); simpl; [|discriminate].
  destruct (result_mapM (λ r, let? w := count_entry (wins r) in Ok (fighter r, w)) _)
    as [lw|] eqn:Ew; simpl; [|discriminate].
  destruct (result_mapM (λ r, let? w := count_entry (losses r) in Ok (fighter r, w)) _)
    as [ll|] eqn:El; simpl; [|discriminate].
  intros [= <-]. simpl. eauto 10.
Qed.

(** ** The accessors on every input *)

Lemma dict_getitem_Some {V} (d : gmap string V) k v :
  d !! k = Some v → dict_contains d k = true ∧ dict_getitem d k = Ok v.
Proof.
  intros H. unfold dict_contains, dict_getitem. rewrite H.
  split; [apply bool_decide_eq_true_2; eauto | done].
Qed.

Lemma dict_contains_cases {V} (d : gmap string V) k :
  (d !! k = None ∧ dict_contains d k = false)
  ∨ (∃ v, d !! k = Some v ∧ dict_contains d k = true ∧ dict_getitem d k = Ok v).
Proof.
  destruct (d !! k) as [v|] eqn:E.
  - right. exists v. split; [done|]. by apply dict_getitem_Some.
  - left. split; [done|]. by apply dict_contains_None.
Qed.

(** What each accessor returns, read off the map it consults. *)
Lemma getNickname_value s f :
  getNickname f s
  = (Ok match fighters_to_nicks s !! f with
        | Some (VStr (Some n)) => VStr (Some (if String.eqb n "nan" then "" else n))
        | Some (VNum x) => VNum x
        | Some (VStr None) | None => VStr (Some "")
        end, s).
Proof.
  unfold getNickname, bind, attr, lift.
  destruct (dict_contains_cases (fighters_to_nicks s) f)
    as [[-> ->]|(v & -> & -> & ->)]; [done|].
  simpl. destruct v as [[n|]|x]; [|done|done]. by destruct (String.eqb n "nan").
Qed.

Lemma cms_accessor_value (get : FighterService → gmap string string) f s :
  (let* d := attr get in
   if negb (dict_contains d f) then ret "-"
   else
     let* v := lift (dict_getitem d f) in
     let res := Py.strip v in
     if is_nan_text res then ret "-" else ret res) s
  = (Ok match get s !! f with
        | Some v => if is_nan_text (Py.strip v) then "-" else Py.strip v
        | None => "-"
        end, s).
Proof.
  unfold bind, attr, lift.
  destruct (dict_contains_cases (get s) f) as [[-> ->]|(v & -> & -> & ->)];
    [done|].
  simpl. by destruct (is_nan_text (Py.strip v)).
Qed.

Lemma count_accessor_value (get : FighterService → gmap string string) f s :
  (let* d := attr get in
   if negb (dict_contains d f) then ret "-"
   else lift (dict_getitem d f)) s
  = (Ok (default "-" (get s !! f)), s).
Proof.
  unfold bind, attr, lift.
  by destruct (dict_contains_cases (get s) f) as [[-> ->]|(v & -> & -> & ->)].
Qed.

Lemma is_nan_text_false t : is_nan_text t = false → t ≠ "nan" ∧ t ≠ "nan cms".
Proof.
  unfold is_nan_text. intros [H1 H2]%orb_false_iff.
  split; by apply String.eqb_neq.
Qed.

(** X1. On every service object and every string, known fighter or not,
    the five accessors return without raising and leave the object as it
    was. [getReach], [getHeight], [getWins] and [getLosses] return a
    string, the reach and the height never "nan" nor "nan cms".
    [getNickname] returns a string other than "nan", unless the nickname
    map holds a float under the name, as it does for every name when the
    nickname column has no nickname at all and is read as [float64]: then
    it returns that float, NaN included. *)
Theorem accessors_never_raise (s : FighterService) (f : string) :
  (∃ v, getNickname f s = (Ok v, s)
        ∧ (∀ x, fighters_to_nicks s !! f = Some (VNum x) → v = VNum x)
        ∧ ((∀ x, fighters_to_nicks s !! f ≠ Some (VNum x)) →
           ∃ t, v = VStr (Some t) ∧ t ≠ "nan"))
  ∧ (∃ t, getReach f s = (Ok t, s) ∧ t ≠ "nan" ∧ t ≠ "nan cms")
  ∧ (∃ t, getHeight f s = (Ok t, s) ∧ t ≠ "nan" ∧ t ≠ "nan cms")
  ∧ (∃ t, getWins f s = (Ok t, s))
  ∧ (∃ t, getLosses f s = (Ok t, s)).
Proof.
  split; [|split; [|split; [|split]]].
  - rewrite getNickname_value. eexists. split; [done|].
    destruct (fighters_to_nicks s !! f) as [[[n|]|x]|].
    + split; [discriminate|]. intros _. eexists. split; [done|].
      by destruct (String.eqb_spec n "nan").
    + split; [discriminate|]. intros _. by eexists.
    + split; [by intros ? [= <-] | intros H; by destruct (H x)].
    + split; [discriminate|]. intros _. by eexists.
  - unfold getReach. rewrite (cms_accessor_value fighters_to_reach).
    eexists. split; [done|].
    destruct (fighters_to_reach s !! f) as [v|]; [|done].
    destruct (is_nan_text (Py.strip v)) eqn:E; [done|].
    by apply is_nan_text_false.
  - unfold getHeight. rewrite (cms_accessor_value fighters_to_height).
    eexists. split; [done|].
    destruct (fighters_to_height s !! f) as [v|]; [|done].
    destruct (is_nan_text (Py.strip v)) eqn:E; [done|].
    by apply is_nan_text_false.
  - unfold getWins. rewrite (count_accessor_value fighters_to_wins). by eexists.
  - unfold getLosses. rewrite (count_accessor_value fighters_to_losses). by eexists.
Qed.

(** ** Nicknames: the last row of a name counts *)

Lemma foldl_insert_lookup_rev {V} (l : list (string * V)) (d : gmap string V) k :
  foldl (λ (d : gmap string V) kv, <[kv.1 := kv.2]> d) d l !! k
  = match assoc k (rev l) with Some v => Some v | None => d !! k end.
Proof.
  revert d. induction l as [|[k' v'] l IH]; intros d; simpl; [done|].
  rewrite IH, assoc_app. destruct (assoc k (rev l)); [done|]. simpl.
  destruct (String.eqb_spec k' k) as [->|Hne].
  - by rewrite lookup_insert_eq.
  - by rewrite lookup_insert_ne.
Qed.

Lemma dict_of_lookup_rev {V} (l : list (string * V)) k :
  dict_of l !! k = assoc k (rev l).
Proof.
  unfold dict_of. rewrite foldl_insert_lookup_rev, lookup_empty.
  by destruct (assoc k (rev l)).
Qed.

(** X2. On a service object built by [__init__], [getNickname(f)] goes
    by the last row of the nickname file whose name is [f]. When the
    nickname column is text it returns that row's nickname, and the empty
    string when the nickname is missing or is the text "nan"; when the
    column is [float64], no row having a nickname, it returns the row's
    float, which is NaN. It returns the empty string when no row has the
    name. *)
Theorem getNickname_last_row (repr : float → string) (a : artifacts)
    (s : FighterService) (f : string) :
  init repr a = Ok s →
  getNickname f s
  = (Ok match assoc f (rev (sherdog_csv a)) with
        | Some (VStr (Some n)) => VStr (Some (if String.eqb n "nan" then "" else n))
        | Some (VNum x) => VNum x
        | Some (VStr None) | None => VStr (Some "")
        end, s).
Proof.
  intros Hinit. destruct (init_Ok_rest _ _ _ Hinit) as (Hn & _).
  by rewrite getNickname_value, Hn, dict_of_lookup_rev.
Qed.

Lemma getNickname_last_row_witness :
  getNickname "Ann" (sample_service sample_pipeline)
  = (Ok (VStr (Some "The Hammer")), sample_service sample_pipeline).
Proof.
  rewrite (getNickname_last_row repr_whole
             (sample_artifacts sample_pipeline sample_fighters_csv)
             (sample_service sample_pipeline) "Ann" sample_init).
  reflexivity.
Defined.

(** ** The latest fights *)

Lemma sort_insert_elem_2 {A} (le : A → A → bool) x l y :
  y = x ∨ y ∈ l → y ∈ sort_insert le x l.
Proof.
  induction l as [|z l IH]; simpl.
  - intros [->|[]%elem_of_nil]. by left.
  - destruct (le x z).
    + intros [->|H]; [by left | by right].
    + intros [->|[->|H]%elem_of_cons]; [right|by left|right]; apply IH; auto.
Qed.

Lemma sort_by_elem_2 {A} (le : A → A → bool) l y : y ∈ l → y ∈ sort_by le l.
Proof.
  induction l as [|x l IH]; simpl; [done|].
  intros [->|H]%elem_of_cons; apply sort_insert_elem_2; auto.
Qed.

Lemma existsb_same_fighter df f :
  existsb (λ r', String.eqb (fighter r') f) df = true ↔ f ∈ fighter <$> df.
Proof.
  rewrite existsb_exists, list_elem_of_fmap. split.
  - intros (r & Hr%list_elem_of_In & E%String.eqb_eq). eauto.
  - intros (r & -> & Hr%list_elem_of_In). exists r. by rewrite String.eqb_refl.
Qed.

Lemma groupby_tail1_names df f :
  f ∈ fighter <$> df → f ∈ fighter <$> groupby_tail1 df.
Proof.
  induction df as [|r df IH]; simpl; [done|].
  destruct (existsb _ df) eqn:E.
  - intros [->|H]%elem_of_cons; apply IH; [|done].
    by apply existsb_same_fighter.
  - rewrite fmap_cons. intros [->|H]%elem_of_cons; [by left | right; by apply IH].
Qed.

Lemma rows_of_fighter_length f df :
  NoDup (fighter <$> df) →
  (length (rows_of_fighter f df) ≤ 1)%nat
  ∧ (length (rows_of_fighter f df) = 1%nat ↔ f ∈ fighter <$> df).
Proof.
  unfold rows_of_fighter.
  induction df as [|r df IH]; simpl.
  - intros _. split; [lia|]. split; [done | by intros ?%elem_of_nil].
  - intros [Hr Hnd]%NoDup_cons. destruct (IH Hnd) as [Hle Hiff].
    destruct (String.eqb_spec (fighter r) f) as [<-|Hne]; simpl.
    + assert (List.filter (λ r0, String.eqb (fighter r0) (fighter r)) df = []) as ->.
      { destruct (List.filter _ df) as [|r' l] eqn:E; [done|].
        destruct Hr. apply list_elem_of_fmap. exists r'.
        assert (In r' (List.filter (λ r0, String.eqb (fighter r0) (fighter r)) df))
          as [Hin Heq%String.eqb_eq]%filter_In by (rewrite E; by left).
        split; [done | by apply list_elem_of_In]. }
      simpl. split; [lia|]. split; [by left | done].
    + split; [done|]. rewrite Hiff. split; [by right|].
      by intros [->|H]%elem_of_cons.
Qed.

Lemma latest_fights_names repr a s f :
  init repr a = Ok s →
  f ∈ fighter <$> latest_fights s ↔ f ∈ fighter <$> fighters_csv a.
Proof.
  intros Hinit. destruct (init_Ok _ _ _ Hinit) as (_ & _ & -> & _). split.
  - intros (r & -> & Hr%groupby_tail1_subset%sort_by_elem%list_elem_of_fmap)%list_elem_of_fmap.
    destruct Hr as (r0 & -> & Hr0). apply list_elem_of_fmap. by exists r0.
  - intros (r0 & -> & Hr0)%list_elem_of_fmap.
    apply groupby_tail1_names, list_elem_of_fmap.
    exists (individual r0). split; [done|].
    apply sort_by_elem_2, list_elem_of_fmap. by exists r0.
Qed.

(** X3. On a service object built by [__init__] a name never matches more
    than one row of the latest fights, and it matches exactly one row if
    and only if some row of the statistics file has that fighter. *)
Theorem latest_fights_one_row_per_fighter (repr : float → string)
    (a : artifacts) (s : FighterService) (f : string) :
  init repr a = Ok s →
  (length (rows_of_fighter f (latest_fights s)) ≤ 1)%nat
  ∧ (length (rows_of_fighter f (latest_fights s)) = 1%nat
     ↔ f ∈ fighter <$> fighters_csv a).
Proof.
  intros Hinit.
  assert (Hnd : NoDup (fighter <$> latest_fights s)).
  { destruct (init_Ok _ _ _ Hinit) as (_ & _ & -> & _). apply groupby_tail1_NoDup. }
  destruct (rows_of_fighter_length f _ Hnd) as [Hle Hiff].
  split; [done|]. by rewrite Hiff, (latest_fights_names _ _ _ _ Hinit).
Qed.

Lemma latest_fights_one_row_per_fighter_witness :
  let s := sample_service sample_pipeline in
  (length (rows_of_fighter "Ann" (latest_fights s)) ≤ 1)%nat
  ∧ (length (rows_of_fighter "Ann" (latest_fights s)) = 1%nat
     ↔ "Ann" ∈ fighter <$> sample_fighters_csv).
Proof.
  intros s.
  exact (latest_fights_one_row_per_fighter repr_whole
           (sample_artifacts sample_pipeline sample_fighters_csv) s "Ann" sample_init).
Defined.


Lemma ascii_compare_refl a : Ascii.compare a a = Eq.
Proof. unfold Ascii.compare. apply N.compare_refl. Qed.




Section SortedBy.
Context {A : Type} (le : A → A → bool).
Hypothesis le_total : ∀ x y, le x y = false → le y x = true.
Hypothesis le_trans : ∀ x y z, le x y = true → le y z = true → le x z = true.


End SortedBy.






(** ** The numbers shown for a fighter of the table *)

Lemma result_mapM_keyed {A V} (g : A → result V) (h : A → string) l l' :
  result_mapM (λ r, let? w := g r in Ok (h r, w)) l = Ok l' →
  l'.*1 = h <$> l ∧ ∀ r, r ∈ l → ∃ w, g r = Ok w ∧ (h r, w) ∈ l'.
Proof.
  revert l'. induction l as [|x l IH]; intros l' H; simpl in H.
  - injection H as <-. split; [done | by intros ? ?%elem_of_nil].
  - destruct (g x) as [w|] eqn:Eg; simpl in H; [|discriminate].
    destruct (result_mapM _ l) as [lt|] eqn:El; simpl in H; [|discriminate].
    injection H as <-. destruct (IH lt eq_refl) as [Hk Hin].
    split; [rewrite !fmap_cons; by f_equal|].
    intros r [->|Hr]%elem_of_cons.
    + exists w. split; [done | by left].
    + destruct (Hin r Hr) as (w' & ? & ?). exists w'. split; [done | by right].
Qed.

Lemma count_entry_Ok x w :
  count_entry x = Ok w → ∃ n, Py.int x = Ok n ∧ w = Py.str_int n.
Proof.
  unfold count_entry. rewrite float_ne_NaN.
  destruct (Py.int x) as [n|]; simpl; [|discriminate].
  intros [= <-]. eauto.
Qed.

Lemma count_map_lookup (cnt : fight_row → float) df l r :
  NoDup (fighter <$> df) →
  result_mapM (λ r, let? w := count_entry (cnt r) in Ok (fighter r, w)) df = Ok l →
  r ∈ df →
  ∃ n, Py.int (cnt r) = Ok n ∧ dict_of l !! fighter r = Some (Py.str_int n).
Proof.
  intros Hnd Hl Hr.
  destruct (result_mapM_keyed _ _ _ _ Hl) as [Hk Hin].
  destruct (Hin r Hr) as (w & (n & Hn & ->)%count_entry_Ok & Hw).
  exists n. split; [done|]. apply dict_of_lookup; [by rewrite Hk | done].
Qed.

(** X5. On a service object built by [__init__], for every fighter of the
    table [getWins] and [getLosses] return the decimal digits of the wins
    and losses of the fighter's latest record, truncated toward zero by
    [int], which succeeds on both. *)
Theorem getWins_getLosses_show_the_count (repr : float → string)
    (a : artifacts) (s : FighterService) (r : fight_row) :
  init repr a = Ok s → r ∈ latest_fights s →
  ∃ w l, Py.int (wins r) = Ok w ∧ Py.int (losses r) = Ok l
         ∧ getWins (fighter r) s = (Ok (Py.str_int w), s)
         ∧ getLosses (fighter r) s = (Ok (Py.str_int l), s).
Proof.
  intros Hinit Hr.
  assert (Hnd : NoDup (fighter <$> latest_fights s)).
  { destruct (init_Ok _ _ _ Hinit) as (_ & _ & -> & _). apply groupby_tail1_NoDup. }
  destruct (init_Ok_rest _ _ _ Hinit)
    as (_ & _ & _ & _ & (lw & Hlw & Hw) & (ll & Hll & Hlo)).
  destruct (count_map_lookup wins _ _ r Hnd Hlw Hr) as (w & Hiw & Hmw).
  destruct (count_map_lookup losses _ _ r Hnd Hll Hr) as (l & Hil & Hml).
  exists w, l. split; [done|]. split; [done|].
  unfold getWins, getLosses.
  rewrite (count_accessor_value fighters_to_wins),
    (count_accessor_value fighters_to_losses), Hw, Hlo, Hmw, Hml.
  done.
Qed.

Lemma getWins_getLosses_show_the_count_witness :
  let s := sample_service sample_pipeline in
  ∃ w l, Py.int 7 = Ok w ∧ Py.int 2 = Ok l
         ∧ getWins "Bea" s = (Ok (Py.str_int w), s)
         ∧ getLosses "Bea" s = (Ok (Py.str_int l), s).
Proof.
  intros s.
  apply (getWins_getLosses_show_the_count repr_whole
           (sample_artifacts sample_pipeline sample_fighters_csv) s
           (FightRow "Bea" "Welterweight" "2017-03-04" nan 170 7 2 (VStr (Some "Southpaw"))
              [("avg_SIG_STR_landed", VNum 31); ("Reach_cms_ratio", VNum 1)])).
  - exact sample_init.
  - by left.
Defined.

Lemma cms_entry_value repr x : cms_entry repr x = Py.str_float repr x +:+ " cms".
Proof. unfold cms_entry. by rewrite float_ne_NaN. Qed.

(** X6. On a service object built by [__init__] from a file whose reach
    column has a missing cell, so that pandas reads the column as floats,
    [getReach] returns for every fighter of the table the reach of the
    latest record as [str] renders a float, followed by " cms" and
    stripped; "-" stands in only when that text is "nan" or "nan cms".
    The same holds of [getHeight] and the height column. *)
Theorem getReach_getHeight_show_the_latest (repr : float → string)
    (a : artifacts) (s : FighterService) (r : fight_row) :
  init repr a = Ok s → r ∈ latest_fights s →
  let shown x :=
    let t := Py.strip (Py.str_float repr x +:+ " cms") in
    if is_nan_text t then "-" else t in
  (has_missing (Reach_cms <$> fighters_csv a) →
   getReach (fighter r) s = (Ok (shown (Reach_cms r)), s))
  ∧ (has_missing (Height_cms <$> fighters_csv a) →
     getHeight (fighter r) s = (Ok (shown (Height_cms r)), s)).
Proof.
  intros Hinit Hr shown.
  destruct (init_Ok _ _ _ Hinit) as (_ & _ & Hl & Hreach & Hheight & _).
  rewrite Hl in Hr, Hreach, Hheight.
  unfold getReach, getHeight.
  rewrite (cms_accessor_value fighters_to_reach),
    (cms_accessor_value fighters_to_height), Hreach, Hheight.
  rewrite !(latest_entry_lookup _ _ r Hr), !cms_entry_value. done.
Qed.

Lemma getReach_getHeight_show_the_latest_witness :
  let s := sample_service sample_pipeline in
  has_missing (Reach_cms <$> sample_fighters_csv)
  ∧ getReach "Ann" s = (Ok "170.0 cms", s).
Proof.
  intros s.
  assert (Hmiss : has_missing (Reach_cms <$> sample_fighters_csv)).
  { exists nan. split; [|reflexivity].
    apply list_elem_of_further, list_elem_of_here. }
  split; [exact Hmiss|].
  refine (proj1 (getReach_getHeight_show_the_latest repr_whole
           (sample_artifacts sample_pipeline sample_fighters_csv) s
           (FightRow "Ann" "Welterweight" "2018-05-05" 170 165 5 1 (VStr (Some "Orthodox"))
              [("avg_SIG_STR_landed", VNum 24); ("Reach_cms_ratio", VNum 1)])
           sample_init _) Hmiss).
  right. by left.
Defined.

(** ** [doPrediction] *)

Lemma truthy_the_str v : Py.truthy v = true → Some (the_str v) = v ∧ the_str v ≠ "".
Proof.
  destruct v as [f|]; [|done]. simpl. intros H%negb_true_iff%String.eqb_neq. done.
Qed.

(** X7. Whatever the service object and the arguments, a prediction that
    [doPrediction] returns names as winner one of its two arguments or the
    sentinel "-", never a third name. *)
Theorem doPrediction_winner_is_an_argument (s s' : FighterService) (i : Z)
    (r b : option string) (p : prediction) :
  doPrediction i r b s = (Ok p, s') →
  winner p = "-" ∨ Some (winner p) = r ∨ Some (winner p) = b.
Proof.
  unfold doPrediction.
  destruct (Py.truthy r) eqn:Hr, (Py.truthy b) eqn:Hb; simpl;
    try (intros [= <- _]; simpl;
         first [by left
               | right; left; by apply truthy_the_str
               | right; right; by apply truthy_the_str]).
  destruct (bool_decide (r = b));
    [intros [= <- _]; right; left; by apply truthy_the_str|].
  intros H.
  apply bind_Ok_inv in H as ([bout|] & s1 & _ & H);
    [|injection H as <- _; by left].
  apply bind_Ok_inv in H as ([probas shaps] & s2 & _ & H).
  apply bind_Ok_inv in H as (p0 & s3 & _ & H).
  apply bind_Ok_inv in H as (p1 & s4 & _ & H).
  apply bind_Ok_inv in H as ([[sv wp] w] & s5 & Hw & H).
  apply bind_Ok_inv in H as (names & s6 & _ & H).
  apply bind_Ok_inv in H as (neg & s7 & _ & H).
  apply bind_Ok_inv in H as (pos & s8 & _ & H).
  injection H as <- _. simpl.
  destruct (Py.float_gt _ _).
  - apply bind_Ok_inv in Hw as (sv' & s9 & _ & Hw). injection Hw as _ _ <- _.
    right; left. by apply truthy_the_str.
  - apply bind_Ok_inv in Hw as (sv' & s9 & _ & Hw). injection Hw as _ _ <- _.
    right; right. by apply truthy_the_str.
Qed.

Lemma doPrediction_winner_is_an_argument_witness :
  let s := sample_service sample_pipeline in
  let p := Prediction 68.75 "Bea" ["Stance matchup"; "Win record"; "Win record"]
             ["Stance matchup"; "Reach advantage"; "Height advantage"] in
  doPrediction 7 (Some "Ann") (Some "Bea") s = (Ok p, s)
  ∧ (winner p = "-" ∨ Some (winner p) = Some "Ann" ∨ Some (winner p) = Some "Bea").
Proof.
  intros s p.
  assert (E : doPrediction 7 (Some "Ann") (Some "Bea") s = (Ok p, s))
    by (vm_compute; reflexivity).
  exact (conj E (doPrediction_winner_is_an_argument s s 7 _ _ p E)).
Defined.

(** The draw of the merge key plays no role. *)
Lemma makeBoutDf_any_key i j f1 f2 s : makeBoutDf i f1 f2 s = makeBoutDf j f1 f2 s.
Proof.
  destruct (rows_of_fighter f1 (latest_fights s)) as [|a [|a' l1]] eqn:E1;
    destruct (rows_of_fighter f2 (latest_fights s)) as [|b [|b' l2]] eqn:E2;
    try (unfold makeBoutDf, getByFighter, bind, attr, ret; cbn -[rows_of_fighter];
         rewrite E1, E2; reflexivity).
  by rewrite (makeBoutDf_resolved s i f1 f2 a b E1 E2),
    (makeBoutDf_resolved s j f1 f2 a b E1 E2).
Qed.

Lemma bind_same_start {A B} (m m' : M A) (k : A → M B) s :
  m s = m' s → bind m k s = bind m' k s.
Proof. unfold bind. by intros ->. Qed.

(** X8. [doPrediction] does not depend on the random number
    [__makeBoutDf] draws for its merge key: with the same arguments on the
    same service object, any two draws give the same outcome. *)
Theorem doPrediction_ignores_the_random_key (s : FighterService) (i j : Z)
    (r b : option string) :
  doPrediction i r b s = doPrediction j r b s.
Proof.
  unfold doPrediction.
  repeat match goal with
         | |- (if ?c then _ else _) s = _ => destruct c; [reflexivity|]
         end.
  apply bind_same_start, makeBoutDf_any_key.
Qed.

Lemma doPrediction_ignores_the_random_key_witness :
  doPrediction 1 (Some "Ann") (Some "Bea") (sample_service sample_pipeline)
  = doPrediction 2147483647 (Some "Ann") (Some "Bea") (sample_service sample_pipeline).
Proof. apply doPrediction_ignores_the_random_key. Defined.

Lemma bind_Raise {A B} (m : M A) (k : A → M B) s e s1 :
  m s = (Raise e, s1) → bind m k s = (Raise e, s1).
Proof. unfold bind. by intros ->. Qed.

(** X9. Once the bout of two distinct non-empty names is built, what the
    model does wrong surfaces unchanged: an exception raised by the
    pipeline or by the explainer is the outcome of [doPrediction], and a
    pipeline that returns fewer than two rows of probabilities makes it
    raise [IndexError]. The service object is left as it was. *)
Theorem doPrediction_surfaces_model_errors (s : FighterService) (i : Z)
    (red blue : string) (bout : list row) :
  red ≠ "" → blue ≠ "" → red ≠ blue →
  makeBoutDf i red blue s = (Ok (Some bout), s) →
  (∀ e, predict_proba (pipeline s) bout = Raise e →
        doPrediction i (Some red) (Some blue) s = (Raise e, s))
  ∧ (∀ e probas, predict_proba (pipeline s) bout = Ok probas →
        shap_values (explainer s) bout = Raise e →
        doPrediction i (Some red) (Some blue) s = (Raise e, s))
  ∧ (∀ probas shaps, predict_proba (pipeline s) bout = Ok probas →
        shap_values (explainer s) bout = Ok shaps →
        (length probas < 2)%nat →
        doPrediction i (Some red) (Some blue) s = (Raise IndexError, s)).
Proof.
  intros Hr Hb Hne Hmk.
  rewrite (doPrediction_past_guards i red blue Hr Hb Hne).
  rewrite (bind_step _ _ _ _ _ Hmk).
  split; [|split].
  - intros e He. apply bind_Raise.
    unfold scoreBout, bind, attr, lift. by rewrite He.
  - intros e probas Hp He. apply bind_Raise.
    unfold scoreBout, bind, attr, lift. by rewrite Hp, He.
  - intros probas shaps Hp Hs Hlen.
    assert (Hscore : scoreBout bout s = (Ok (probas, shaps), s)).
    { unfold scoreBout, bind, attr, lift. by rewrite Hp, Hs. }
    rewrite (bind_step _ _ _ _ _ Hscore). cbn beta iota.
    destruct probas as [|p0 [|p1 probas]]; simpl in Hlen; try lia; reflexivity.
Qed.

Lemma doPrediction_surfaces_model_errors_witness :
  let s := sample_service failing_pipeline in
  doPrediction 7 (Some "Ann") (Some "Bea") s = (Raise KeyError, s).
Proof.
  intros s.
  edestruct (doPrediction_surfaces_model_errors s 7 "Ann" "Bea") as (H & _).
  - discriminate.
  - discriminate.
  - discriminate.
  - vm_compute. reflexivity.
  - apply (H KeyError). reflexivity.
Defined.

Lemma feature_label_value names c s :
  feature_label names c s = (Ok (label_of names c), s).
Proof.
  unfold feature_label, label_of, bind, lift.
  by destruct (dict_contains_cases names c) as [[-> ->]|(v & -> & -> & ->)].
Qed.

Lemma mapM_feature_label_value names l s :
  mapM (feature_label names) l s = (Ok (label_of names <$> l), s).
Proof.
  induction l as [|c l IH]; [done|]. cbn [mapM].
  by rewrite (bind_step _ _ _ _ _ (feature_label_value names c s)),
    (bind_step _ _ _ _ _ IH).
Qed.

(** ** One ascending order *)

Section OneOrder.
Context {A : Type} (le : A → A → bool).




End OneOrder.








Lemma doPrediction_scored_value (s : FighterService) (i : Z)
    (red blue : string) (x y : row) (px py : probs)
    (tx ty : list (string * float)) :
  red ≠ "" → blue ≠ "" → red ≠ blue →
  makeBoutDf i red blue s = (Ok (Some [x; y]), s) →
  predict_proba (pipeline s) [x; y] = Ok [px; py] →
  shap_values (explainer s) [x; y] = Ok [tx; ty] →
  let red_wins := Py.float_gt (red_fighter_prob px py) (blue_fighter_prob px py) in
  let index := (sort_values (if red_wins then tx else ty)).*1 in
  doPrediction i (Some red) (Some blue) s
  = (Ok (Prediction
           ((if red_wins then red_fighter_prob px py else blue_fighter_prob px py) * 100)
           (if red_wins then red else blue)
           (label_of (feature_to_name s) <$> Py.last_n 3 index)
           (label_of (feature_to_name s) <$> Py.first_n 3 index)), s).
Proof.
  intros Hr Hb Hne Hmk Hp Hs red_wins index.
  rewrite (doPrediction_past_guards i red blue Hr Hb Hne).
  rewrite (bind_step _ _ _ _ _ Hmk).
  assert (Hscore : scoreBout [x; y] s = (Ok ([px; py], [tx; ty]), s)).
  { unfold scoreBout, bind, attr, lift. by rewrite Hp, Hs. }
  rewrite (bind_step _ _ _ _ _ Hscore). cbn beta iota.
  rewrite (bind_step (iloc 0 [px; py]) _ s px s eq_refl).
  rewrite (bind_step (iloc 1 [px; py]) _ s py s eq_refl).
  cbv zeta. subst index red_wins.
  destruct (Py.float_gt (red_fighter_prob px py) (blue_fighter_prob px py)).
  - rewrite (bind_step (let* sv := iloc 0 [tx; ty] in ret (sv, red_fighter_prob px py, red))
               _ s (tx, red_fighter_prob px py, red) s eq_refl).
    cbn beta iota.
    rewrite (bind_step (attr feature_to_name) _ s _ s eq_refl).
    by rewrite (bind_step _ _ _ _ _ (mapM_feature_label_value _ _ s)),
      (bind_step _ _ _ _ _ (mapM_feature_label_value _ _ s)).
  - rewrite (bind_step (let* sv := iloc 1 [tx; ty] in ret (sv, blue_fighter_prob px py, blue))
               _ s (ty, blue_fighter_prob px py, blue) s eq_refl).
    cbn beta iota.
    rewrite (bind_step (attr feature_to_name) _ s _ s eq_refl).
    by rewrite (bind_step _ _ _ _ _ (mapM_feature_label_value _ _ s)),
      (bind_step _ _ _ _ _ (mapM_feature_label_value _ _ s)).
Qed.



Lemma sort_values_length sv : length (sort_values sv) = length sv.
Proof.
  unfold sort_values. induction sv as [|x sv IH]; simpl; [done|].
  rewrite <- IH. clear IH.
  generalize (sort_by (λ a b, float_le_nan_last a.2 b.2) sv). intros l.
  induction l as [|z l IH]; simpl; [done|].
  destruct (float_le_nan_last x.2 z.2); simpl; by rewrite ?IH.
Qed.

(** X11. A scored prediction has [min(3, n)] supporting and [min(3, n)]
    opposing labels, [n] being the number of features the explainer
    attributes on the winner's row; with three features or fewer the two
    lists are one and the same list. *)
Theorem factor_lists_sizes (s : FighterService) (i : Z)
    (red blue : string) (x y : row) (px py : probs)
    (tx ty : list (string * float)) :
  red ≠ "" → blue ≠ "" → red ≠ blue →
  makeBoutDf i red blue s = (Ok (Some [x; y]), s) →
  predict_proba (pipeline s) [x; y] = Ok [px; py] →
  shap_values (explainer s) [x; y] = Ok [tx; ty] →
  ∃ p, doPrediction i (Some red) (Some blue) s = (Ok p, s)
       ∧ let n := length (if Py.float_gt (red_fighter_prob px py)
                                (blue_fighter_prob px py) then tx else ty) in
         length (pos_shaps p) = (3 `min` n)%nat
         ∧ length (neg_shaps p) = (3 `min` n)%nat
         ∧ ((n ≤ 3)%nat → pos_shaps p = neg_shaps p).
Proof.
  intros Hr Hb Hne Hmk Hp Hs. eexists. split.
  - exact (doPrediction_scored_value s i red blue x y px py tx ty
             Hr Hb Hne Hmk Hp Hs).
  - cbv zeta. cbn [pos_shaps neg_shaps].
    set (t := if Py.float_gt _ _ then tx else ty).
    rewrite !length_fmap.
    unfold Py.last_n, Py.first_n.
    rewrite length_drop, length_take, !length_fmap, sort_values_length.
    split; [lia|]. split; [lia|].
    intros Hn. rewrite take_ge by (rewrite length_fmap, sort_values_length; lia).
    replace (length t - 3)%nat with 0%nat by lia.
    done.
Qed.

Lemma factor_lists_sizes_witness :
  let s := set_explainer two_feature_explainer (sample_service sample_pipeline) in
  ∃ p, doPrediction 7 (Some "Ann") (Some "Bea") s = (Ok p, s)
       ∧ length (pos_shaps p) = 2%nat ∧ length (neg_shaps p) = 2%nat
       ∧ pos_shaps p = neg_shaps p.
Proof.
  intros s.
  edestruct (factor_lists_sizes s 7 "Ann" "Bea") as (p & Hp & H1 & H2 & H3);
    [discriminate | discriminate | discriminate
    | vm_compute; reflexivity | vm_compute; reflexivity
    | vm_compute; reflexivity |].
  exists p. split; [exact Hp|]. split; [exact H1|]. split; [exact H2|].
  apply H3. vm_compute. lia.
Defined.

Lemma makeBoutDf_unresolved s i f1 f2 :
  length (rows_of_fighter f1 (latest_fights s)) ≠ 1%nat
  ∨ length (rows_of_fighter f2 (latest_fights s)) ≠ 1%nat →
  makeBoutDf i f1 f2 s = (Ok None, s).
Proof.
  intros Hlen. unfold makeBoutDf, getByFighter, bind, attr, ret. simpl.
  destruct Hlen as [H|H]; apply Nat.eqb_neq in H; rewrite H; simpl;
    [done | by rewrite orb_true_r].
Qed.

Lemma unknown_fighter_unresolved repr a s red blue :
  init repr a = Ok s →
  red ∉ fighter <$> fighters_csv a ∨ blue ∉ fighter <$> fighters_csv a →
  length (rows_of_fighter red (latest_fights s)) ≠ 1%nat
  ∨ length (rows_of_fighter blue (latest_fights s)) ≠ 1%nat.
Proof.
  intros Hinit Hun.
  assert (Hnd : NoDup (fighter <$> latest_fights s)).
  { destruct (init_Ok _ _ _ Hinit) as (_ & _ & -> & _). apply groupby_tail1_NoDup. }
  destruct Hun as [H|H]; [left|right]; intros Hlen; apply H;
    apply (latest_fights_names _ _ _ _ Hinit);
    by apply (rows_of_fighter_length _ _ Hnd).
Qed.

(** X12. On a service object built by [__init__], [doPrediction] on two
    distinct non-empty names of which one is not a fighter of the
    statistics file returns the sentinel: confidence 100.0, winner "-", no
    factors. *)
Theorem doPrediction_unknown_fighter_is_sentinel (repr : float → string)
    (a : artifacts) (s : FighterService) (i : Z) (red blue : string) :
  init repr a = Ok s →
  red ≠ "" → blue ≠ "" → red ≠ blue →
  red ∉ fighter <$> fighters_csv a ∨ blue ∉ fighter <$> fighters_csv a →
  doPrediction i (Some red) (Some blue) s = (Ok (Prediction 100 "-" [] []), s).
Proof.
  intros Hinit Hr Hb Hne Hun.
  pose proof (unknown_fighter_unresolved _ _ _ _ _ Hinit Hun) as Hlen.
  rewrite (doPrediction_past_guards i red blue Hr Hb Hne).
  by rewrite (bind_step _ _ _ _ _ (makeBoutDf_unresolved s i red blue Hlen)).
Qed.

Lemma doPrediction_unknown_fighter_is_sentinel_witness :
  let s := sample_service sample_pipeline in
  doPrediction 7 (Some "Ann") (Some "Zed") s = (Ok (Prediction 100 "-" [] []), s).
Proof.
  intros s.
  apply (doPrediction_unknown_fighter_is_sentinel repr_whole
           (sample_artifacts sample_pipeline sample_fighters_csv) s 7 "Ann" "Zed").
  - exact sample_init.
  - discriminate.
  - discriminate.
  - discriminate.
  - right. intros H. unfold sample_fighters_csv in H. simpl in H.
    repeat (apply elem_of_cons in H as [H|H]; [discriminate|]).
    by apply elem_of_nil in H.
Defined.



(** ** The rows of a bout *)

Section Suffixes.

Lemma substring_skip_more p t k m :
  substring (String.length p + k) m (p +:+ t) = substring k m t.
Proof. induction p as [|c p IH]; simpl; done. Qed.

Lemma ends_with_longer t' p t :
  (String.length t' ≤ String.length t)%nat →
  ends_with t' (p +:+ t) = ends_with t' t.
Proof.
  intros Hlen. unfold ends_with. rewrite length_append.
  replace (String.length p + String.length t - String.length t')%nat
    with (String.length p + (String.length t - String.length t'))%nat by lia.
  rewrite substring_skip_more.
  destruct (Nat.leb_spec (String.length t') (String.length t)); [|lia].
  destruct (Nat.leb_spec (String.length t') (String.length p + String.length t));
    [done | lia].
Qed.

Lemma substring_split s n :
  (n ≤ String.length s)%nat →
  s = substring 0 n s +:+ substring n (String.length s - n) s.
Proof.
  revert n. induction s as [|c s IH]; intros [|n] Hn; simpl in *; try lia.
  - done.
  - by rewrite substring_0_length.
  - change (String c s
            = String c (substring 0 n s +:+ substring n (String.length s - n) s)).
    f_equal. apply IH. lia.
Qed.

Lemma ends_with_split t s :
  ends_with t s = true → s = drop_last (String.length t) s +:+ t.
Proof.
  unfold ends_with, drop_last. intros [Hlen Heq]%andb_true_iff.
  apply Nat.leb_le in Hlen. apply String.eqb_eq in Heq.
  rewrite (substring_split s (String.length s - String.length t)) at 1 by lia.
  f_equal.
  replace (String.length s - (String.length s - String.length t))%nat
    with (String.length t) by lia.
  done.
Qed.

Lemma opponent_not_ratio c :
  ends_with "_opponent" c = true → ends_with "_ratio" c = false.
Proof.
  intros H. rewrite (ends_with_split _ _ H).
  by rewrite ends_with_longer by (simpl; lia).
Qed.

End Suffixes.

Lemma frame_loop_rows cols x y x' y' :
  result_foldl (λ df col, result_mapM (add_ratio col) df) [x; y] cols
  = Ok [x'; y'] →
  ratio_row cols x = Ok x' ∧ ratio_row cols y = Ok y'.
Proof.
  unfold ratio_row. revert x y.
  induction cols as [|c cols IH]; intros x y H.
  - simpl in H. by injection H as <- <-.
  - cbn [result_foldl] in H |- *.
    destruct (result_mapM (add_ratio c) [x; y]) as [df|] eqn:E; [|discriminate].
    apply result_mapM_two in E as (x1 & y1 & -> & -> & ->).
    cbn [result_bind] in H |- *. by apply IH.
Qed.

Lemma ratio_row_keeps cols r r' k :
  ratio_row cols r = Ok r' →
  (∀ c, c ∈ cols → drop_last 9 c +:+ "_ratio" ≠ k) →
  assoc k r' = assoc k r.
Proof.
  unfold ratio_row. revert r.
  induction cols as [|c cols IH]; intros r H Hk.
  - simpl in H. by injection H as <-.
  - cbn [result_foldl] in H.
    destruct (add_ratio c r) as [r1|] eqn:E; [|discriminate].
    cbn [result_bind] in H.
    rewrite (IH r1 H) by (intros c' Hc'; apply Hk; by right).
    unfold add_ratio in E.
    destruct (num_col (drop_last 9 c) r) as [u|]; [|discriminate].
    destruct (num_col c r) as [v|]; [|discriminate].
    simpl in E. injection E as <-.
    apply assoc_row_set_ne. intros ->. by apply (Hk c); [left|].
Qed.

Lemma add_ratio_Ok c r r1 :
  add_ratio c r = Ok r1 →
  ∃ u v, assoc (drop_last 9 c) r = Some (VNum u) ∧ assoc c r = Some (VNum v)
         ∧ r1 = row_set (drop_last 9 c +:+ "_ratio") (VNum ((u + 1) / (v + 1))%float) r.
Proof.
  unfold add_ratio, num_col.
  destruct (assoc (drop_last 9 c) r) as [[|u]|]; try discriminate.
  destruct (assoc c r) as [[|v]|]; try discriminate.
  simpl. intros [= <-]. eauto.
Qed.

Lemma ratio_row_value cols r r' c :
  ratio_row cols r = Ok r' →
  (∀ c', c' ∈ cols → ends_with "_opponent" c' = true) →
  c ∈ cols → ends_with "_ratio" (drop_last 9 c) = false →
  ∃ u v, assoc (drop_last 9 c) r = Some (VNum u) ∧ assoc c r = Some (VNum v)
         ∧ assoc (drop_last 9 c +:+ "_ratio") r'
           = Some (VNum ((u + 1) / (v + 1))%float).
Proof.
  revert r. induction cols as [|c0 cols IH]; intros r H Hall Hc Hn;
    [by apply elem_of_nil in Hc|].
  unfold ratio_row in H. cbn [result_foldl] in H.
  destruct (add_ratio c0 r) as [r1|] eqn:E; [|discriminate].
  cbn [result_bind] in H. fold (ratio_row cols r1) in H.
  destruct (add_ratio_Ok _ _ _ E) as (u0 & v0 & Hu0 & Hv0 & ->).
  destruct (decide (c ∈ cols)) as [Hin|Hnin].
  - destruct (IH _ H (λ c' Hc', Hall c' (list_elem_of_further _ _ _ Hc')) Hin Hn)
      as (u & v & Hu & Hv & Hres).
    exists u, v. split; [|split; [|done]].
    + rewrite assoc_row_set_ne in Hu; [done|].
      intros Heq. by rewrite Heq, ends_with_append in Hn.
    + rewrite assoc_row_set_ne in Hv; [done|].
      intros Heq.
      pose proof (opponent_not_ratio _ (Hall _ Hc)) as Hc'.
      by rewrite Heq, ends_with_append in Hc'.
  - apply elem_of_cons in Hc as [->|Hc]; [|done].
    exists u0, v0. split; [done|]. split; [done|].
    rewrite (ratio_row_keeps cols _ r' _ H).
    + apply assoc_row_set_eq.
    + intros c' Hc' Heq. apply append_inj_l in Heq.
      apply Hnin.
      rewrite (ends_with_split _ _ (Hall c0 (list_elem_of_here _ _))).
      rewrite (ends_with_split _ _ (Hall c' (list_elem_of_further _ _ _ Hc'))) in Hc'.
      change (String.length "_opponent") with 9%nat in *.
      by rewrite <- Heq.
Qed.

Lemma makeBoutDf_stages s i f1 f2 a b x y :
  rows_of_fighter f1 (latest_fights s) = [a] →
  rows_of_fighter f2 (latest_fights s) = [b] →
  makeBoutDf i f1 f2 s = (Ok (Some [x; y]), s) →
  ∃ x1 y1,
    ratio_row (numeric_opponent_columns [merged a b; merged b a]) (merged a b) = Ok x1
    ∧ ratio_row (numeric_opponent_columns [merged a b; merged b a]) (merged b a) = Ok y1
    ∧ add_stance_config x1 = Ok x ∧ add_stance_config y1 = Ok y.
Proof.
  intros Ha Hb. rewrite (makeBoutDf_resolved s i f1 f2 a b Ha Hb).
  unfold add_ratio_columns.
  destruct (result_foldl _ [merged a b; merged b a] _) as [df|] eqn:E;
    cbn [result_bind]; [|discriminate].
  destruct (result_mapM add_stance_config df) as [df'|] eqn:E'; [|discriminate].
  intros [= ->].
  assert (∃ x1 y1, df = [x1; y1]) as (x1 & y1 & ->).
  { apply ratio_loop_swap in E as (x1 & y1 & -> & _). eauto. }
  apply result_mapM_two in E' as (x' & y' & [= <- <-] & Hx & Hy).
  apply frame_loop_rows in E as [E1 E2]. eauto 10.
Qed.

Lemma add_stance_config_Ok r r' :
  add_stance_config r = Ok r' →
  ∃ sa sb, assoc "Stance" r = Some (VStr sa)
           ∧ assoc "Stance_opponent" r = Some (VStr sb)
           ∧ r' = row_set "stance_config"
                    (VStr (str_add (str_add sa (Some "-")) sb)) r.
Proof.
  unfold add_stance_config, str_col.
  destruct (assoc "Stance" r) as [[sa|]|]; try discriminate.
  destruct (assoc "Stance_opponent" r) as [[sb|]|]; try discriminate.
  simpl. intros [= <-]. eauto.
Qed.

Lemma numeric_opponent_columns_intro c v r df :
  (c, VNum v) ∈ r → ends_with "_opponent" c = true →
  c ∈ numeric_opponent_columns (r :: df).
Proof.
  intros Hin He. unfold numeric_opponent_columns.
  apply list_elem_of_fmap. exists (c, VNum v). split; [done|].
  apply list_elem_of_In, filter_In. split; [by apply list_elem_of_In | done].
Qed.

Lemma ratio_row_keeps_plain cols r r' k :
  ratio_row cols r = Ok r' → ends_with "_ratio" k = false →
  assoc k r' = assoc k r.
Proof.
  intros H Hk. apply (ratio_row_keeps cols r r' k H).
  intros c _ Heq. by rewrite <- Heq, ends_with_append in Hk.
Qed.

(** The rows a bout is built from, on a service object built by
    [__init__] from a table whose rows share their distinct columns. *)
Lemma bout_rows_well_formed repr a0 s f1 f2 a b :
  init repr a0 = Ok s →
  uniform_columns (fighters_csv a0) → distinct_columns (fighters_csv a0) →
  rows_of_fighter f1 (latest_fights s) = [a] →
  rows_of_fighter f2 (latest_fights s) = [b] →
  kinds (columns_of a) = kinds (columns_of b)
  ∧ plain_columns a ∧ plain_columns b.
Proof.
  intros Hinit Hu Hd Ha Hb.
  pose proof (rows_of_fighter_elem _ _ _ _ Ha) as HrA.
  pose proof (rows_of_fighter_elem _ _ _ _ Hb) as HrB.
  split; [|split].
  - by apply (init_uniform_columns _ _ _ Hinit Hu).
  - by apply (init_plain_columns _ _ _ _ Hinit Hd).
  - by apply (init_plain_columns _ _ _ _ Hinit Hd).
Qed.

(** X14. The ratio features of a bout. On a service object built by
    [__init__] from a table whose rows share their distinct columns and in
    which some row has a stance, the bout of two names that each match one
    row of the latest fights is built, and for every numeric column [n] of those rows whose name does
    not end in "_ratio", the first row holds under [n + "_ratio"] the
    fighter's value plus one divided by the opponent's value plus one, and
    the second row holds the inverse ratio. *)
Theorem bout_ratio_columns (repr : float → string) (a0 : artifacts)
    (s : FighterService) (i : Z) (f1 f2 : string) (a b : fight_row)
    (n : string) (u v : float) :
  init repr a0 = Ok s →
  uniform_columns (fighters_csv a0) → distinct_columns (fighters_csv a0) →
  has_stance (fighters_csv a0) →
  rows_of_fighter f1 (latest_fights s) = [a] →
  rows_of_fighter f2 (latest_fights s) = [b] →
  (n, VNum u) ∈ columns_of a → (n, VNum v) ∈ columns_of b →
  ends_with "_ratio" n = false →
  ∃ x y, makeBoutDf i f1 f2 s = (Ok (Some [x; y]), s)
         ∧ assoc (n +:+ "_ratio") x = Some (VNum ((u + 1) / (v + 1))%float)
         ∧ assoc (n +:+ "_ratio") y = Some (VNum ((v + 1) / (u + 1))%float).
Proof.
  intros Hinit Hu Hd Hst Ha Hb Hna Hnb Hn.
  destruct (bout_rows_well_formed _ _ _ _ _ _ _ Hinit Hu Hd Ha Hb)
    as (Hk & Hpa & Hpb).
  destruct (makeBoutDf_builds s i f1 f2 a b Ha Hb Hk Hpa Hpb) as (x & y & Hmk);
    [eapply (init_text_stances _ _ _ _ Hinit Hu Hst), rows_of_fighter_elem; eauto
    |eapply (init_text_stances _ _ _ _ Hinit Hu Hst), rows_of_fighter_elem; eauto|].
  exists x, y. split; [done|].
  destruct (makeBoutDf_stages s i f1 f2 a b x y Ha Hb Hmk)
    as (x1 & y1 & Hx1 & Hy1 & Hx & Hy).
  set (cols := numeric_opponent_columns [merged a b; merged b a]) in *.
  set (c := n +:+ "_opponent").
  assert (Hsa : assoc n (merged a b) = Some (VNum u)
                ∧ assoc c (merged a b) = Some (VNum v)).
  { unfold c. rewrite merged_assoc_opponent by done.
    rewrite merged_assoc_self;
      [|done|apply list_elem_of_fmap; by exists (n, VNum u)].
    split; apply assoc_elem; first [apply Hpa | apply Hpb | done]. }
  assert (Hsb : assoc n (merged b a) = Some (VNum v)
                ∧ assoc c (merged b a) = Some (VNum u)).
  { unfold c. rewrite merged_assoc_opponent by done.
    rewrite merged_assoc_self;
      [|done|apply list_elem_of_fmap; by exists (n, VNum v)].
    split; apply assoc_elem; first [apply Hpb | apply Hpa | done]. }
  assert (Hc : c ∈ cols).
  { apply (numeric_opponent_columns_intro c v); [|apply ends_with_append].
    unfold merged. rewrite merge_row_all_suffixed
      by (symmetry; by apply kinds_names).
    apply elem_of_app. right. apply list_elem_of_fmap. by exists (n, VNum v). }
  assert (Hall : ∀ c', c' ∈ cols → ends_with "_opponent" c' = true).
  { intros c' (? & _ & ?)%numeric_opponent_columns_elem. done. }
  assert (Hdl : drop_last 9 c = n) by apply (drop_last_append n "_opponent").
  assert (Hkeep : ∀ r1 r, add_stance_config r1 = Ok r →
            assoc (n +:+ "_ratio") r = assoc (n +:+ "_ratio") r1).
  { intros r1 r (sa & sb & _ & _ & ->)%add_stance_config_Ok.
    apply assoc_row_set_ne. intros Heq.
    pose proof (ends_with_append n "_ratio") as He. by rewrite Heq in He. }
  split.
  - destruct (ratio_row_value cols _ _ c Hx1 Hall Hc) as (u' & v' & Hu' & Hv' & Hres);
      [by rewrite Hdl|].
    rewrite Hdl in Hu', Hres. destruct Hsa as [Hsu Hsv].
    rewrite Hsu in Hu'. rewrite Hsv in Hv'.
    injection Hu' as <-. injection Hv' as <-.
    by rewrite (Hkeep x1 x Hx).
  - destruct (ratio_row_value cols _ _ c Hy1 Hall Hc) as (u' & v' & Hu' & Hv' & Hres);
      [by rewrite Hdl|].
    rewrite Hdl in Hu', Hres. destruct Hsb as [Hsu Hsv].
    rewrite Hsu in Hu'. rewrite Hsv in Hv'.
    injection Hu' as <-. injection Hv' as <-.
    by rewrite (Hkeep y1 y Hy).
Qed.

Lemma bout_ratio_columns_witness :
  let s := sample_service sample_pipeline in
  ∃ x y, makeBoutDf 7 "Ann" "Bea" s = (Ok (Some [x; y]), s)
         ∧ assoc "wins_ratio" x = Some (VNum ((5 + 1) / (7 + 1)))
         ∧ assoc "wins_ratio" y = Some (VNum ((7 + 1) / (5 + 1))).
Proof.
  intros s.
  apply (bout_ratio_columns repr_whole
           (sample_artifacts sample_pipeline sample_fighters_csv) s 7 "Ann" "Bea"
           (FightRow "Ann" "Welterweight" "2018-05-05" 170 165 5 1 (VStr (Some "Orthodox"))
              [("avg_SIG_STR_landed", VNum 24); ("Reach_cms_ratio", VNum 1)])
           (FightRow "Bea" "Welterweight" "2017-03-04" nan 170 7 2 (VStr (Some "Southpaw"))
              [("avg_SIG_STR_landed", VNum 31); ("Reach_cms_ratio", VNum 1)])
           "wins" 5 7).
  - exact sample_init.
  - exact sample_csv_uniform_columns.
  - exact sample_csv_distinct_columns.
  - exact sample_csv_has_stance.
  - reflexivity.
  - reflexivity.
  - unfold columns_of. simpl. do 5 right. by left.
  - unfold columns_of. simpl. do 5 right. by left.
  - reflexivity.
Defined.

(** X15. Who is who in a bout, and the stance pairing. Take a service
    object built by [__init__] from a table whose rows share their distinct
    columns, and two names that each match one row of the latest fights.
    When some row of the file has a stance, the bout is built; its first
    row has the first name as [fighter] and the second as
    [fighter_opponent], its second row the reverse; the [stance_config] of
    a row is the fighter's stance, "-" and the opponent's stance, and it is
    missing as soon as one of the two stances is. When no row of the file
    has a stance, the column is [float64] and [__makeBoutDf] raises
    [TypeError]. *)
Theorem bout_orientation_and_stance (repr : float → string) (a0 : artifacts)
    (s : FighterService) (i : Z) (f1 f2 : string) (a b : fight_row) :
  init repr a0 = Ok s →
  uniform_columns (fighters_csv a0) → distinct_columns (fighters_csv a0) →
  rows_of_fighter f1 (latest_fights s) = [a] →
  rows_of_fighter f2 (latest_fights s) = [b] →
  let config sa sb :=
    match sa, sb with
    | Some u, Some v => Some ((u +:+ "-") +:+ v)
    | _, _ => None
    end in
  (has_stance (fighters_csv a0) →
   ∃ sa sb x y,
     Stance a = VStr sa ∧ Stance b = VStr sb
     ∧ makeBoutDf i f1 f2 s = (Ok (Some [x; y]), s)
     ∧ assoc "fighter" x = Some (VStr (Some f1))
     ∧ assoc "fighter_opponent" x = Some (VStr (Some f2))
     ∧ assoc "fighter" y = Some (VStr (Some f2))
     ∧ assoc "fighter_opponent" y = Some (VStr (Some f1))
     ∧ assoc "stance_config" x = Some (VStr (config sa sb))
     ∧ assoc "stance_config" y = Some (VStr (config sb sa)))
  ∧ (no_stances (fighters_csv a0) →
     makeBoutDf i f1 f2 s = (Raise TypeError, s)).
Proof.
  intros Hinit Hu Hd Ha Hb config.
  destruct (bout_rows_well_formed _ _ _ _ _ _ _ Hinit Hu Hd Ha Hb)
    as (Hk & Hpa & Hpb).
  pose proof (rows_of_fighter_elem _ _ _ _ Ha) as HrA.
  pose proof (rows_of_fighter_elem _ _ _ _ Hb) as HrB.
  split; cycle 1.
  { intros Hno. destruct (init_float_stances _ _ _ _ Hinit Hno HrA) as [x0 Hx0].
    exact (makeBoutDf_raises_on_float_stance s i f1 f2 a b x0 Ha Hb Hk Hpa Hpb Hx0). }
  intros Hst.
  destruct (init_text_stances _ _ _ _ Hinit Hu Hst HrA) as [sa Hsa].
  destruct (init_text_stances _ _ _ _ Hinit Hu Hst HrB) as [sb Hsb].
  destruct (makeBoutDf_builds s i f1 f2 a b Ha Hb Hk Hpa Hpb) as (x & y & Hmk);
    [by eexists | by eexists |].
  exists sa, sb, x, y. split; [done|]. split; [done|]. split; [done|].
  destruct (makeBoutDf_stages s i f1 f2 a b x y Ha Hb Hmk)
    as (x1 & y1 & Hx1 & Hy1 & Hx & Hy).
  assert (Hfa : fighter a = f1).
  { assert (In a (rows_of_fighter f1 (latest_fights s))) as Hin
      by (rewrite Ha; by left).
    apply filter_In in Hin as [_ Hin]. by apply String.eqb_eq. }
  assert (Hfb : fighter b = f2).
  { assert (In b (rows_of_fighter f2 (latest_fights s))) as Hin
      by (rewrite Hb; by left).
    apply filter_In in Hin as [_ Hin]. by apply String.eqb_eq. }
  assert (Hone : ∀ (a b : fight_row) sa sb cols x1 x,
            kinds (columns_of a) = kinds (columns_of b) → plain_columns a →
            Stance a = VStr sa → Stance b = VStr sb →
            ratio_row cols (merged a b) = Ok x1 → add_stance_config x1 = Ok x →
            assoc "fighter" x = Some (VStr (Some (fighter a)))
            ∧ assoc "fighter_opponent" x = Some (VStr (Some (fighter b)))
            ∧ assoc "stance_config" x = Some (VStr (config sa sb))).
  { clear. intros a b sa0 sb0 cols x1 x Hk Hpa Ea Eb Hx1 Hx.
    destruct (add_stance_config_Ok _ _ Hx) as (sa & sb & Hsa & Hsb & ->).
    rewrite (ratio_row_keeps_plain _ _ _ "Stance" Hx1 eq_refl) in Hsa.
    rewrite (ratio_row_keeps_plain _ _ _ "Stance_opponent" Hx1 eq_refl) in Hsb.
    destruct (stance_of_merged a b Hk Hpa) as [Sa Sb].
    rewrite Sa, Ea in Hsa. rewrite Sb, Eb in Hsb.
    injection Hsa as <-. injection Hsb as <-.
    rewrite !assoc_row_set_ne by discriminate.
    rewrite assoc_row_set_eq.
    rewrite (ratio_row_keeps_plain _ _ _ "fighter" Hx1 eq_refl).
    rewrite (ratio_row_keeps_plain _ _ _ "fighter_opponent" Hx1 eq_refl).
    change "fighter_opponent" with ("fighter" +:+ "_opponent").
    rewrite merged_assoc_opponent by done.
    rewrite merged_assoc_self;
      [|done|unfold columns_of; rewrite fmap_app; apply elem_of_app; left; by left].
    split; [reflexivity|]. split; [reflexivity|].
    unfold config, str_add. by destruct sa0, sb0. }
  destruct (Hone a b sa sb _ x1 x Hk Hpa Hsa Hsb Hx1 Hx) as (H1 & H2 & H3).
  destruct (Hone b a sb sa _ y1 y (eq_sym Hk) Hpb Hsb Hsa Hy1 Hy) as (H4 & H5 & H6).
  rewrite Hfa, Hfb in *. done.
Qed.

Lemma bout_orientation_and_stance_witness :
  let s := sample_service sample_pipeline in
  ∃ x y, makeBoutDf 7 "Ann" "Bea" s = (Ok (Some [x; y]), s)
         ∧ assoc "fighter" x = Some (VStr (Some "Ann"))
         ∧ assoc "fighter_opponent" x = Some (VStr (Some "Bea"))
         ∧ assoc "fighter" y = Some (VStr (Some "Bea"))
         ∧ assoc "fighter_opponent" y = Some (VStr (Some "Ann"))
         ∧ assoc "stance_config" x = Some (VStr (Some "Orthodox-Southpaw"))
         ∧ assoc "stance_config" y = Some (VStr (Some "Southpaw-Orthodox")).
Proof.
  intros s.
  destruct (proj1 (bout_orientation_and_stance repr_whole
           (sample_artifacts sample_pipeline sample_fighters_csv) s 7 "Ann" "Bea"
           (FightRow "Ann" "Welterweight" "2018-05-05" 170 165 5 1 (VStr (Some "Orthodox"))
              [("avg_SIG_STR_landed", VNum 24); ("Reach_cms_ratio", VNum 1)])
           (FightRow "Bea" "Welterweight" "2017-03-04" nan 170 7 2 (VStr (Some "Southpaw"))
              [("avg_SIG_STR_landed", VNum 31); ("Reach_cms_ratio", VNum 1)])
           sample_init sample_csv_uniform_columns sample_csv_distinct_columns
           eq_refl eq_refl) sample_csv_has_stance)
    as (sa & sb & x & y & Ea & Eb & Hmk & H1 & H2 & H3 & H4 & H5 & H6).
  injection Ea as <-. injection Eb as <-.
  exists x, y. repeat (split; [assumption|]). assumption.
Defined.

(** ** The full list of fighters *)

(** X16. On a service object built by [__init__], the unfiltered list
    [getAllFighters()] returns names every fighter of the statistics file
    exactly once, however many fights the file holds for the fighter. *)
Theorem getAllFighters_names_each_fighter_once (repr : float → string)
    (a : artifacts) (s : FighterService) :
  init repr a = Ok s →
  ∃ l, getAllFighters None s = (Ok l, s)
       ∧ NoDup l
       ∧ ∀ f, f ∈ l ↔ f ∈ fighter <$> fighters_csv a.
Proof.
  intros Hinit. destruct (init_Ok _ _ _ Hinit) as (Hf & _).
  exists (fighters s). split; [done|]. rewrite Hf. split.
  - apply NoDup_elements.
  - intros f. by rewrite elem_of_elements, elem_of_list_to_set.
Qed.

Lemma getAllFighters_names_each_fighter_once_witness :
  let s := sample_service sample_pipeline in
  ∃ l, getAllFighters None s = (Ok l, s)
       ∧ NoDup l
       ∧ ∀ f, f ∈ l ↔ f ∈ fighter <$> sample_fighters_csv.
Proof.
  intros s.
  exact (getAllFighters_names_each_fighter_once repr_whole
           (sample_artifacts sample_pipeline sample_fighters_csv) s sample_init).
Defined.

(** ** The corner dropdowns *)

Lemma getAllFighters_total w s : ∃ l s', getAllFighters w s = (Ok l, s').
Proof.
  destruct (Py.truthy w) eqn:Ht.
  - destruct w as [w|]; [|discriminate].
    rewrite getAllFighters_class; [eauto|]. intros ->. discriminate.
  - rewrite (getAllFighters_falsy w s Ht). eauto.
Qed.

Lemma in_names_Some v l :
  in_names v l = true → ∃ f, v = Some f ∧ f ∈ l.
Proof.
  destruct v as [f|]; [|discriminate]. simpl.
  intros H%bool_decide_eq_true. eauto.
Qed.

(** X17. [setFightersByWeightClass] never raises; it gives both corners
    the same options, one per name [getAllFighters] returns for the weight
    class, label and value both the name; and a corner keeps its selection
    only if the selection is among those names, being cleared to [None]
    otherwise. *)
Theorem setFightersByWeightClass_keeps_listed_selections
    (s : FighterService) (weight red blue : option string) :
  ∃ l s',
    getAllFighters weight s = (Ok l, s')
    ∧ setFightersByWeightClass weight red blue s
      = (Ok ((λ f, DropdownOption f f) <$> l, (λ f, DropdownOption f f) <$> l,
             (if in_names red l then red else None),
             (if in_names blue l then blue else None)), s')
    ∧ (∀ v, (if in_names v l then v else None) = None
            ∨ ∃ f, v = Some f ∧ f ∈ l ∧ (if in_names v l then v else None) = Some f).
Proof.
  destruct (getAllFighters_total weight s) as (l & s' & Hl).
  exists l, s'. split; [done|]. split.
  - unfold setFightersByWeightClass. rewrite (bind_step _ _ _ _ _ Hl).
    cbv zeta. by destruct (in_names red l), (in_names blue l).
  - intros v. destruct (in_names v l) eqn:E; [|by left].
    right. destruct (in_names_Some _ _ E) as (f & -> & Hf). eauto.
Qed.

Lemma getAllFighters_class_built repr a s w :
  init repr a = Ok s → w ≠ "" →
  (getAllFighters (Some w) s).1
  = Ok (fighter <$> List.filter (λ r, String.eqb (weight_class r) w) (fighters_csv a)).
Proof.
  intros Hinit Hw. destruct (init_Ok _ _ _ Hinit) as (_ & Hmap & _).
  rewrite (getAllFighters_class w s Hw). simpl.
  by rewrite Hmap, foldl_weight_append, lookup_empty.
Qed.

Lemma setFightersByWeightClass_total_aux s weight red blue :
  ∃ l s',
    getAllFighters weight s = (Ok l, s')
    ∧ setFightersByWeightClass weight red blue s
      = (Ok ((λ f, DropdownOption f f) <$> l, (λ f, DropdownOption f f) <$> l,
             (if in_names red l then red else None),
             (if in_names blue l then blue else None)), s').
Proof.
  destruct (getAllFighters_total weight s) as (l & s' & Hl).
  exists l, s'. split; [done|].
  unfold setFightersByWeightClass. rewrite (bind_step _ _ _ _ _ Hl).
  cbv zeta. by destruct (in_names red l), (in_names blue l).
Qed.

(** X18. On a service object built by [__init__], choosing a non-empty
    weight class keeps the red corner's selection exactly when the
    statistics file holds a fight of that fighter in that class, latest or
    not; choosing none (or "Open Weight") keeps it exactly when the file
    holds the fighter. *)
Theorem setFightersByWeightClass_selection_survives (repr : float → string)
    (a : artifacts) (s : FighterService) (weight blue : option string)
    (f : string) :
  init repr a = Ok s →
  ∃ opts blue' red' s',
    setFightersByWeightClass weight (Some f) blue s
    = (Ok (opts, opts, red', blue'), s')
    ∧ (red' = Some f ∨ red' = None)
    ∧ (red' = Some f ↔
       ∃ r, r ∈ fighters_csv a ∧ fighter r = f
            ∧ (Py.truthy weight = true → weight = Some (weight_class r))).
Proof.
  intros Hinit.
  destruct (setFightersByWeightClass_total_aux s weight (Some f) blue)
    as (l & s' & Hl & Hset).
  eexists _, _, _, s'. split; [exact Hset|].
  assert (Hmem : f ∈ l ↔ ∃ r, r ∈ fighters_csv a ∧ fighter r = f
            ∧ (Py.truthy weight = true → weight = Some (weight_class r))).
  { destruct (Py.truthy weight) eqn:Ht.
    - destruct weight as [w|]; [|discriminate].
      assert (w ≠ "") as Hw by (intros ->; discriminate).
      pose proof (getAllFighters_class_built _ _ _ w Hinit Hw) as Hc.
      rewrite Hl in Hc. simpl in Hc. injection Hc as ->.
      rewrite list_elem_of_fmap. split.
      + intros (r & -> & [Hr Hw']%list_elem_of_In%filter_In).
        apply String.eqb_eq in Hw'. exists r.
        split; [by apply list_elem_of_In|]. split; [done|]. intros _. by rewrite Hw'.
      + intros (r & Hr & <- & Hw'). exists r. split; [done|].
        apply list_elem_of_In, filter_In. split; [by apply list_elem_of_In|].
        specialize (Hw' eq_refl). injection Hw' as ->. apply String.eqb_refl.
    - rewrite (getAllFighters_falsy _ s Ht) in Hl. injection Hl as <- <-.
      destruct (init_Ok _ _ _ Hinit) as (Hf & _).
      rewrite Hf, elem_of_elements, elem_of_list_to_set, list_elem_of_fmap.
      split.
      + intros (r & -> & Hr). exists r. split; [done|]. split; [done|]. discriminate.
      + intros (r & Hr & <- & _). eauto. }
  simpl. destruct (bool_decide (f ∈ l)) eqn:E.
  - apply bool_decide_eq_true in E. split; [by left|].
    split; [intros _; by apply Hmem | done].
  - apply bool_decide_eq_false in E. split; [by right|].
    split; [discriminate | intros H; by apply Hmem in H].
Qed.

Lemma setFightersByWeightClass_selection_survives_witness :
  let s := sample_service sample_pipeline in
  ∃ opts blue' red' s',
    setFightersByWeightClass (Some "Lightweight") (Some "Bea") (Some "Ann") s
    = (Ok (opts, opts, red', blue'), s')
    ∧ (red' = Some "Bea" ∨ red' = None)
    ∧ (red' = Some "Bea" ↔
       ∃ r, r ∈ sample_fighters_csv ∧ fighter r = "Bea"
            ∧ (Py.truthy (Some "Lightweight") = true
               → Some "Lightweight" = Some (weight_class r))).
Proof.
  intros s.
  exact (setFightersByWeightClass_selection_survives repr_whole
           (sample_artifacts sample_pipeline sample_fighters_csv) s
           (Some "Lightweight") (Some "Ann") "Bea" sample_init).
Defined.

(** ** The corner texts *)

(** X19. [getFighterStats], and with it [setRedNick] and [setBlueNick],
    never raises and leaves the service object as it was. For no fighter
    the text is empty; otherwise it is the heading with the quoted
    nickname, present only when what [getNickname] returns is truthy,
    followed by the lines "reach: " and "height: " with what [getReach]
    and [getHeight] return. The wins and losses are fetched but are no
    part of the text. A NaN that [getNickname] returns, as it does when
    the nickname column is [float64], is truthy: the heading then reads
    "nan" in quotes. *)
Theorem getFighterStats_text (repr : float → string) (s : FighterService)
    (fighter : option string) :
  ∃ nick reach height,
    getNickname (the_str fighter) s = (Ok nick, s)
    ∧ getReach (the_str fighter) s = (Ok reach, s)
    ∧ getHeight (the_str fighter) s = (Ok height, s)
    ∧ getFighterStats repr fighter s
      = (Ok (if Py.truthy fighter then
               (if nick_truthy nick
                then "##### " +:+ DQ +:+ nick_format repr nick +:+ DQ else "")
               +:+ LF +:+ LF +:+ "reach: " +:+ reach
               +:+ LF +:+ LF +:+ "height: " +:+ height
             else ""), s)
    ∧ (∀ x, fighters_to_nicks s !! the_str fighter = Some (VNum x) →
            PrimFloat.is_nan x = true →
            nick = VNum x ∧ nick_truthy nick = true
            ∧ nick_format repr nick = "nan")
    ∧ setRedNick repr fighter s = getFighterStats repr fighter s
    ∧ setBlueNick repr fighter s = getFighterStats repr fighter s.
Proof.
  pose proof (getNickname_value s (the_str fighter)) as Hn.
  pose proof (cms_accessor_value fighters_to_reach (the_str fighter) s) as Hr.
  pose proof (cms_accessor_value fighters_to_height (the_str fighter) s) as Hh.
  pose proof (count_accessor_value fighters_to_wins (the_str fighter) s) as Hw.
  pose proof (count_accessor_value fighters_to_losses (the_str fighter) s) as Hl.
  eexists _, _, _. split; [exact Hn|]. split; [exact Hr|]. split; [exact Hh|].
  split; [|split; [|done]].
  - unfold getFighterStats. destruct (Py.truthy fighter); [|done].
    cbn [negb].
    rewrite (bind_step _ _ _ _ _ Hn). cbv zeta.
    rewrite (bind_step (getReach _) _ _ _ _ Hr).
    rewrite (bind_step (getHeight _) _ _ _ _ Hh).
    rewrite (bind_step (getWins _) _ _ _ _ Hw).
    by rewrite (bind_step (getLosses _) _ _ _ _ Hl).
  - intros x Hx Hnan. rewrite Hx. split; [done|]. simpl.
    rewrite (nan_ne_zero x Hnan). split; [done|].
    unfold Py.str_float. by rewrite Hnan.
Qed.

(** ** The result text *)

Lemma unpack3_short {A} (l : list A) s :
  (0 < length l < 3)%nat → @unpack3 A l s = (Raise ValueError, s).
Proof. destruct l as [|a [|b [|c [|d l]]]]; simpl; intros; (done || lia). Qed.

Lemma is_empty_length {A} (l : list A) :
  is_empty l = bool_decide (length l = 0%nat).
Proof. by destruct l. Qed.

Lemma factor_lengths names (t : list (string * float)) :
  length (label_of names <$> Py.last_n 3 (sort_values t).*1) = (3 `min` length t)%nat
  ∧ length (label_of names <$> Py.first_n 3 (sort_values t).*1) = (3 `min` length t)%nat.
Proof.
  rewrite !length_fmap. unfold Py.last_n, Py.first_n.
  rewrite length_drop, length_take, !length_fmap, sort_values_length. lia.
Qed.

Lemma winner_not_dash (c : bool) (red blue : string) :
  red ≠ "-" → blue ≠ "-" → String.eqb (if c then red else blue) "-" = false.
Proof. intros. apply String.eqb_neq. by destruct c. Qed.

(** X20. [makePrediction] raises [ValueError] when the bout of two
    distinct names, neither of them "-", is scored and the explainer
    attributes one or two features only: the factor lists are then not
    empty, and unpacking them into three names fails. *)
Theorem makePrediction_raises_below_three_features (s : FighterService) (i : Z)
    (red blue : string) (x y : row) (px py : probs)
    (tx ty : list (string * float)) :
  red ≠ "" → blue ≠ "" → red ≠ blue → red ≠ "-" → blue ≠ "-" →
  makeBoutDf i red blue s = (Ok (Some [x; y]), s) →
  predict_proba (pipeline s) [x; y] = Ok [px; py] →
  shap_values (explainer s) [x; y] = Ok [tx; ty] →
  (0 < length (if Py.float_gt (red_fighter_prob px py) (blue_fighter_prob px py)
               then tx else ty) < 3)%nat →
  makePrediction i (Some red) (Some blue) s = (Raise ValueError, s).
Proof.
  intros Hr Hb Hne Hrd Hbd Hmk Hp Hs Hn.
  pose proof (doPrediction_scored_value s i red blue x y px py tx ty
                Hr Hb Hne Hmk Hp Hs) as Hdo.
  cbv zeta in Hdo.
  unfold makePrediction. rewrite (bind_step _ _ _ _ _ Hdo).
  cbn [winner pos_shaps neg_shaps confidence].
  rewrite (winner_not_dash _ _ _ Hrd Hbd).
  set (t := if Py.float_gt _ _ then tx else ty) in *.
  destruct (factor_lengths (feature_to_name s) t) as [Hpos Hneg].
  rewrite !is_empty_length, Hpos, Hneg.
  rewrite bool_decide_eq_false_2 by lia. cbn [negb andb].
  apply bind_Raise, unpack3_short. lia.
Qed.

Lemma makePrediction_raises_below_three_features_witness :
  let s := set_explainer two_feature_explainer (sample_service sample_pipeline) in
  makePrediction 7 (Some "Ann") (Some "Bea") s = (Raise ValueError, s).
Proof.
  intros s.
  eapply (makePrediction_raises_below_three_features s 7 "Ann" "Bea");
    [discriminate | discriminate | discriminate | discriminate | discriminate
    | vm_compute; reflexivity | vm_compute; reflexivity
    | vm_compute; reflexivity | vm_compute; lia].
Defined.




(** X22. With one corner empty, or the same name in both, [makePrediction]
    shows that name as the winner at confidence 100 with no sections, and
    shows nothing at all when that name is "-"; with both corners empty it
    shows nothing. The service object is left as it was. *)
Theorem makePrediction_single_selection (s : FighterService) (i : Z)
    (f : string) (e e' : option string) :
  f ≠ "" → Py.truthy e = false → Py.truthy e' = false →
  let shown := if String.eqb f "-" then EmptyMarkdown else ResultMarkdown f 100 None in
  makePrediction i (Some f) e s = (Ok shown, s)
  ∧ makePrediction i e (Some f) s = (Ok shown, s)
  ∧ makePrediction i (Some f) (Some f) s = (Ok shown, s)
  ∧ makePrediction i e e' s = (Ok EmptyMarkdown, s).
Proof.
  intros Hf He He' shown. subst shown.
  pose proof (truthy_Some f Hf) as Ht.
  assert (H1 : doPrediction i (Some f) e s = (Ok (Prediction 100 f [] []), s)).
  { unfold doPrediction. by rewrite Ht, He. }
  assert (H2 : doPrediction i e (Some f) s = (Ok (Prediction 100 f [] []), s)).
  { unfold doPrediction. by rewrite Ht, He. }
  assert (H3 : doPrediction i (Some f) (Some f) s = (Ok (Prediction 100 f [] []), s)).
  { unfold doPrediction. rewrite Ht. cbn [negb andb].
    by rewrite bool_decide_eq_true_2. }
  assert (H4 : doPrediction i e e' s = (Ok (Prediction 100 "-" [] []), s)).
  { unfold doPrediction. by rewrite He, He'. }
  unfold makePrediction.
  rewrite (bind_step _ _ _ _ _ H1), (bind_step _ _ _ _ _ H2),
    (bind_step _ _ _ _ _ H3), (bind_step _ _ _ _ _ H4).
  cbn [winner pos_shaps neg_shaps confidence is_empty negb andb].
  by destruct (String.eqb f "-").
Qed.

Lemma makePrediction_single_selection_witness :
  let s := sample_service sample_pipeline in
  makePrediction 7 (Some "Ann") None s = (Ok (ResultMarkdown "Ann" 100 None), s)
  ∧ makePrediction 7 None (Some "Ann") s = (Ok (ResultMarkdown "Ann" 100 None), s)
  ∧ makePrediction 7 (Some "Ann") (Some "Ann") s
    = (Ok (ResultMarkdown "Ann" 100 None), s)
  ∧ makePrediction 7 None (Some "") s = (Ok EmptyMarkdown, s).
Proof.
  intros s.
  apply (makePrediction_single_selection s 7 "Ann" None (Some ""));
    [discriminate | reflexivity | reflexivity].
Defined.

(** X23. On a service object built by [__init__], [makePrediction] on two
    distinct non-empty names of which one is not a fighter of the
    statistics file shows nothing, and raises nothing. *)
Theorem makePrediction_unknown_fighter_shows_nothing (repr : float → string)
    (a : artifacts) (s : FighterService) (i : Z) (red blue : string) :
  init repr a = Ok s →
  red ≠ "" → blue ≠ "" → red ≠ blue →
  red ∉ fighter <$> fighters_csv a ∨ blue ∉ fighter <$> fighters_csv a →
  makePrediction i (Some red) (Some blue) s = (Ok EmptyMarkdown, s).
Proof.
  intros Hinit Hr Hb Hne Hun.
  pose proof (unknown_fighter_unresolved _ _ _ _ _ Hinit Hun) as Hlen.
  unfold makePrediction.
  rewrite (doPrediction_past_guards i red blue Hr Hb Hne).
  unfold bind at 1.
  by rewrite (bind_step _ _ _ _ _ (makeBoutDf_unresolved s i red blue Hlen)).
Qed.

Lemma makePrediction_unknown_fighter_shows_nothing_witness :
  let s := sample_service sample_pipeline in
  makePrediction 7 (Some "Zed") (Some "Ann") s = (Ok EmptyMarkdown, s).
Proof.
  intros s.
  apply (makePrediction_unknown_fighter_shows_nothing repr_whole
           (sample_artifacts sample_pipeline sample_fighters_csv) s 7 "Zed" "Ann").
  - exact sample_init.
  - discriminate.
  - discriminate.
  - discriminate.
  - left. intros H. unfold sample_fighters_csv in H. simpl in H.
    repeat (apply elem_of_cons in H as [H|H]; [discriminate|]).
    by apply elem_of_nil in H.
Defined.

(** ** When [__init__] builds the service object *)










(** ** The processed table *)

(** X25. On a service object built by [__init__], [getFightersDF] returns
    the rows of the statistics file in their order, each with its columns
    unchanged but for a missing reach, replaced by the median of the reaches
    present in the file, and a missing height, replaced likewise by the
    median of the heights present. *)
Theorem getFightersDF_fills_missing_with_medians (repr : float → string)
    (a : artifacts) (s : FighterService) :
  init repr a = Ok s →
  ∃ df,
    getFightersDF s = (Ok df, s)
    ∧ length df = length (fighters_csv a)
    ∧ ∀ i r, fighters_csv a !! i = Some r →
        ∃ r', df !! i = Some r'
          ∧ fighter r' = fighter r ∧ weight_class r' = weight_class r
          ∧ date r' = date r ∧ wins r' = wins r ∧ losses r' = losses r
          ∧ Stance r' = Stance r ∧ stats r' = stats r
          ∧ Reach_cms r'
            = (if PrimFloat.is_nan (Reach_cms r)
               then median_skipna (Reach_cms <$> fighters_csv a) else Reach_cms r)
          ∧ Height_cms r'
            = (if PrimFloat.is_nan (Height_cms r)
               then median_skipna (Height_cms <$> fighters_csv a) else Height_cms r).
Proof.
  unfold init.
  destruct (has_is_winner (fighters_csv a)); simpl; [|discriminate].
  destruct (result_mapM (λ r, let? w := count_entry (wins r) in Ok (fighter r, w)) _)
    as [lw|]; simpl; [|discriminate].
  destruct (result_mapM (λ r, let? w := count_entry (losses r) in Ok (fighter r, w)) _)
    as [ll|]; simpl; [|discriminate].
  intros Hs. exists (fighters_df s). split; [reflexivity|].
  injection Hs as <-. cbn [fighters_df]. split.
  - by rewrite !length_fmap.
  - intros i r Hi. eexists. split.
    + rewrite !list_lookup_fmap, Hi. reflexivity.
    + cbn [fighter weight_class date wins losses Stance stats Reach_cms Height_cms
             set_Reach_Height].
      rewrite <- list_fmap_compose.
      repeat (split; [reflexivity|]). reflexivity.
Qed.

Lemma getFightersDF_fills_missing_with_medians_witness :
  let s := sample_service sample_pipeline in
  ∃ df,
    getFightersDF s = (Ok df, s)
    ∧ length df = 3%nat
    ∧ ∃ r', df !! 1%nat = Some r' ∧ fighter r' = "Bea"
            ∧ Reach_cms r' = 170%float ∧ Height_cms r' = 170%float.
Proof.
  intros s.
  destruct (getFightersDF_fills_missing_with_medians repr_whole
              (sample_artifacts sample_pipeline sample_fighters_csv) s sample_init)
    as (df & Hdf & Hlen & Hrows).
  exists df. split; [exact Hdf|]. split; [exact Hlen|].
  destruct (Hrows 1%nat _ eq_refl)
    as (r' & Hr' & Hf & _ & _ & _ & _ & _ & _ & Hreach & Hheight).
  exists r'. split; [exact Hr'|]. split; [exact Hf|]. split; [exact Hreach|exact Hheight].
Defined.
